(** * hashdist [hit push]: the manifest reconciliation of [Push.run]

    A shallow embedding of [Push.run] of [hashdist/cli/remote_cli.py] and the
    properties of its push plan, its per-item manifest persistence and its
    dry-run report.

    Reading conventions.
    - The imports at the top of the module (lines 1-16) are taken to
      succeed.  The imports inside [run] (lines 151-170) are statements of
      [run] and are modelled: [pcs_api], [hashlib] and [hashdist.core] can
      be imported; [pcs_cred] is the local name line 156 gives to
      [pcs_api.credentials], not a module, so an import that starts from it
      (line 157) finds no module.
    - The string literals of lines 218-219 and 222-223 are broken across two
      lines in the file; they are read as the one message they spell.  They
      are arguments of logger calls.
    - Logger calls that pass a message have no effect on the modelled state.
      The calls [ctx.logger.info()] of lines 205 and 291 pass no message;
      whether the logger accepts that is a field of [Ctx].
    - [json], [hashlib], [tar] and the [pcs_api] storage are external.  A
      serialised manifest is kept as the manifest it parses to ([Json]), the
      digest function is a section variable, and every call that can fail for
      an outside reason (tar, download, create_folder, upload) takes its
      outcome from the [oracle] of the world.  What the
      [StdoutProgressListener] of a transfer prints is a field of the world.
    - Manifest files and manifest blobs hold a manifest as [json.dumps]
      writes it, or content that is not JSON; JSON text of another shape is
      outside the model. *)

From Stdlib Require Import String Ascii List.
From stdpp Require Import base option list gmap sets strings.

Local Open Scope string_scope.
Local Open Scope list_scope.

(** ** Data model *)

(** The value recorded under one collection key.  The build manifest maps an
    artifact name to a digest (a JSON object), the source manifest keeps a
    list of pack file names (a JSON array, so order and repetition are
    kept). *)
Inductive entry :=
| EDict (d : gmap string string)
| EList (l : list string).

(** The content of a file or blob.  [Json m] is the text [json.dumps(m)] of
    the manifest [m], and the only text [json.loads] reads back as [m].
    [Raw s] is content that is not JSON text (an archive, a pack file, a
    truncated manifest): [json.loads] raises [ValueError] on it.  JSON text
    of another shape than a manifest (an array, a number, an object whose
    values are neither objects nor arrays of names) is not a content of
    this model; what is proved here is about stores whose manifest files
    and manifest blobs are manifests, are missing, or are not JSON. *)
Inductive bytes :=
| Json (m : gmap string entry)
| Raw (s : string).

(** Python's [x in e] for a name [x]: key presence for a dict, element
    presence for a list.  Digests are not looked at. *)
Definition entry_contains (e : entry) (x : string) : bool :=
  match e with
  | EDict d => bool_decide (is_Some (d !! x))
  | EList l => bool_decide (x ∈ l)
  end.

(** [k in manifest and x in manifest[k]]. *)
Definition recorded (manifest : gmap string entry) (k x : string) : bool :=
  match manifest !! k with
  | Some e => entry_contains e x
  | None => false
  end.

(** ** Remote paths: [pcs_api.models.CPath]

    [CPath] normalises a path name: it is cut at every slash and empty
    components are dropped, so a leading, trailing or doubled slash does not
    matter.  A path is kept as its components. *)
Definition cpath : Type := list string.

Definition is_slash (c : ascii) : bool := Ascii.eqb c "/"%char.

Fixpoint split_path (cur s : string) : list string :=
  match s with
  | EmptyString => match cur with EmptyString => [] | _ => [cur] end
  | String c s' =>
      if is_slash c
      then match cur with
           | EmptyString => split_path EmptyString s'
           | _ => cur :: split_path EmptyString s'
           end
      else split_path (cur +:+ String c EmptyString) s'
  end.

Definition CPath (path_name : string) : cpath := split_path "" path_name.

(** [p.add(basename)] is [CPath(p.path_name + '/' + basename)]. *)
Definition cpath_add (p : cpath) (basename : string) : cpath :=
  p ++ CPath basename.

(** [os.path.join] of a directory and an entry name. *)
Definition pjoin (a b : string) : string := a +:+ "/" +:+ b.

(** ** The world the command runs in *)

Inductive event :=
| Download (p : cpath)
| CreateFolder (p : cpath)
| Upload (p : cpath) (b : bytes) (content_type : option string)
| ReadFile (name : string)
| WriteFile (name : string) (b : bytes)
| Tar (archive directory : string)
| Remove (path : string).

Inductive exn :=
| NameError (name : string)
| TypeError
| AttributeError
| KeyError (key : string)
| ValueError
| IOError (path : string)
| OSError (path : string)
| ImportError (module : string)
| CalledProcessError
| StorageError (p : cpath)
| SystemExit (code : nat).

Inductive result (A : Type) :=
| Ok (a : A)
| Raise (e : exn).
Arguments Ok {A} a.
Arguments Raise {A} e.

Record World := mkWorld {
  (** [os.listdir(store.artifact_root)] and, for each package listed,
      [os.listdir] of its directory; each directory is listed once.  An
      archive that [tar] wrote into a package directory is listed there
      until it is removed. *)
  artifact_root : list (string * list string);
  (** [os.listdir(cache.cache_path/<subdir>)]; no binding when the
      directory is missing. *)
  cache_path : gmap string (list string);
  (** What [tar czf] writes for a directory, and the content of a file of
      the source cache. *)
  archive_of : string → string;
  pack_file : string → string;
  (** The local manifest caches, by file name: [../build_manifest.json]
      beside the artifact root and [../source_manifest.json] beside the
      source cache. *)
  manifest_files : gmap string bytes;
  (** Archives written under the artifact root and not yet removed. *)
  tarballs : gmap string bytes;
  (** Remote storage. *)
  blobs : gmap cpath bytes;
  folders : gset cpath;
  (** Credentials of the remote, as [hit remote add] leaves them. *)
  has_app_info : bool;
  has_user_credentials : bool;
  (** Outcome of the coming external calls, first call first;
      [true] is success, and so is every call past the end. *)
  oracle : list bool;
  stdout : list string;
  trace : list event;
  (** What the [StdoutProgressListener] of a download or upload request
      prints, when the transfer goes through ([true]) and when it fails
      ([false]). *)
  progress : event → bool → list string
}.

Definition set_artifact_root
    (f : list (string * list string) → list (string * list string)) (w : World) : World :=
  mkWorld (f (artifact_root w)) (cache_path w) (archive_of w) (pack_file w)
    (manifest_files w) (tarballs w) (blobs w) (folders w)
    (has_app_info w) (has_user_credentials w) (oracle w) (stdout w) (trace w)
    (progress w).

Definition set_manifest_files (f : gmap string bytes → gmap string bytes) (w : World) : World :=
  mkWorld (artifact_root w) (cache_path w) (archive_of w) (pack_file w)
    (f (manifest_files w)) (tarballs w) (blobs w) (folders w)
    (has_app_info w) (has_user_credentials w) (oracle w) (stdout w) (trace w)
    (progress w).

Definition set_tarballs (f : gmap string bytes → gmap string bytes) (w : World) : World :=
  mkWorld (artifact_root w) (cache_path w) (archive_of w) (pack_file w)
    (manifest_files w) (f (tarballs w)) (blobs w) (folders w)
    (has_app_info w) (has_user_credentials w) (oracle w) (stdout w) (trace w)
    (progress w).

Definition set_blobs (f : gmap cpath bytes → gmap cpath bytes) (w : World) : World :=
  mkWorld (artifact_root w) (cache_path w) (archive_of w) (pack_file w)
    (manifest_files w) (tarballs w) (f (blobs w)) (folders w)
    (has_app_info w) (has_user_credentials w) (oracle w) (stdout w) (trace w)
    (progress w).

Definition set_folders (f : gset cpath → gset cpath) (w : World) : World :=
  mkWorld (artifact_root w) (cache_path w) (archive_of w) (pack_file w)
    (manifest_files w) (tarballs w) (blobs w) (f (folders w))
    (has_app_info w) (has_user_credentials w) (oracle w) (stdout w) (trace w)
    (progress w).

Definition set_oracle (o : list bool) (w : World) : World :=
  mkWorld (artifact_root w) (cache_path w) (archive_of w) (pack_file w)
    (manifest_files w) (tarballs w) (blobs w) (folders w)
    (has_app_info w) (has_user_credentials w) o (stdout w) (trace w)
    (progress w).

Definition set_stdout (f : list string → list string) (w : World) : World :=
  mkWorld (artifact_root w) (cache_path w) (archive_of w) (pack_file w)
    (manifest_files w) (tarballs w) (blobs w) (folders w)
    (has_app_info w) (has_user_credentials w) (oracle w) (f (stdout w)) (trace w)
    (progress w).

Definition set_trace (f : list event → list event) (w : World) : World :=
  mkWorld (artifact_root w) (cache_path w) (archive_of w) (pack_file w)
    (manifest_files w) (tarballs w) (blobs w) (folders w)
    (has_app_info w) (has_user_credentials w) (oracle w) (stdout w) (f (trace w))
    (progress w).

(** ** Statements and exceptions

    A computation runs in a world and ends normally or by raising; what it
    did to the world before raising stays done. *)
Definition M (A : Type) : Type := World → result A * World.

Definition ret {A} (a : A) : M A := λ w, (Ok a, w).

Definition bind {A B} (m : M A) (f : A → M B) : M B :=
  λ w, match m w with
       | (Ok a, w') => f a w'
       | (Raise e, w') => (Raise e, w')
       end.

Definition raise {A} (e : exn) : M A := λ w, (Raise e, w).

(** [try: body  except: handler], a bare [except]. *)
Definition try_except {A} (body handler : M A) : M A :=
  λ w, match body w with
       | (Ok a, w') => (Ok a, w')
       | (Raise _, w') => handler w'
       end.

Declare Scope py_scope.
Delimit Scope py_scope with py.
Notation "x <- c1 ;; c2" := (bind c1 (λ x, c2))
  (at level 100, c1 at next level, c2 at level 200, right associativity) : py_scope.
Notation "c1 ;; c2" := (bind c1 (λ _, c2))
  (at level 100, c2 at level 200, right associativity) : py_scope.
Local Open Scope py_scope.

Definition emit (e : event) : M unit := λ w, (Ok tt, set_trace (λ t, t ++ [e]) w).

(** The outcome of the next external call. *)
Definition external : M bool :=
  λ w, match oracle w with
       | [] => (Ok true, w)
       | b :: o => (Ok b, set_oracle o w)
       end.

(** *** Storage capability ([pcs_api]) *)

(** The report of the progress listener of a request, on standard output. *)
Definition report_progress (request : event) (ok : bool) : M unit :=
  λ w, (Ok tt, set_stdout (λ out, out ++ progress w request ok) w).

(** Every download and upload request of [run] carries a
    [StdoutProgressListener] (lines 245-246, 297-298, 311-312, 357-358,
    399-400 and 412-413). *)
Definition storage_download (p : cpath) : M bytes :=
  emit (Download p);;
  ok <- external;;
  if ok : bool then
    found <- (λ w, (Ok (blobs w !! p), w));;
    match found with
    | Some b => report_progress (Download p) true;; ret b
    | None => report_progress (Download p) false;; raise (StorageError p)
    end
  else report_progress (Download p) false;; raise (StorageError p).

Definition storage_create_folder (p : cpath) : M unit :=
  emit (CreateFolder p);;
  ok <- external;;
  if ok : bool then λ w, (Ok tt, set_folders (λ f, {[p]} ∪ f) w)
  else raise (StorageError p).

Definition storage_upload (p : cpath) (b : bytes) (content_type : option string) : M unit :=
  emit (Upload p b content_type);;
  ok <- external;;
  report_progress (Upload p b content_type) ok;;
  if ok : bool then λ w, (Ok tt, set_blobs (λ m, <[p := b]> m) w)
  else raise (StorageError p).

(** *** Local files *)

Definition json_loads (b : bytes) : M (gmap string entry) :=
  match b with
  | Json m => ret m
  | Raw _ => raise ValueError
  end.

(** [open(pjoin("..", name), "r").read()]. *)
Definition read_manifest_file (name : string) : M bytes :=
  emit (ReadFile name);;
  λ w, match manifest_files w !! name with
       | Some b => (Ok b, w)
       | None => (Raise (IOError name), w)
       end.

(** [open(pjoin("..", name), "w").write(b)]. *)
Definition write_manifest_file (name : string) (b : bytes) : M unit :=
  emit (WriteFile name b);;
  λ w, (Ok tt, set_manifest_files (λ m, <[name := b]> m) w).

(** [os.path.split]: the directory and the name of a path, cut at its
    last slash; no directory when there is no slash. *)
Fixpoint path_split (path : string) : option string * string :=
  match path with
  | EmptyString => (None, EmptyString)
  | String c path' =>
      match path_split path' with
      | (Some dir, name) => (Some (String c dir), name)
      | (None, name) =>
          if is_slash c then (Some EmptyString, name) else (None, String c name)
      end
  end.

(** A file appears in the listing of a directory, or leaves it. *)
Definition add_entry (dir name : string) (listing : list (string * list string))
  : list (string * list string) :=
  (λ d, if bool_decide (d.1 = dir)
        then (d.1, if bool_decide (name ∈ d.2) then d.2 else d.2 ++ [name])
        else d) <$> listing.

Definition remove_entry (dir name : string) (listing : list (string * list string))
  : list (string * list string) :=
  (λ d, if bool_decide (d.1 = dir)
        then (d.1, filter (λ y, y ≠ name) d.2)
        else d) <$> listing.

(** The same for a file named by its path under the artifact root, which
    is the working directory (line 211). *)
Definition add_file (path : string) (listing : list (string * list string))
  : list (string * list string) :=
  match path_split path with
  | (Some dir, name) => add_entry dir name listing
  | (None, _) => listing
  end.

Definition remove_file (path : string) (listing : list (string * list string))
  : list (string * list string) :=
  match path_split path with
  | (Some dir, name) => remove_entry dir name listing
  | (None, _) => listing
  end.

(** [subprocess.check_call(["tar", "czf", archive, directory])]: the
    archive is written at its path, inside the package directory. *)
Definition check_call_tar (archive directory : string) : M unit :=
  emit (Tar archive directory);;
  ok <- external;;
  if ok : bool
  then λ w, (Ok tt,
             set_artifact_root (add_file archive)
               (set_tarballs (λ m, <[archive := Raw (archive_of w directory)]> m) w))
  else raise CalledProcessError.

(** The content of an archive, for [open(path, "rb").read()] and for
    [FileByteSource(path)]. *)
Definition read_tarball (path : string) : M bytes :=
  λ w, match tarballs w !! path with
       | Some b => (Ok b, w)
       | None => (Raise (IOError path), w)
       end.

Definition os_remove (path : string) : M unit :=
  emit (Remove path);;
  λ w, match tarballs w !! path with
       | Some _ =>
           (Ok tt,
            set_artifact_root (remove_file path) (set_tarballs (λ m, delete path m) w))
       | None => (Raise (OSError path), w)
       end.

Definition stdout_write (s : string) : M unit :=
  λ w, (Ok tt, set_stdout (λ o, o ++ [s]) w).

(** ** Arguments and context of [Push.run] *)

Record Args := mkArgs {
  dry_run : bool;
  force : bool;
  objects : string;
  name : string
}.

Record Ctx := mkCtx {
  (** Whether [ctx.logger.info()], called with no message, returns. *)
  logger_accepts_no_message : bool
}.

(** A logger call with a message. *)
Definition logger_info : M unit := ret tt.

(** [ctx.logger.info()]. *)
Definition logger_info_no_message (ctx : Ctx) : M unit :=
  if logger_accepts_no_message ctx then ret tt else raise TypeError.

(** Names a statement of [Push.run] can refer to at line 173: the globals
    of the module, the parameters of [run], the names bound by the imports
    of lines 151-170 and the built-in names the module uses. *)
Definition names_in_scope : list string :=
  [ "sys"; "os"; "subprocess"; "shutil"; "pjoin"; "pexists"; "dedent"; "json";
    "DEFAULT_STORE_DIR"; "DEFAULT_CONFIG_DIRS"; "DEFAULT_CONFIG_FILENAME_REPR";
    "DEFAULT_CONFIG_FILENAME"; "get_config_example_filename";
    "register_subcommand"; "Remote"; "Push";
    "ctx"; "args";
    "hashlib"; "dropbox"; "googledrive"; "pcs_cred"; "AppInfoFileRepository";
    "UserCredentialsFileRepository"; "UserCredentials"; "StorageFacade";
    "MemoryByteSource"; "MemoryByteSink"; "FileByteSource"; "FileByteSink";
    "StdoutProgressListener"; "CPath"; "CFolder"; "CBlob"; "CUploadRequest";
    "CDownloadRequest"; "BuildStore"; "SourceCache";
    "exit"; "repr"; "open"; "str"; "bytes"; "set"; "object"; "staticmethod";
    "AssertionError" ].

(** Evaluating a name. *)
Definition load_name (n : string) : M unit :=
  if bool_decide (n ∈ names_in_scope) then ret tt else raise (NameError n).

(** The modules an import statement of the file finds.  No module is
    called [pcs_cred]: that is a name [run] binds, and [import] does not
    look names up. *)
Definition importable : list string :=
  [ "hashlib"; "pprint"; "hashdist.core";
    "pcs_api.providers"; "pcs_api.credentials"; "pcs_api.storage";
    "pcs_api.bytes_io"; "pcs_api.models";
    "pcs_api.credentials.user_credentials"; "pcs_api.oauth.oauth2_bootstrap" ].

(** [import module] and [from module import names]. *)
Definition import_module (module : string) : M unit :=
  if bool_decide (module ∈ importable) then ret tt else raise (ImportError module).

(** ** Python operations on the manifest *)

(** [if k not in manifest: manifest[k] = empty]. *)
Definition ensure_key (empty : entry) (manifest : gmap string entry) (k : string)
  : gmap string entry :=
  match manifest !! k with
  | Some _ => manifest
  | None => <[k := empty]> manifest
  end.

(** [if k not in push_manifest: push_manifest[k] = set()] followed by
    [push_manifest[k].add(x)]. *)
Definition push_manifest_add (push_manifest : gmap string (gset string)) (k x : string)
  : gmap string (gset string) :=
  <[k := {[x]} ∪ default ∅ (push_manifest !! k)]> push_manifest.

(** [manifest[package][artifact] = digest]. *)
Definition set_digest (manifest : gmap string entry) (package artifact digest : string)
  : M (gmap string entry) :=
  match manifest !! package with
  | None => raise (KeyError package)
  | Some (EDict d) => ret (<[package := EDict (<[artifact := digest]> d)]> manifest)
  | Some (EList _) => raise TypeError
  end.

(** [manifest[subdir].append(source_pack)]. *)
Definition append_pack (manifest : gmap string entry) (subdir source_pack : string)
  : M (gmap string entry) :=
  match manifest !! subdir with
  | None => raise (KeyError subdir)
  | Some (EList l) => ret (<[subdir := EList (l ++ [source_pack])]> manifest)
  | Some (EDict _) => raise AttributeError
  end.

(** ** The delta planner (lines 259-274 and 371-385)

    The inner loop over the entries of one directory.  [manifest[k]] is
    bound when it runs, so [x in manifest[k]] is [recorded manifest k x]. *)
Definition plan_entries (force : bool) (manifest : gmap string entry) (k : string)
    (push_manifest : gmap string (gset string)) (entries : list string)
  : gmap string (gset string) :=
  foldl (λ pm x,
           if recorded manifest k x && negb force then pm
           else push_manifest_add pm k x)
        push_manifest entries.

(** One turn of the outer loop. *)
Definition plan_key (empty : entry) (force : bool)
    (acc : gmap string entry * gmap string (gset string)) (dir : string * list string)
  : gmap string entry * gmap string (gset string) :=
  let manifest := ensure_key empty acc.1 dir.1 in
  (manifest, plan_entries force manifest dir.1 acc.2 dir.2).

Definition plan (empty : entry) (inventory : list (string * list string))
    (manifest : gmap string entry) (force : bool)
  : gmap string entry * gmap string (gset string) :=
  foldl (plan_key empty force) (manifest, ∅) inventory.

(** Lines 259-274: a new package gets [{}]. *)
Definition plan_build := plan (EDict ∅).

(** Lines 371-385: a new subdirectory gets []. *)
Definition plan_source := plan (EList []).

(** The pairs of [for k, xs in push_manifest.iteritems(): for x in xs],
    in one of the orders the dict and the sets may yield them. *)
Definition plan_items (push_manifest : gmap string (gset string)) : list (string * string) :=
  map_to_list push_manifest ≫= λ kv, pair kv.1 <$> elements kv.2.

(** ** The dry-run reporter (lines 221-237 and 331-349) *)

Definition nl : string := String (ascii_of_nat 10) EmptyString.

Definition report_entries (local_manifest : gmap string entry) (k : string)
    (acc : string * string) (entries : list string) : string * string :=
  foldl (λ sp x,
           if recorded local_manifest k x
           then (sp.1 +:+ k +:+ "/" +:+ x +:+ " Skipping" +:+ nl, sp.2)
           else (sp.1, sp.2 +:+ k +:+ "/" +:+ x +:+ " Pushing" +:+ nl))
        acc entries.

Definition report (local_manifest : gmap string entry)
    (inventory : list (string * list string)) : string * string :=
  foldl (λ sp dir, report_entries local_manifest dir.1 sp dir.2) ("", "") inventory.

Definition dry_run_report (hint : string) (local_manifest : gmap string entry)
    (inventory : list (string * list string)) : M unit :=
  let sp := report local_manifest inventory in
  stdout_write sp.1;;
  stdout_write hint;;
  stdout_write sp.2.

(** ** Manifest store and remote manifest fetcher *)

(** Lines 213-220 and 322-330. *)
Definition load_local_manifest (file : string) : M (gmap string entry) :=
  try_except (b <- read_manifest_file file;; json_loads b) (ret ∅).

(** Lines 239-254 and 351-366. *)
Definition fetch_remote_manifest (bpath : cpath) : M (gmap string entry) :=
  try_except (b <- storage_download bpath;; json_loads b) (ret ∅).

(** ** Inventory *)

Definition os_listdir_artifact_root : M (list (string * list string)) :=
  λ w, (Ok (artifact_root w), w).

Definition os_listdir_cache (subdir : string) : M (list string) :=
  λ w, match cache_path w !! subdir with
       | Some l => (Ok l, w)
       | None => (Raise (OSError subdir), w)
       end.

Definition pack_subdirs : list string :=
  map (pjoin "packs") ["tar.bz2"; "tar.gz"; "zip"].

Fixpoint listdir_all (subdirs : list string) : M (list (string * list string)) :=
  match subdirs with
  | [] => ret []
  | subdir :: rest =>
      l <- os_listdir_cache subdir;;
      ls <- listdir_all rest;;
      ret ((subdir, l) :: ls)
  end.

Definition read_pack_file (path : string) : M bytes :=
  λ w, (Ok (Raw (pack_file w path)), w).

(** [repr] of a path made of plain characters. *)
Definition repr (s : string) : string := "'" +:+ s +:+ "'".

Section PushRun.

(** [hashlib.sha1(data).hexdigest()]. *)
Context (sha1_hexdigest : bytes → string).

(** ** The pusher *)

Definition build_manifest_file : string := "build_manifest.json".
Definition source_manifest_file : string := "source_manifest.json".

(** The body of the loop of lines 276-316, for one artifact. *)
Definition push_artifact (ctx : Ctx) (package artifact : string)
    (manifest : gmap string entry) : M (gmap string entry) :=
  let artifact_path := pjoin package artifact in
  let artifact_tgz := artifact +:+ ".tar.gz" in
  let artifact_tgz_path := pjoin package artifact_tgz in
  logger_info;;
  check_call_tar artifact_tgz_path artifact_path;;
  data <- read_tarball artifact_tgz_path;;
  manifest <- set_digest manifest package artifact (sha1_hexdigest data);;
  logger_info_no_message ctx;;
  let fpath := CPath ("/bld/" +:+ package) in
  storage_create_folder fpath;;
  let bpath := cpath_add fpath artifact_tgz in
  source <- read_tarball artifact_tgz_path;;
  storage_upload bpath source None;;
  logger_info;;
  os_remove artifact_tgz_path;;
  let new_manifest_string := Json manifest in
  let fpath := CPath "/bld/" in
  let bpath := cpath_add fpath build_manifest_file in
  storage_upload bpath new_manifest_string (Some "text/plain");;
  write_manifest_file build_manifest_file new_manifest_string;;
  ret manifest.

Fixpoint push_artifacts (ctx : Ctx) (work : list (string * string))
    (manifest : gmap string entry) : M (gmap string entry) :=
  match work with
  | [] => ret manifest
  | (package, artifact) :: rest =>
      manifest <- push_artifact ctx package artifact manifest;;
      push_artifacts ctx rest manifest
  end.

(** The body of the loop of lines 387-417, for one source pack. *)
Definition push_source_pack (subdir source_pack : string)
    (manifest : gmap string entry) : M (gmap string entry) :=
  manifest <- append_pack manifest subdir source_pack;;
  let source_pack_path := pjoin subdir source_pack in
  stdout_write ("Pushing " +:+ repr source_pack_path +:+ nl);;
  let fpath := CPath ("/src/" +:+ subdir) in
  storage_create_folder fpath;;
  let bpath := cpath_add fpath source_pack in
  source <- read_pack_file source_pack_path;;
  storage_upload bpath source None;;
  logger_info;;
  let new_manifest_string := Json manifest in
  let fpath := CPath "/src" in
  let bpath := cpath_add fpath source_manifest_file in
  storage_upload bpath new_manifest_string (Some "text/plain");;
  write_manifest_file source_manifest_file new_manifest_string;;
  ret manifest.

Fixpoint push_source_packs (work : list (string * string))
    (manifest : gmap string entry) : M (gmap string entry) :=
  match work with
  | [] => ret manifest
  | (subdir, source_pack) :: rest =>
      manifest <- push_source_pack subdir source_pack manifest;;
      push_source_packs rest manifest
  end.

(** ** The two object classes *)

(** Lines 239-275: fetch, write the local copy, plan. *)
Definition build_plan (args : Args)
  : M (gmap string entry * gmap string (gset string)) :=
  manifest <- fetch_remote_manifest (cpath_add (CPath "/bld/") build_manifest_file);;
  logger_info;;
  write_manifest_file build_manifest_file (Json manifest);;
  logger_info;;
  inventory <- os_listdir_artifact_root;;
  let mp := plan_build inventory manifest (force args) in
  logger_info;;
  ret mp.

(** Lines 239-316. *)
Definition build_push (ctx : Ctx) (args : Args) : M unit :=
  mp <- build_plan args;;
  push_artifacts ctx (plan_items mp.2) mp.1;;
  ret tt.

Definition build_hint : string := "Use --force to push all artifacts" +:+ nl.
Definition source_hint : string := "Use --force to push skipped source packs" +:+ nl.

(** Lines 221-237. *)
Definition build_dry_run (local_manifest : gmap string entry) : M unit :=
  logger_info;;
  inventory <- os_listdir_artifact_root;;
  dry_run_report build_hint local_manifest inventory.

(** Lines 210-316. *)
Definition build_objects (ctx : Ctx) (args : Args) : M unit :=
  local_manifest <- load_local_manifest build_manifest_file;;
  if dry_run args then build_dry_run local_manifest
  else build_push ctx args.

(** Lines 351-386. *)
Definition source_plan (args : Args)
  : M (gmap string entry * gmap string (gset string)) :=
  manifest <- fetch_remote_manifest (cpath_add (CPath "/src/") source_manifest_file);;
  logger_info;;
  write_manifest_file source_manifest_file (Json manifest);;
  logger_info;;
  inventory <- listdir_all pack_subdirs;;
  let mp := plan_source inventory manifest (force args) in
  logger_info;;
  ret mp.

(** Lines 351-417. *)
Definition source_push (args : Args) : M unit :=
  mp <- source_plan args;;
  push_source_packs (plan_items mp.2) mp.1;;
  ret tt.

(** Lines 331-349. *)
Definition source_dry_run (local_manifest : gmap string entry) : M unit :=
  logger_info;;
  inventory <- listdir_all pack_subdirs;;
  dry_run_report source_hint local_manifest inventory.

(** Lines 318-417. *)
Definition source_objects (args : Args) : M unit :=
  local_manifest <- load_local_manifest source_manifest_file;;
  if dry_run args then source_dry_run local_manifest
  else source_push args.

(** ** Storage set-up (lines 171-207) *)

(** Lines 174-207, which follow the evaluation of [arg.name]. *)
Definition open_storage (ctx : Ctx) : M unit :=
  has_info <- (λ w, (Ok (has_app_info w), w));;
  (if has_info : bool then ret tt
   else logger_info;; logger_info;; raise (SystemExit 1));;
  has_cred <- (λ w, (Ok (has_user_credentials w), w));;
  (if has_cred : bool then ret tt
   else logger_info;; logger_info;; raise (SystemExit 1));;
  logger_info;;
  logger_info_no_message ctx;;
  logger_info;;
  logger_info.

Definition setup_storage (ctx : Ctx) : M unit :=
  logger_info;;
  (* remote_path = pjoin(DEFAULT_STORE_DIR, "remotes", arg.name) *)
  load_name "pjoin";;
  load_name "DEFAULT_STORE_DIR";;
  load_name "arg";;
  open_storage ctx.

(** ** [Push.run] *)

(** Lines 151-170. *)
Definition imports : M unit :=
  import_module "hashlib";;
  import_module "pcs_api.providers";;
  import_module "pcs_api.credentials";;
  import_module "pcs_cred.app_info_file_repo";;
  import_module "pcs_cred.user_creds_file_repo";;
  import_module "pcs_cred.user_credentials";;
  import_module "pcs_api.storage";;
  import_module "pcs_api.bytes_io";;
  import_module "pcs_api.models";;
  import_module "hashdist.core".

(** Lines 171-417: the statements of [run] that follow its imports. *)
Definition run_body (ctx : Ctx) (args : Args) : M unit :=
  (if dry_run args then ret tt else setup_storage ctx);;
  (if bool_decide (objects args ∈ ["build"; "build_and_source"])
   then build_objects ctx args else ret tt);;
  (if bool_decide (objects args ∈ ["source"; "build_and_source"])
   then source_objects args else ret tt).

(** Lines 150-417. *)
Definition run (ctx : Ctx) (args : Args) : M unit :=
  imports;;
  run_body ctx args.

End PushRun.

(** * Properties *)

Arguments CPath : simpl never.
Arguments cpath_add : simpl never.

(** [x in push_manifest[k]]. *)
Definition planned (push_manifest : gmap string (gset string)) (k x : string) : Prop :=
  ∃ s, push_manifest !! k = Some s ∧ x ∈ s.

(** [x] is listed in the directory [k] of an inventory. *)
Definition listed_in (inventory : list (string * list string)) (k x : string) : Prop :=
  ∃ entries, (k, entries) ∈ inventory ∧ x ∈ entries.

(** Every pair recorded in [m1] is recorded in [m2]. *)
Definition records_le (m1 m2 : gmap string entry) : Prop :=
  ∀ k x, recorded m1 k x = true → recorded m2 k x = true.

(** The remote path of the build manifest, as the download of line 241-242
    spells it. *)
Definition build_manifest_path : cpath := cpath_add (CPath "/bld/") build_manifest_file.

(** The remote path of the source manifest, as the download of lines 353-354
    spells it. *)
Definition source_manifest_path : cpath := cpath_add (CPath "/src/") source_manifest_file.

(** Lines 292-294 and 393-395. *)
Definition artifact_blob_path (package artifact : string) : cpath :=
  cpath_add (CPath ("/bld/" +:+ package)) (artifact +:+ ".tar.gz").

Definition pack_blob_path (subdir source_pack : string) : cpath :=
  cpath_add (CPath ("/src/" +:+ subdir)) source_pack.

(** An event that moves a manifest (a download, or an upload of manifest
    text) addresses [P]. *)
Definition addresses (P : cpath) (e : event) : Prop :=
  match e with
  | Download p => p = P
  | Upload p (Json _) _ => p = P
  | _ => True
  end.

(** An event that calls the remote storage. *)
Definition remote_call (e : event) : bool :=
  match e with
  | Download _ | CreateFolder _ | Upload _ _ _ => true
  | _ => false
  end.

(** The manifest a fetch at [P] yields in [w]: what the blob parses to when
    the download goes through, and the empty manifest otherwise. *)
Definition fetched (P : cpath) (w : World) : gmap string entry :=
  if hd true (oracle w)
  then match blobs w !! P with
       | Some (Json m) => m
       | _ => ∅
       end
  else ∅.

(** What the progress listener of that download prints. *)
Definition fetch_output (P : cpath) (w : World) : list string :=
  progress w (Download P)
    (hd true (oracle w) && bool_decide (is_Some (blobs w !! P))).

(** How often [x] is listed under [k]. *)
Definition listed (m : gmap string entry) (k x : string) : nat :=
  match m !! k with
  | Some (EList l) => length (filter (λ y, y = x) l)
  | _ => 0
  end.

(** [s] has the text [line] in it. *)
Definition has_line (s line : string) : Prop :=
  ∃ pre post, s = pre +:+ line +:+ post.

Definition report_line (k x verdict : string) : string :=
  k +:+ "/" +:+ x +:+ verdict +:+ nl.

(** [t] ends with [suffix]. *)
Fixpoint ends_with (suffix t : string) : bool :=
  String.eqb t suffix ||
  match t with
  | EmptyString => false
  | String _ t' => ends_with suffix t'
  end.

(** The manifest the local cache [file] yields in [w]: what the file parses
    to, and the empty manifest when it is missing or does not parse. *)
Definition cached (file : string) (w : World) : gmap string entry :=
  match manifest_files w !! file with
  | Some (Json m) => m
  | _ => ∅
  end.

(** The local cache [file] is missing or holds a manifest. *)
Definition missing_or_manifest (file : string) (w : World) : Prop :=
  manifest_files w !! file = None ∨
  ∃ lm, manifest_files w !! file = Some (Json lm).

(** [s'] is [s] with text added at its end. *)
Definition extends (s s' : string) : Prop := ∃ t, s' = s +:+ t.

(** ** Scenarios *)

Definition scenario_digest (data : bytes) : string :=
  "2fd4e1c67a2d28fced849ee1bb76e7391b93eb12".

Definition scenario_build_manifest : gmap string entry :=
  {[ "pkgA" := EDict {[ "art1" := "deadbeef" ]} ]}.

Definition scenario_source_manifest : gmap string entry :=
  {[ "packs/tar.gz" := EList ["x.tar.gz"] ]}.

(** The progress listener of the scenarios prints one line for a transfer
    that goes through. *)
Definition scenario_progress (request : event) (ok : bool) : list string :=
  if ok then ["100%"] else [].

(** Scenarios A, C and D of the specification: package [pkgA] with
    [art1] and [art2], one source pack [x.tar.gz], and both manifests
    present locally and on the remote. *)
Definition scenario_world : World :=
  mkWorld
    [("pkgA", ["art1"; "art2"])]
    {[ "packs/tar.bz2" := []; "packs/tar.gz" := ["x.tar.gz"]; "packs/zip" := [] ]}
    (λ directory, "archive of " +:+ directory)
    (λ path, "content of " +:+ path)
    {[ build_manifest_file := Json scenario_build_manifest;
       source_manifest_file := Json scenario_source_manifest ]}
    ∅
    {[ build_manifest_path := Json scenario_build_manifest;
       source_manifest_path := Json scenario_source_manifest ]}
    ∅ true true [] [] [] scenario_progress.

Definition scenario_ctx : Ctx := mkCtx true.

Definition dry_run_args : Args := mkArgs true false "build_and_source" "primary".
Definition push_args : Args := mkArgs false false "build_and_source" "primary".
Definition force_args : Args := mkArgs false true "build_and_source" "primary".

(** An event that stores manifest text: an upload of it, or a write of a
    local manifest file. *)
Definition stores_manifest (e : event) : bool :=
  match e with
  | Upload _ (Json _) _ | WriteFile _ _ => true
  | _ => false
  end.

(** The manifest the remote copy at [P] holds in [w], empty when there is
    none or it does not parse. *)
Definition stored (P : cpath) (w : World) : gmap string entry :=
  match blobs w !! P with
  | Some (Json m) => m
  | _ => ∅
  end.

Definition old_source_manifest : gmap string entry :=
  {[ "packs/zip" := EList ["old.zip"] ]}.

(** A source cache with one new pack; the remote manifest and the local
    cache record an older pack; the download of the manifest fails once. *)
Definition unreachable_world : World :=
  mkWorld []
    {[ "packs/tar.bz2" := []; "packs/tar.gz" := []; "packs/zip" := ["new.zip"] ]}
    (λ directory, "archive of " +:+ directory)
    (λ path, "content of " +:+ path)
    {[ source_manifest_file := Json old_source_manifest ]}
    ∅
    {[ source_manifest_path := Json old_source_manifest ]}
    ∅ true true [false] [] [] scenario_progress.

(** The same source cache; the local cache records the older pack and the
    remote manifest, which is fetched, records nothing. *)
Definition stale_cache_world : World :=
  mkWorld []
    {[ "packs/tar.bz2" := []; "packs/tar.gz" := []; "packs/zip" := ["new.zip"] ]}
    (λ directory, "archive of " +:+ directory)
    (λ path, "content of " +:+ path)
    {[ source_manifest_file := Json old_source_manifest ]}
    ∅
    {[ source_manifest_path := Json ∅ ]}
    ∅ true true [] [] [] scenario_progress.

(** The manifest a loop returned, the empty one when it raised. *)
Definition returned (r : result (gmap string entry)) : gmap string entry :=
  match r with
  | Ok m => m
  | Raise _ => ∅
  end.




(** ** Further scenarios *)

(** A value of [--objects] that names no object class. *)
Definition typo_args : Args := mkArgs true false "builds" "primary".

(** The scenario with no local manifest cache. *)
Definition fresh_world : World := set_manifest_files (λ _, ∅) scenario_world.

(** A source cache whose [packs/zip] directory is missing. *)
Definition no_zip_world : World :=
  mkWorld []
    {[ "packs/tar.bz2" := []; "packs/tar.gz" := ["x.tar.gz"] ]}
    (λ directory, "archive of " +:+ directory)
    (λ path, "content of " +:+ path)
    ∅ ∅ ∅ ∅ true true [] [] [] scenario_progress.

(** The scenario with a remote build manifest that records both artifacts. *)
Definition synced_world : World :=
  set_blobs
    (λ _, {[ build_manifest_path :=
               Json {[ "pkgA" := EDict {[ "art1" := "deadbeef"; "art2" := "cafe" ]} ]} ]})
    scenario_world.

(** [manifest[package][artifact]], the digest a build manifest holds. *)
Definition digest_of (m : gmap string entry) (package artifact : string) : option string :=
  match m !! package with
  | Some (EDict d) => d !! artifact
  | _ => None
  end.

(** A call to the remote storage that stays under the root folder [root]. *)
Definition under (root : string) (e : event) : Prop :=
  match e with
  | Download p | CreateFolder p | Upload p _ _ => head p = Some root
  | _ => True
  end.

(** The line the source pusher writes for a pack (lines 390-392). *)
Definition pushing_line (item : string * string) : string :=
  "Pushing " +:+ repr (pjoin item.1 item.2) +:+ nl.

(** What a push prints for one item.  For an artifact: the reports of the
    progress listeners of the upload of its archive and of the upload of
    the manifest.  For a source pack: its line, then the reports of the
    listeners of its two uploads. *)
Definition build_block (listener : event → bool → list string)
    (item : string * string) (block : list string) : Prop :=
  ∃ archive manifest,
    block =
      listener (Upload (artifact_blob_path item.1 item.2) archive None) true ++
      listener (Upload build_manifest_path manifest (Some "text/plain")) true.

Definition source_block (listener : event → bool → list string)
    (item : string * string) (block : list string) : Prop :=
  ∃ content manifest,
    block =
      pushing_line item ::
      listener (Upload (pack_blob_path item.1 item.2) content None) true ++
      listener (Upload source_manifest_path manifest (Some "text/plain")) true.

(** The trace grows by events that stay under [root]. *)
Definition grows_under (root : string) (w w' : World) : Prop :=
  ∃ evs, trace w' = trace w ++ evs ∧ Forall (under root) evs.

(** * [hit remote]: [Remote.run] (lines 53-122)

    Reading conventions.
    - The imports of lines 54-62 are statements of [run] and are
      modelled as those of [Push.run] are: line 55 asks for a module
      [pcs_cred], which is the local name of line 54 and no module.  The
      import of [pprint] (line 99) succeeds.  Logger calls have no effect
      on the modelled state.
    - The remotes live in the directory [DEFAULT_STORE_DIR/remotes], one
      directory for each remote; a [Disk] keeps that directory and nothing
      else of the file system.
    - What [pcs_api] does once the application file is written (lines
      85-94: it reads the file back, builds the storage and runs the OAuth
      code workflow) is outside the file; it is the parameter [bootstrap].
    - [pp.pprint(json.loads(text))] is the parameter [pprint_json]: the
      text written for a value that parses, [None] when [json.loads]
      raises.
    - [args.verbose] is read by [run] and set by no argument of [setup];
      the namespace is taken to hold it. *)
Module Remote.

Inductive exn :=
| AssertionError
| SystemExit (code : nat)
| ValueError
| IOError (path : string)
| OSError (path : string)
| ImportError (module : string).

Record Args := mkArgs {
  subcommand : string;
  name : string;
  pcs : string;
  app_name : string;
  app_id : option string;
  app_secret : option string;
  verbose : bool
}.

Record Disk := mkDisk {
  (** The directories under [remotes], each with its files by name;
      [None] when [remotes] itself does not exist. *)
  remotes : option (gmap string (gmap string string));
  (** Whether [os.makedirs] is allowed to create a directory there. *)
  can_makedirs : bool;
  stdout : list string
}.

Definition set_remotes (rs : option (gmap string (gmap string string))) (d : Disk) : Disk :=
  mkDisk rs (can_makedirs d) (stdout d).

Definition Cmd (A : Type) : Type := Disk → (exn + A) * Disk.

Definition ret {A} (a : A) : Cmd A := λ d, (inr a, d).

Definition bind {A B} (m : Cmd A) (f : A → Cmd B) : Cmd B :=
  λ d, match m d with
       | (inr a, d') => f a d'
       | (inl e, d') => (inl e, d')
       end.

Definition raise {A} (e : exn) : Cmd A := λ d, (inl e, d).

(** [try: body  except: handler], a bare [except]. *)
Definition try_except {A} (body handler : Cmd A) : Cmd A :=
  λ d, match body d with
       | (inr a, d') => (inr a, d')
       | (inl _, d') => handler d'
       end.

Declare Scope remote_scope.
Delimit Scope remote_scope with remote.
Notation "x <- c1 ;; c2" := (bind c1 (λ x, c2))
  (at level 100, c1 at next level, c2 at level 200, right associativity) : remote_scope.
Notation "c1 ;; c2" := (bind c1 (λ _, c2))
  (at level 100, c2 at level 200, right associativity) : remote_scope.
Local Open Scope remote_scope.

(** A logger call. *)
Definition logger : Cmd unit := ret tt.

(** [import module] and [from module import names]. *)
Definition import_module (module : string) : Cmd unit :=
  if bool_decide (module ∈ importable) then ret tt else raise (ImportError module).

(** Lines 54-62. *)
Definition imports : Cmd unit :=
  import_module "pcs_api.credentials";;
  import_module "pcs_cred.app_info_file_repo";;
  import_module "pcs_cred.user_creds_file_repo";;
  import_module "pcs_api.credentials.user_credentials";;
  import_module "pcs_api.oauth.oauth2_bootstrap";;
  import_module "pcs_api.storage";;
  import_module "pcs_api.providers".

Definition stdout_write (s : string) : Cmd unit :=
  λ d, (inr tt, mkDisk (remotes d) (can_makedirs d) (stdout d ++ [s])).

(** The files of the directory of a remote, when it exists. *)
Definition files_of (remote_name : string) (d : Disk) : option (gmap string string) :=
  match remotes d with
  | Some rs => rs !! remote_name
  | None => None
  end.

(** [os.path.exists(remote_path)]. *)
Definition path_exists (remote_name : string) : Cmd bool :=
  λ d, (inr (bool_decide (is_Some (files_of remote_name d))), d).

(** [os.makedirs(remote_path)], which also creates [remotes] when it is
    missing and raises when the directory is there already. *)
Definition makedirs (remote_name : string) : Cmd unit :=
  λ d, if can_makedirs d && negb (bool_decide (is_Some (files_of remote_name d)))
       then (inr tt, set_remotes (Some (<[remote_name := ∅]> (default ∅ (remotes d)))) d)
       else (inl (OSError remote_name), d).

(** [f = open(path, "w"); f.write(text); f.close()] for a file of a
    remote. *)
Definition write_file (remote_name file text : string) : Cmd unit :=
  λ d, match files_of remote_name d with
       | Some files =>
           (inr tt,
            set_remotes (Some (<[remote_name := <[file := text]> files]>
                                 (default ∅ (remotes d)))) d)
       | None => (inl (IOError (pjoin remote_name file)), d)
       end.

(** [open(path, "r")] for a file of a remote, and its content. *)
Definition read_file (remote_name file : string) : Cmd string :=
  λ d, match files_of remote_name d with
       | Some files =>
           match files !! file with
           | Some text => (inr text, d)
           | None => (inl (IOError (pjoin remote_name file)), d)
           end
       | None => (inl (IOError (pjoin remote_name file)), d)
       end.

(** [os.listdir(pjoin(DEFAULT_STORE_DIR, "remotes"))], in one of the
    orders it may list the names. *)
Definition listdir_remotes : Cmd (list string) :=
  λ d, match remotes d with
       | Some rs => (inr (map_to_list rs).*1, d)
       | None => (inl (OSError "remotes"), d)
       end.

(** ** Strings *)

Definition dq : string := String (ascii_of_nat 34) EmptyString.
Definition newline : ascii := ascii_of_nat 10.

(** The format string of lines 76-78.  The two line breaks inside the
    literal are escaped, so the twelve blanks that start the next line are
    part of it. *)
Definition continuation : string := "            ".

Definition app_info_data (pcs app_name app_id app_secret : string) : string :=
  pcs +:+ "." +:+ app_name +:+ " = { " +:+ dq +:+ "appId" +:+ dq +:+ ": " +:+
  dq +:+ app_id +:+ dq +:+ ", " +:+ continuation +:+
  dq +:+ "appSecret" +:+ dq +:+ ": " +:+ dq +:+ app_secret +:+ dq +:+ ", " +:+
  continuation +:+
  dq +:+ "scope" +:+ dq +:+ ": [" +:+ dq +:+ "sandbox" +:+ dq +:+ "] }".

(** [s.split(sep)] for a separator of one character. *)
Fixpoint split (sep : ascii) (s : string) : list string :=
  match s with
  | EmptyString => [EmptyString]
  | String c s' =>
      if Ascii.eqb c sep then EmptyString :: split sep s'
      else match split sep s' with
           | piece :: pieces => String c piece :: pieces
           | [] => [String c EmptyString]
           end
  end.

(** [f.readlines()]: the lines of a text, each with its line end. *)
Fixpoint readlines (text : string) : list string :=
  match text with
  | EmptyString => []
  | String c text' =>
      if Ascii.eqb c newline then String c EmptyString :: readlines text'
      else match readlines text' with
           | line :: lines => String c line :: lines
           | [] => [String c EmptyString]
           end
  end.

Fixpoint lstrip (s : string) : string :=
  match s with
  | EmptyString => EmptyString
  | String c s' => if Ascii.is_space c then lstrip s' else s
  end.

(** [s.strip()]. *)
Definition strip (s : string) : string :=
  String.rev (lstrip (String.rev (lstrip s))).

(** [s.startswith("#")]. *)
Definition startswith_hash (s : string) : bool :=
  match s with
  | String c _ => Ascii.eqb c "#"%char
  | EmptyString => false
  end.

(** ['=' * n]. *)
Fixpoint underline (n : nat) : string :=
  match n with
  | O => EmptyString
  | S n' => String "="%char (underline n')
  end.

Fixpoint for_each {A} (body : A → Cmd unit) (l : list A) : Cmd unit :=
  match l with
  | [] => ret tt
  | a :: l' => body a;; for_each body l'
  end.

Section Run.

Context (bootstrap : Args → Cmd unit).
Context (pprint_json : string → option string).

(** Lines 64-94. *)
Definition add (args : Args) : Cmd unit :=
  logger;;
  let remote_name := name args in
  try_except
    (there <- path_exists remote_name;;
     if there : bool then ret tt else makedirs remote_name)
    (logger;; raise (SystemExit 1));;
  match app_id args, app_secret args with
  | Some id, Some secret =>
      let text := app_info_data (pcs args) (app_name args) id secret in
      write_file remote_name "app_info_data.txt" text;;
      bootstrap args
  | _, _ => logger;; raise (SystemExit 1)
  end.

(** The body of the loops of lines 106-110 and 116-120. *)
Definition show_line (line : string) : Cmd unit :=
  if startswith_hash (strip line) then ret tt
  else match split "="%char line with
       | [key; value] =>
           stdout_write (key +:+ " = " +:+ String newline EmptyString);;
           match pprint_json value with
           | Some text => stdout_write text
           | None => raise ValueError
           end
       | _ => raise ValueError
       end.

(** Lines 97-120, for one remote. *)
Definition show_remote (args : Args) (remote_name : string) : Cmd unit :=
  stdout_write (remote_name +:+ String newline EmptyString);;
  if verbose args then
    stdout_write (underline (String.length remote_name) +:+ String newline EmptyString);;
    text <- read_file remote_name "app_info_data.txt";;
    for_each show_line (readlines text);;
    stdout_write (String newline EmptyString);;
    text <- read_file remote_name "user_credentials_data.txt";;
    for_each show_line (readlines text)
  else ret tt.

(** Lines 96-120. *)
Definition show (args : Args) : Cmd unit :=
  remote_names <- listdir_remotes;;
  for_each (show_remote args) remote_names.

(** Lines 64-122: the statements of [run] that follow its imports. *)
Definition run_body (args : Args) : Cmd unit :=
  if bool_decide (subcommand args = "add") then add args
  else if bool_decide (subcommand args = "show") then show args
  else raise AssertionError.

(** Lines 53-122. *)
Definition run (args : Args) : Cmd unit :=
  imports;;
  run_body args.

End Run.

(** How often [sep] occurs in [s]. *)
Fixpoint count (sep : ascii) (s : string) : nat :=
  match s with
  | EmptyString => 0
  | String c s' => (if Ascii.eqb c sep then 1 else 0) + count sep s'
  end.

End Remote.

(** ** Scenarios of [hit remote] *)

(** A store with no remote, where directories can be created. *)
Definition empty_disk : Remote.Disk := Remote.mkDisk None true [].

(** [hit remote add --app-name=hd_osx --app-id=x --app-secret=c2VjcmV0PQ==]. *)
Definition remote_add_args : Remote.Args :=
  Remote.mkArgs "add" "primary" "dropbox" "hd_osx" (Some "x") (Some "c2VjcmV0PQ==") false.

(** [hit remote add --app-id=x]. *)
Definition remote_add_incomplete : Remote.Args :=
  Remote.mkArgs "add" "primary" "dropbox" "hashdist_PLATFORM" (Some "x") None false.

(** [hit remote show], with and without [--verbose]. *)
Definition remote_show_args (verbose : bool) : Remote.Args :=
  Remote.mkArgs "show" "primary" "dropbox" "hashdist_PLATFORM" None None verbose.

(** A bootstrap that returns at once, and a [json.loads] that reads
    nothing. *)
Definition no_bootstrap : Remote.Args → Remote.Cmd unit := λ _, Remote.ret tt.
Definition no_pprint : string → option string := λ _, None.

(** The store after the [add] of [remote_add_args]. *)
Definition added_disk : Remote.Disk :=
  (Remote.run_body no_bootstrap no_pprint remote_add_args empty_disk).2.






(** ** The planner *)

Lemma planned_empty k x : ¬ planned ∅ k x.
Proof. intros (s & Hs & _). by rewrite lookup_empty in Hs. Qed.

Lemma planned_add pm k x k' x' :
  planned (push_manifest_add pm k x) k' x' ↔ planned pm k' x' ∨ (k' = k ∧ x' = x).
Proof.
  unfold planned, push_manifest_add. destruct (decide (k = k')) as [-> | Hne].
  - rewrite lookup_insert_eq. split.
    + intros (s & [= <-] & Hx). apply elem_of_union in Hx as [Hx|Hx].
      * right. set_solver.
      * left. destruct (pm !! k') as [s|] eqn:E; simpl in Hx; [eauto | set_solver].
    + intros [(s & Hs & Hx) | [_ ->]]; eexists; split; try reflexivity.
      * rewrite Hs. set_solver.
      * set_solver.
  - rewrite lookup_insert_ne by done. split; [eauto | intros [?|[? _]]; congruence].
Qed.

Lemma recorded_ensure_key empty m k k' x :
  (∀ y, entry_contains empty y = false) →
  recorded (ensure_key empty m k) k' x = recorded m k' x.
Proof.
  intros Hempty. unfold ensure_key, recorded.
  destruct (m !! k) as [e|] eqn:E; [done|].
  destruct (decide (k = k')) as [-> | Hne].
  - by rewrite lookup_insert_eq, E.
  - by rewrite lookup_insert_ne.
Qed.

Lemma plan_entries_planned force m k entries : ∀ pm k' x,
  planned (plan_entries force m k pm entries) k' x ↔
  planned pm k' x ∨ (k' = k ∧ x ∈ entries ∧ (recorded m k x = false ∨ force = true)).
Proof.
  unfold plan_entries. induction entries as [|y entries IH]; intros pm k' x; simpl.
  - rewrite elem_of_nil. tauto.
  - rewrite IH, elem_of_cons.
    destruct (recorded m k y && negb force) eqn:Hc.
    + apply andb_true_iff in Hc as [Hr Hf]. apply negb_true_iff in Hf.
      split.
      * intros [?|(-> & ? & ?)]; [by left|]. right. eauto.
      * intros [?|(-> & [-> | ?] & Hy)]; [by left| |by right].
        destruct Hy; congruence.
    + rewrite planned_add.
      assert (recorded m k y = false ∨ force = true) as Hy.
      { apply andb_false_iff in Hc as [?|Hf]; [by left|].
        right. by apply negb_false_iff in Hf. }
      split.
      * intros [[?|[-> ->]]|(-> & ? & ?)]; [by left| |]; right; eauto.
      * intros [?|(-> & [-> | ?] & ?)]; [by left; left|by left; right|].
        right. eauto.
Qed.
Lemma plan_fold_spec empty force inventory :
  (∀ y, entry_contains empty y = false) →
  ∀ m pm,
    let r := foldl (plan_key empty force) (m, pm) inventory in
    (∀ k x, recorded r.1 k x = recorded m k x) ∧
    (∀ k, is_Some (r.1 !! k) ↔ is_Some (m !! k) ∨ k ∈ inventory.*1) ∧
    (∀ k e, m !! k = Some e → r.1 !! k = Some e) ∧
    (∀ k x, planned r.2 k x ↔
            planned pm k x ∨
            ∃ entries, (k, entries) ∈ inventory ∧ x ∈ entries ∧
                       (recorded m k x = false ∨ force = true)).
Proof.
  intros Hempty. induction inventory as [|[k0 l0] inventory IH]; intros m pm; simpl.
  - repeat split; try tauto; eauto.
    + intros [?|Hk]; [done | by apply elem_of_nil in Hk].
    + intros [?|(? & Hk & _)]; [done | by apply elem_of_nil in Hk].
  - specialize (IH (ensure_key empty m k0)
                   (plan_entries force (ensure_key empty m k0) k0 pm l0)).
    simpl in IH. destruct IH as (IH1 & IH2 & IH3 & IH4).
    assert (Hkey : ∀ k, is_Some (ensure_key empty m k0 !! k) ↔ is_Some (m !! k) ∨ k = k0).
    { intros k. unfold ensure_key. destruct (m !! k0) eqn:E.
      - split; [eauto|]. intros [? | ->]; eauto.
      - destruct (decide (k0 = k)) as [-> | Hne].
        + rewrite lookup_insert_eq. split; eauto.
        + rewrite lookup_insert_ne by done. split; [eauto|]. intros [? | ->]; done. }
    unfold plan_key at 2 4 6 8; simpl. split; [|split; [|split]].
    + intros k x. by rewrite IH1, recorded_ensure_key.
    + intros k. rewrite IH2, Hkey, elem_of_cons. tauto.
    + intros k e Hk. apply IH3. unfold ensure_key.
      destruct (m !! k0) eqn:E; [done|].
      rewrite lookup_insert_ne; [done|]. intros ->. congruence.
    + intros k x. rewrite IH4, plan_entries_planned. 
      setoid_rewrite elem_of_cons. setoid_rewrite recorded_ensure_key; [|done..].
      split.
      * intros [[?|(-> & Hx & Hr)]|(entries & Hin & Hx & Hr)]; eauto 10.
      * intros [?|(entries & [[= -> ->]|Hin] & Hx & Hr)]; eauto 10.
Qed.

Lemma plan_spec empty inventory m force k x :
  (∀ y, entry_contains empty y = false) →
  planned (plan empty inventory m force).2 k x ↔
  ∃ entries, (k, entries) ∈ inventory ∧ x ∈ entries ∧
             (recorded m k x = false ∨ force = true).
Proof.
  intros Hempty. unfold plan.
  destruct (plan_fold_spec empty force inventory Hempty m ∅) as (_ & _ & _ & H).
  rewrite H. split; [|eauto]. intros [Hp|?]; [|done]. by apply planned_empty in Hp.
Qed.

Lemma plan_recorded empty inventory m force k x :
  (∀ y, entry_contains empty y = false) →
  recorded (plan empty inventory m force).1 k x = recorded m k x.
Proof.
  intros Hempty. unfold plan.
  by destruct (plan_fold_spec empty force inventory Hempty m ∅) as (H & _).
Qed.

Lemma plan_keys empty inventory m force k :
  (∀ y, entry_contains empty y = false) →
  is_Some ((plan empty inventory m force).1 !! k) ↔
  is_Some (m !! k) ∨ k ∈ inventory.*1.
Proof.
  intros Hempty. unfold plan.
  by destruct (plan_fold_spec empty force inventory Hempty m ∅) as (_ & H & _).
Qed.

Lemma plan_lookup empty inventory m force k e :
  (∀ y, entry_contains empty y = false) →
  m !! k = Some e → (plan empty inventory m force).1 !! k = Some e.
Proof.
  intros Hempty. unfold plan.
  destruct (plan_fold_spec empty force inventory Hempty m ∅) as (_ & _ & H & _).
  apply H.
Qed.

Lemma dict_empty y : entry_contains (EDict ∅) y = false.
Proof. done. Qed.

Lemma list_empty y : entry_contains (EList []) y = false.
Proof. done. Qed.

(** A set of the push plan is created by the first [add] to it. *)
Lemma plan_entries_inhabited force m k entries : ∀ pm,
  (∀ k' s, pm !! k' = Some s → ∃ x, x ∈ s) →
  ∀ k' s, plan_entries force m k pm entries !! k' = Some s → ∃ x, x ∈ s.
Proof.
  unfold plan_entries. induction entries as [|y entries IH]; intros pm Hpm; simpl; [done|].
  apply IH. destruct (recorded m k y && negb force); [done|].
  intros k' s. unfold push_manifest_add.
  destruct (decide (k = k')) as [-> | Hne].
  - rewrite lookup_insert_eq. intros [= <-]. exists y. set_solver.
  - rewrite lookup_insert_ne by done. apply Hpm.
Qed.

Lemma plan_inhabited empty inventory m force k s :
  (plan empty inventory m force).2 !! k = Some s → ∃ x, x ∈ s.
Proof.
  unfold plan.
  assert (∀ acc : gmap string entry * gmap string (gset string),
            (∀ k' s, acc.2 !! k' = Some s → ∃ x, x ∈ s) →
            ∀ k' s, (foldl (plan_key empty force) acc inventory).2 !! k' = Some s →
                    ∃ x, x ∈ s) as H.
  { induction inventory as [|dir inventory IH]; intros acc Hacc; simpl; [done|].
    apply IH. simpl. by apply plan_entries_inhabited. }
  apply H. simpl. intros k' s'. by rewrite lookup_empty.
Qed.

(** A plan in which nothing is planned is the empty dict. *)
Lemma plan_nothing_planned empty inventory m force :
  (∀ k x, ¬ planned (plan empty inventory m force).2 k x) →
  (plan empty inventory m force).2 = ∅.
Proof.
  intros H. apply map_empty. intros k.
  destruct ((plan empty inventory m force).2 !! k) as [s|] eqn:E; [|done].
  destruct (plan_inhabited _ _ _ _ _ _ E) as [x Hx].
  destruct (H k x). by exists s.
Qed.

Lemma elem_of_plan_items pm k x : (k, x) ∈ plan_items pm ↔ planned pm k x.
Proof.
  unfold plan_items, planned. rewrite list_elem_of_bind. split.
  - intros ([k' s] & Hx & Hks). simpl in Hx.
    apply list_elem_of_fmap in Hx as (y & [= -> ->] & Hy).
    exists s. split; [by apply elem_of_map_to_list|]. by apply elem_of_elements.
  - intros (s & Hs & Hx). exists (k, s). split.
    + simpl. apply list_elem_of_fmap. exists x. split; [done|]. by apply elem_of_elements.
    + by apply elem_of_map_to_list.
Qed.


(** C1. Plan membership rule: an item of the local inventory is in the push
    plan exactly when it is not recorded under its key in the manifest or
    [force] is set, for the build plan and for the source plan; only the
    recorded names count, so two manifests that record the same names
    (with any digests) give the same plan. *)
Theorem plan_membership (inventory : list (string * list string))
    (manifest : gmap string entry) (force : bool)
    (k x : string) (entries : list string) :
  (k, entries) ∈ inventory → x ∈ entries →
  (planned (plan_build inventory manifest force).2 k x ↔
     recorded manifest k x = false ∨ force = true) ∧
  (planned (plan_source inventory manifest force).2 k x ↔
     recorded manifest k x = false ∨ force = true) ∧
  (∀ manifest' : gmap string entry,
     (∀ k' x', recorded manifest' k' x' = recorded manifest k' x') →
     (planned (plan_build inventory manifest' force).2 k x ↔
        planned (plan_build inventory manifest force).2 k x) ∧
     (planned (plan_source inventory manifest' force).2 k x ↔
        planned (plan_source inventory manifest force).2 k x)).
Proof.
  intros Hk Hx. unfold plan_build, plan_source.
  assert (∀ empty m, (∀ y, entry_contains empty y = false) →
            planned (plan empty inventory m force).2 k x ↔
            recorded m k x = false ∨ force = true) as H.
  { intros empty m Hempty. rewrite plan_spec by done. split; [|eauto].
    by intros (_ & _ & _ & ?). }
  split; [apply H, dict_empty|]. split; [apply H, list_empty|].
  intros manifest' Hsame.
  rewrite !H by (apply dict_empty || apply list_empty). by rewrite Hsame.
Qed.

(** ** One step of the pusher *)

Ltac munfold :=
  unfold push_artifact, push_source_pack, build_plan, source_plan,
    fetch_remote_manifest, load_local_manifest, try_except,
    storage_upload, storage_create_folder, storage_download, report_progress,
    json_loads, check_call_tar, read_tarball, os_remove, write_manifest_file,
    read_manifest_file, set_digest, append_pack, os_listdir_artifact_root,
    logger_info, logger_info_no_message, stdout_write, read_pack_file,
    external, emit, bind, ret, raise in *.

Ltac mcrush := munfold; repeat (simpl in *; case_match; simplify_eq); simpl.

Section BuildStep.

Context (sha1_hexdigest : bytes → string).

Lemma push_artifact_ok ctx package artifact m w m' w' :
  push_artifact sha1_hexdigest ctx package artifact m w = (Ok m', w') →
  (∃ d digest, m !! package = Some (EDict d) ∧
               m' = <[package := EDict (<[artifact := digest]> d)]> m) ∧
  blobs w' !! build_manifest_path = Some (Json m') ∧
  manifest_files w' = <[build_manifest_file := Json m']> (manifest_files w) ∧
  ∃ archive,
    trace w' = trace w ++
      [ Tar (pjoin package (artifact +:+ ".tar.gz")) (pjoin package artifact);
        CreateFolder (CPath ("/bld/" +:+ package));
        Upload (artifact_blob_path package artifact) (Raw archive) None;
        Remove (pjoin package (artifact +:+ ".tar.gz"));
        Upload build_manifest_path (Json m') (Some "text/plain");
        WriteFile build_manifest_file (Json m') ].
Proof.
  intros H. unfold build_manifest_path, artifact_blob_path. mcrush.
  all: rewrite ?lookup_insert_eq in *; simplify_eq.
  all: rewrite <- ?app_assoc; simpl; eauto 10.
Qed.

Lemma push_artifact_raise ctx package artifact m w e w' :
  push_artifact sha1_hexdigest ctx package artifact m w = (Raise e, w') →
  manifest_files w' = manifest_files w ∧
  (blobs w' = blobs w ∨
   ∃ archive, blobs w' = <[artifact_blob_path package artifact := Raw archive]> (blobs w)).
Proof.
  intros H. unfold artifact_blob_path. mcrush.
  all: rewrite ?lookup_insert_eq in *; simplify_eq; eauto.
Qed.

Lemma push_artifact_frame ctx package artifact m w r w' :
  push_artifact sha1_hexdigest ctx package artifact m w = (r, w') →
  cache_path w' = cache_path w ∧
  progress w' = progress w ∧
  ∃ evs, trace w' = trace w ++ evs ∧ Forall (addresses build_manifest_path) evs.
Proof.
  intros H. unfold build_manifest_path. mcrush.
  all: rewrite ?lookup_insert_eq in *; simplify_eq.
  all: rewrite <- ?app_assoc; simpl; repeat split; eexists; split; [reflexivity|].
  all: repeat constructor.
Qed.

End BuildStep.

(** The re-upload of lines 407-408 spells the root [/src], the download of
    lines 353-354 spells it [/src/]; [CPath] makes them one path. *)
Lemma source_manifest_upload_path :
  cpath_add (CPath "/src") source_manifest_file = source_manifest_path.
Proof. reflexivity. Qed.

Lemma push_source_pack_ok subdir source_pack m w m' w' :
  push_source_pack subdir source_pack m w = (Ok m', w') →
  (∃ l, m !! subdir = Some (EList l) ∧
        m' = <[subdir := EList (l ++ [source_pack])]> m) ∧
  blobs w' !! source_manifest_path = Some (Json m') ∧
  manifest_files w' = <[source_manifest_file := Json m']> (manifest_files w) ∧
  ∃ content,
    trace w' = trace w ++
      [ CreateFolder (CPath ("/src/" +:+ subdir));
        Upload (pack_blob_path subdir source_pack) (Raw content) None;
        Upload source_manifest_path (Json m') (Some "text/plain");
        WriteFile source_manifest_file (Json m') ].
Proof.
  intros H. unfold push_source_pack in H.
  rewrite source_manifest_upload_path in H. unfold pack_blob_path. mcrush.
  all: rewrite ?lookup_insert_eq in *; simplify_eq.
  all: rewrite <- ?app_assoc; simpl; eauto 10.
Qed.

Lemma push_source_pack_raise subdir source_pack m w e w' :
  push_source_pack subdir source_pack m w = (Raise e, w') →
  manifest_files w' = manifest_files w ∧
  (blobs w' = blobs w ∨
   ∃ content, blobs w' = <[pack_blob_path subdir source_pack := Raw content]> (blobs w)).
Proof.
  intros H. unfold pack_blob_path. mcrush.
  all: rewrite ?lookup_insert_eq in *; simplify_eq; eauto.
Qed.

Lemma push_source_pack_frame subdir source_pack m w r w' :
  push_source_pack subdir source_pack m w = (r, w') →
  cache_path w' = cache_path w ∧
  progress w' = progress w ∧
  ∃ evs, trace w' = trace w ++ evs ∧ Forall (addresses source_manifest_path) evs.
Proof.
  intros H. unfold push_source_pack in H.
  rewrite source_manifest_upload_path in H. mcrush.
  all: rewrite ?lookup_insert_eq in *; simplify_eq.
  all: rewrite <- ?app_assoc; simpl; repeat split; eexists; split;
    [try reflexivity; symmetry; apply app_nil_r|].
  all: repeat constructor.
Qed.

(** Recording an item adds its pair and no other. *)
Lemma recorded_set_digest m package artifact digest d k x :
  m !! package = Some (EDict d) →
  recorded (<[package := EDict (<[artifact := digest]> d)]> m) k x = true ↔
  recorded m k x = true ∨ (k = package ∧ x = artifact).
Proof.
  intros Hm. unfold recorded. destruct (decide (package = k)) as [-> | Hne].
  - rewrite lookup_insert_eq, Hm. simpl. rewrite !bool_decide_eq_true.
    destruct (decide (artifact = x)) as [-> | Hx].
    + rewrite lookup_insert_eq. split; eauto.
    + rewrite lookup_insert_ne by done. split; [eauto|]. intros [?|[_ ?]]; congruence.
  - rewrite lookup_insert_ne by done. split; [eauto|]. intros [?|[? _]]; congruence.
Qed.

Lemma recorded_append_pack m subdir source_pack l k x :
  m !! subdir = Some (EList l) →
  recorded (<[subdir := EList (l ++ [source_pack])]> m) k x = true ↔
  recorded m k x = true ∨ (k = subdir ∧ x = source_pack).
Proof.
  intros Hm. unfold recorded. destruct (decide (subdir = k)) as [-> | Hne].
  - rewrite lookup_insert_eq, Hm. simpl. rewrite !bool_decide_eq_true.
    rewrite elem_of_app, list_elem_of_singleton. split; [|intros [?|[_ ?]]; eauto].
    intros [?|?]; eauto.
  - rewrite lookup_insert_ne by done. split; [eauto|]. intros [?|[? _]]; congruence.
Qed.

(** ** The loop of the pusher

    The two loops have the same shape; what is proved of them is proved
    once, from the facts about one step. *)

Section Loop.

Context (step : string → string → gmap string entry → M (gmap string entry)).
Context (loop : list (string * string) → gmap string entry → M (gmap string entry)).
Context (P : cpath) (file : string) (item_path : string → string → cpath).

Hypothesis loop_nil : ∀ m w, loop [] m w = (Ok m, w).
Hypothesis loop_cons : ∀ k x rest m w,
  loop ((k, x) :: rest) m w =
  match step k x m w with
  | (Ok m1, w1) => loop rest m1 w1
  | (Raise e, w1) => (Raise e, w1)
  end.

Hypothesis step_ok : ∀ k x m w m' w',
  step k x m w = (Ok m', w') →
  (∀ k' x', recorded m' k' x' = true ↔ recorded m k' x' = true ∨ (k' = k ∧ x' = x)) ∧
  blobs w' !! P = Some (Json m') ∧
  manifest_files w' !! file = Some (Json m').

Hypothesis step_raise : ∀ k x m w e w',
  step k x m w = (Raise e, w') →
  manifest_files w' = manifest_files w ∧
  (blobs w' = blobs w ∨ ∃ b, blobs w' = <[item_path k x := b]> (blobs w)).

Hypothesis step_frame : ∀ k x m w r w',
  step k x m w = (r, w') →
  cache_path w' = cache_path w ∧
  ∃ evs, trace w' = trace w ++ evs ∧ Forall (addresses P) evs.

Lemma loop_app l1 l2 : ∀ m w,
  loop (l1 ++ l2) m w =
  match loop l1 m w with
  | (Ok m1, w1) => loop l2 m1 w1
  | (Raise e, w1) => (Raise e, w1)
  end.
Proof.
  induction l1 as [|[k x] l1 IH]; intros m w; simpl.
  - by rewrite loop_nil.
  - rewrite !loop_cons. destruct (step k x m w) as [[m1|e] w1]; [apply IH|done].
Qed.

(** After a run of the loop that ends normally, the manifest in memory
    records what it recorded before and the items of the work list, and,
    when there was work, both copies hold its text. *)
Lemma loop_ok work : ∀ m w m' w',
  loop work m w = (Ok m', w') →
  (∀ k x, recorded m' k x = true ↔ recorded m k x = true ∨ (k, x) ∈ work) ∧
  (work = [] → m' = m ∧ w' = w) ∧
  (work ≠ [] →
   blobs w' !! P = Some (Json m') ∧ manifest_files w' !! file = Some (Json m')).
Proof.
  induction work as [|[k x] work IH]; intros m w m' w' H.
  - rewrite loop_nil in H. simplify_eq. repeat split; try done.
    + by left.
    + intros [?|Hin]; [done|]. by apply elem_of_nil in Hin.
  - rewrite loop_cons in H.
    destruct (step k x m w) as [[m1|e] w1] eqn:Hstep; [|done].
    apply step_ok in Hstep as (Hrec & Hb & Hf).
    destruct (IH _ _ _ _ H) as (IHrec & IHnil & IHcons).
    split; [|split; [done|]].
    + intros k' x'. rewrite IHrec, Hrec, elem_of_cons. split.
      * intros [[?|[-> ->]]|?]; eauto.
      * intros [?|[[= -> ->]|?]]; eauto.
    + intros _. destruct work as [|kx work'].
      * destruct IHnil as [-> ->]; done.
      * by apply IHcons.
Qed.

(** However the loop ends, what was persisted stays persisted: a copy that
    records [m0] still records it. *)
Lemma loop_persisted (m0 : gmap string entry) work : ∀ m w r w',
  (∀ k x, (k, x) ∈ work → item_path k x ≠ P) →
  loop work m w = (r, w') →
  records_le m0 m →
  (∃ mr, blobs w !! P = Some (Json mr) ∧ records_le m0 mr) →
  (∃ ml, manifest_files w !! file = Some (Json ml) ∧ records_le m0 ml) →
  (∃ mr, blobs w' !! P = Some (Json mr) ∧ records_le m0 mr) ∧
  (∃ ml, manifest_files w' !! file = Some (Json ml) ∧ records_le m0 ml).
Proof.
  induction work as [|[k x] work IH]; intros m w r w' Hpath H Hm Hr Hl.
  - rewrite loop_nil in H. by simplify_eq.
  - rewrite loop_cons in H.
    destruct (step k x m w) as [[m1|e] w1] eqn:Hstep.
    + apply step_ok in Hstep as (Hrec & Hb & Hf).
      assert (records_le m0 m1) as Hm1.
      { intros k' x' Hx. apply Hrec. left. by apply Hm. }
      eapply IH; eauto.
      intros k' x' Hin. apply Hpath. by right.
    + simplify_eq. apply step_raise in Hstep as (Hf & Hb). rewrite Hf.
      split; [|done]. destruct Hb as [-> | [b ->]]; [done|].
      rewrite lookup_insert_ne; [done|]. apply Hpath. by left.
Qed.

Lemma loop_frame work : ∀ m w r w',
  loop work m w = (r, w') →
  cache_path w' = cache_path w ∧
  ∃ evs, trace w' = trace w ++ evs ∧ Forall (addresses P) evs.
Proof.
  induction work as [|[k x] work IH]; intros m w r w' H.
  - rewrite loop_nil in H. simplify_eq. repeat split.
    exists []. by rewrite app_nil_r.
  - rewrite loop_cons in H.
    destruct (step k x m w) as [[m1|e] w1] eqn:Hstep.
    + apply step_frame in Hstep as (Hc & evs & Ht & Hevs).
      apply IH in H as (Hc' & evs' & Ht' & Hevs').
      rewrite Hc', Ht', Ht, <- app_assoc. repeat split; try done.
      exists (evs ++ evs'). split; [done|]. by apply Forall_app.
    + simplify_eq. by apply step_frame in Hstep.
Qed.

(** A step that raises ends the loop there. *)
Lemma loop_fatal done k x rest m w m_i w_i e w_f :
  loop done m w = (Ok m_i, w_i) →
  step k x m_i w_i = (Raise e, w_f) →
  loop (done ++ (k, x) :: rest) m w = (Raise e, w_f).
Proof.
  intros Hdone Hstep. by rewrite loop_app, Hdone, loop_cons, Hstep.
Qed.

End Loop.

(** ** Remote paths *)

Lemma ends_with_app c suffix : ends_with suffix (c +:+ suffix) = true.
Proof.
  induction c as [|a c IH]; simpl.
  - destruct suffix; simpl; [done|]. by rewrite Ascii.eqb_refl, String.eqb_refl.
  - rewrite IH. by rewrite orb_true_r.
Qed.

Lemma append_snoc cur c s : (cur +:+ String c EmptyString) +:+ s = cur +:+ String c s.
Proof.
  induction cur as [|a cur IH]; [done|].
  change (String a ((cur +:+ String c EmptyString) +:+ s) = String a (cur +:+ String c s)).
  by rewrite IH.
Qed.

Lemma split_path_tgz s : ∀ cur,
  ∃ l c, split_path cur (s +:+ ".tar.gz") = l ++ [c +:+ ".tar.gz"].
Proof.
  induction s as [|a s IH]; intros cur.
  - exists [], cur. change ("" +:+ ".tar.gz") with ".tar.gz". simpl.
    rewrite !append_snoc. by destruct cur.
  - change (String a s +:+ ".tar.gz") with (String a (s +:+ ".tar.gz")).
    simpl. destruct (is_slash a).
    + destruct cur as [|b cur].
      * apply IH.
      * destruct (IH EmptyString) as (l & c & ->). by exists (String b cur :: l), c.
    + apply IH.
Qed.

Lemma artifact_blob_path_ne package artifact :
  artifact_blob_path package artifact ≠ build_manifest_path.
Proof.
  unfold artifact_blob_path, cpath_add. unfold CPath at 2.
  destruct (split_path_tgz artifact "") as (l & c & ->).
  change build_manifest_path with ["bld"; "build_manifest.json"].
  rewrite app_assoc. intros H. apply (f_equal last) in H.
  rewrite last_snoc in H. simpl in H. injection H as H.
  pose proof (ends_with_app c ".tar.gz") as He. rewrite H in He. by vm_compute in He.
Qed.

Lemma pack_blob_path_ne subdir source_pack :
  subdir ∈ pack_subdirs → pack_blob_path subdir source_pack ≠ source_manifest_path.
Proof.
  unfold pack_subdirs. simpl. rewrite !elem_of_cons, elem_of_nil.
  intros [-> | [-> | [-> | []]]]; by vm_compute.
Qed.

(** ** The two loops *)

Section BuildLoop.

Context (sha1_hexdigest : bytes → string) (ctx : Ctx).

Let step := push_artifact sha1_hexdigest ctx.
Let loop := push_artifacts sha1_hexdigest ctx.

Lemma build_loop_nil m w : loop [] m w = (Ok m, w).
Proof. done. Qed.

Lemma build_loop_cons k x rest m w :
  loop ((k, x) :: rest) m w =
  match step k x m w with
  | (Ok m1, w1) => loop rest m1 w1
  | (Raise e, w1) => (Raise e, w1)
  end.
Proof. done. Qed.

Lemma build_step_ok k x m w m' w' :
  step k x m w = (Ok m', w') →
  (∀ k' x', recorded m' k' x' = true ↔ recorded m k' x' = true ∨ (k' = k ∧ x' = x)) ∧
  blobs w' !! build_manifest_path = Some (Json m') ∧
  manifest_files w' !! build_manifest_file = Some (Json m').
Proof.
  intros H. apply push_artifact_ok in H as ((d & digest & Hm & ->) & Hb & -> & _).
  split; [|split; [done|apply lookup_insert_eq]].
  intros k' x'. by apply recorded_set_digest.
Qed.

Lemma build_step_raise k x m w e w' :
  step k x m w = (Raise e, w') →
  manifest_files w' = manifest_files w ∧
  (blobs w' = blobs w ∨ ∃ b, blobs w' = <[artifact_blob_path k x := b]> (blobs w)).
Proof.
  intros H. apply push_artifact_raise in H as (Hf & [Hb | [a Hb]]); eauto.
Qed.

Lemma build_step_frame k x m w r w' :
  step k x m w = (r, w') →
  cache_path w' = cache_path w ∧
  ∃ evs, trace w' = trace w ++ evs ∧ Forall (addresses build_manifest_path) evs.
Proof. intros H. by apply push_artifact_frame in H as (? & _ & ?). Qed.

Lemma build_loop_app l1 l2 m w :
  loop (l1 ++ l2) m w =
  match loop l1 m w with
  | (Ok m1, w1) => loop l2 m1 w1
  | (Raise e, w1) => (Raise e, w1)
  end.
Proof. exact (loop_app step loop build_loop_nil build_loop_cons l1 l2 m w). Qed.

Lemma build_loop_ok work m w m' w' :
  loop work m w = (Ok m', w') →
  (∀ k x, recorded m' k x = true ↔ recorded m k x = true ∨ (k, x) ∈ work) ∧
  (work = [] → m' = m ∧ w' = w) ∧
  (work ≠ [] →
   blobs w' !! build_manifest_path = Some (Json m') ∧
   manifest_files w' !! build_manifest_file = Some (Json m')).
Proof.
  exact (loop_ok step loop build_manifest_path build_manifest_file
           build_loop_nil build_loop_cons build_step_ok work m w m' w').
Qed.

Lemma build_loop_persisted (m0 : gmap string entry) work m w r w' :
  loop work m w = (r, w') →
  records_le m0 m →
  (∃ mr, blobs w !! build_manifest_path = Some (Json mr) ∧ records_le m0 mr) →
  (∃ ml, manifest_files w !! build_manifest_file = Some (Json ml) ∧ records_le m0 ml) →
  (∃ mr, blobs w' !! build_manifest_path = Some (Json mr) ∧ records_le m0 mr) ∧
  (∃ ml, manifest_files w' !! build_manifest_file = Some (Json ml) ∧ records_le m0 ml).
Proof.
  apply (loop_persisted step loop build_manifest_path build_manifest_file
           artifact_blob_path build_loop_nil build_loop_cons build_step_ok
           build_step_raise).
  intros k x _. apply artifact_blob_path_ne.
Qed.

Lemma build_loop_frame work m w r w' :
  loop work m w = (r, w') →
  cache_path w' = cache_path w ∧
  ∃ evs, trace w' = trace w ++ evs ∧ Forall (addresses build_manifest_path) evs.
Proof.
  exact (loop_frame step loop build_manifest_path build_loop_nil build_loop_cons
           build_step_frame work m w r w').
Qed.

Lemma build_loop_fatal done k x rest m w m_i w_i e w_f :
  loop done m w = (Ok m_i, w_i) →
  step k x m_i w_i = (Raise e, w_f) →
  loop (done ++ (k, x) :: rest) m w = (Raise e, w_f).
Proof.
  exact (loop_fatal step loop build_loop_nil build_loop_cons
           done k x rest m w m_i w_i e w_f).
Qed.

End BuildLoop.

Section SourceLoop.

Let step := push_source_pack.
Let loop := push_source_packs.

Lemma source_loop_nil m w : loop [] m w = (Ok m, w).
Proof. done. Qed.

Lemma source_loop_cons k x rest m w :
  loop ((k, x) :: rest) m w =
  match step k x m w with
  | (Ok m1, w1) => loop rest m1 w1
  | (Raise e, w1) => (Raise e, w1)
  end.
Proof. done. Qed.

Lemma source_step_ok k x m w m' w' :
  step k x m w = (Ok m', w') →
  (∀ k' x', recorded m' k' x' = true ↔ recorded m k' x' = true ∨ (k' = k ∧ x' = x)) ∧
  blobs w' !! source_manifest_path = Some (Json m') ∧
  manifest_files w' !! source_manifest_file = Some (Json m').
Proof.
  intros H. apply push_source_pack_ok in H as ((l & Hm & ->) & Hb & -> & _).
  split; [|split; [done|apply lookup_insert_eq]].
  intros k' x'. by apply recorded_append_pack.
Qed.

Lemma source_step_raise k x m w e w' :
  step k x m w = (Raise e, w') →
  manifest_files w' = manifest_files w ∧
  (blobs w' = blobs w ∨ ∃ b, blobs w' = <[pack_blob_path k x := b]> (blobs w)).
Proof.
  intros H. apply push_source_pack_raise in H as (Hf & [Hb | [a Hb]]); eauto.
Qed.

Lemma source_loop_app l1 l2 m w :
  loop (l1 ++ l2) m w =
  match loop l1 m w with
  | (Ok m1, w1) => loop l2 m1 w1
  | (Raise e, w1) => (Raise e, w1)
  end.
Proof. exact (loop_app step loop source_loop_nil source_loop_cons l1 l2 m w). Qed.

Lemma source_loop_ok work m w m' w' :
  loop work m w = (Ok m', w') →
  (∀ k x, recorded m' k x = true ↔ recorded m k x = true ∨ (k, x) ∈ work) ∧
  (work = [] → m' = m ∧ w' = w) ∧
  (work ≠ [] →
   blobs w' !! source_manifest_path = Some (Json m') ∧
   manifest_files w' !! source_manifest_file = Some (Json m')).
Proof.
  exact (loop_ok step loop source_manifest_path source_manifest_file
           source_loop_nil source_loop_cons source_step_ok work m w m' w').
Qed.

Lemma source_loop_persisted (m0 : gmap string entry) work m w r w' :
  (∀ k x, (k, x) ∈ work → k ∈ pack_subdirs) →
  loop work m w = (r, w') →
  records_le m0 m →
  (∃ mr, blobs w !! source_manifest_path = Some (Json mr) ∧ records_le m0 mr) →
  (∃ ml, manifest_files w !! source_manifest_file = Some (Json ml) ∧ records_le m0 ml) →
  (∃ mr, blobs w' !! source_manifest_path = Some (Json mr) ∧ records_le m0 mr) ∧
  (∃ ml, manifest_files w' !! source_manifest_file = Some (Json ml) ∧ records_le m0 ml).
Proof.
  intros Hk.
  apply (loop_persisted step loop source_manifest_path source_manifest_file
           pack_blob_path source_loop_nil source_loop_cons source_step_ok
           source_step_raise).
  intros k x Hin. apply pack_blob_path_ne. by eapply Hk.
Qed.

Lemma source_loop_frame work m w r w' :
  loop work m w = (r, w') →
  cache_path w' = cache_path w ∧
  ∃ evs, trace w' = trace w ++ evs ∧ Forall (addresses source_manifest_path) evs.
Proof.
  apply (loop_frame step loop source_manifest_path source_loop_nil source_loop_cons).
  intros k x m1 w1 r1 w1' H. by apply push_source_pack_frame in H as (? & _ & ?).
Qed.

Lemma source_loop_fatal done k x rest m w m_i w_i e w_f :
  loop done m w = (Ok m_i, w_i) →
  step k x m_i w_i = (Raise e, w_f) →
  loop (done ++ (k, x) :: rest) m w = (Raise e, w_f).
Proof.
  exact (loop_fatal step loop source_loop_nil source_loop_cons
           done k x rest m w m_i w_i e w_f).
Qed.

End SourceLoop.

(** ** Fetching and planning *)

Lemma fetch_spec P w :
  ∃ w', fetch_remote_manifest P w = (Ok (fetched P w), w') ∧
        blobs w' = blobs w ∧ manifest_files w' = manifest_files w ∧
        artifact_root w' = artifact_root w ∧ cache_path w' = cache_path w ∧
        stdout w' = stdout w ++ fetch_output P w ∧
        trace w' = trace w ++ [Download P] ∧ progress w' = progress w.
Proof.
  unfold fetched, fetch_output. munfold. simpl.
  destruct (oracle w) as [|[] o]; simpl;
    try destruct (blobs w !! P) as [[m|s]|]; simpl;
    eexists; (split; [reflexivity|]); done.
Qed.

Lemma listdir_all_spec subdirs : ∀ w,
  ∃ r, listdir_all subdirs w = (r, w) ∧
       (∀ w2, cache_path w2 = cache_path w → listdir_all subdirs w2 = (r, w2)) ∧
       match r with
       | Ok inventory =>
           inventory.*1 = subdirs ∧
           ∀ k l, (k, l) ∈ inventory → cache_path w !! k = Some l
       | Raise e => ∃ p, e = OSError p
       end.
Proof.
  induction subdirs as [|subdir subdirs IH]; intros w; simpl.
  - exists (Ok []). repeat split. intros k l Hin. by apply elem_of_nil in Hin.
  - unfold bind, os_listdir_cache, ret.
    destruct (cache_path w !! subdir) as [l|] eqn:E.
    + destruct (IH w) as (r & Hr & Hr2 & Hinv). rewrite Hr.
      destruct r as [inventory|e].
      * exists (Ok ((subdir, l) :: inventory)). split; [done|]. split.
        -- intros w2 Hw2. by rewrite Hw2, E, (Hr2 w2 Hw2).
        -- destruct Hinv as [Hkeys Hlook]. split; [simpl; by f_equal|].
           intros k l' Hin. apply elem_of_cons in Hin as [[= -> ->]|Hin]; eauto.
      * exists (Raise e). split; [done|]. split; [|done].
        intros w2 Hw2. by rewrite Hw2, E, (Hr2 w2 Hw2).
    + exists (Raise (OSError subdir)). split; [done|]. split; [|eauto].
      intros w2 Hw2. by rewrite Hw2, E.
Qed.

Lemma build_plan_spec args w :
  ∃ w', build_plan args w =
          (Ok (plan_build (artifact_root w) (fetched build_manifest_path w) (force args)), w') ∧
        blobs w' = blobs w ∧
        manifest_files w' =
          <[build_manifest_file := Json (fetched build_manifest_path w)]> (manifest_files w) ∧
        artifact_root w' = artifact_root w ∧ cache_path w' = cache_path w ∧
        trace w' = trace w ++
          [Download build_manifest_path;
           WriteFile build_manifest_file (Json (fetched build_manifest_path w))].
Proof.
  unfold build_plan. fold build_manifest_path. unfold bind at 1.
  destruct (fetch_spec build_manifest_path w) as (w1 & -> & Hb & Hf & Ha & Hc & _ & Ht & _).
  munfold. simpl. rewrite Ha. eexists. split; [reflexivity|]. simpl.
  rewrite Hb, Hf, Ha, Hc, Ht, <- app_assoc. done.
Qed.

Lemma source_plan_spec args w r :
  listdir_all pack_subdirs w = (r, w) →
  ∃ w', source_plan args w =
          (match r with
           | Ok inventory =>
               Ok (plan_source inventory (fetched source_manifest_path w) (force args))
           | Raise e => Raise e
           end, w') ∧
        blobs w' = blobs w ∧
        manifest_files w' =
          <[source_manifest_file := Json (fetched source_manifest_path w)]> (manifest_files w) ∧
        artifact_root w' = artifact_root w ∧ cache_path w' = cache_path w ∧
        trace w' = trace w ++
          [Download source_manifest_path;
           WriteFile source_manifest_file (Json (fetched source_manifest_path w))].
Proof.
  intros Hl. unfold source_plan. fold source_manifest_path. unfold bind at 1.
  destruct (fetch_spec source_manifest_path w) as (w1 & -> & Hb & Hf & Ha & Hc & _ & Ht & _).
  destruct (listdir_all_spec pack_subdirs w) as (r' & Hr & Hr2 & _).
  rewrite Hl in Hr. simplify_eq.
  unfold bind at 1, logger_info at 1, ret at 1.
  unfold bind at 1, write_manifest_file at 1, bind at 1, emit at 1.
  unfold bind at 1, logger_info at 1, ret at 1. unfold bind at 1.
  rewrite Hr2 by (simpl; done).
  destruct r' as [inventory|e]; eexists; (split; [reflexivity|]); simpl;
    rewrite Hb, Hf, Ha, Hc, Ht, <- app_assoc; done.
Qed.

(** ** The dry-run report *)

Lemma append_assoc (s1 s2 s3 : string) : (s1 +:+ s2) +:+ s3 = s1 +:+ (s2 +:+ s3).
Proof.
  induction s1 as [|a s1 IH]; [done|].
  change (String a ((s1 +:+ s2) +:+ s3) = String a (s1 +:+ (s2 +:+ s3))).
  by rewrite IH.
Qed.

Lemma append_empty_r (s : string) : s +:+ "" = s.
Proof.
  induction s as [|a s IH]; [done|].
  change (String a (s +:+ "") = String a s). by rewrite IH.
Qed.

Lemma extends_refl s : extends s s.
Proof. exists "". by rewrite append_empty_r. Qed.

Lemma extends_trans s1 s2 s3 : extends s1 s2 → extends s2 s3 → extends s1 s3.
Proof. intros [t ->] [u ->]. exists (t +:+ u). apply append_assoc. Qed.

Lemma has_line_extends s s' line : has_line s line → extends s s' → has_line s' line.
Proof.
  intros (pre & post & ->) [t ->]. exists pre, (post +:+ t).
  by rewrite !append_assoc.
Qed.

Lemma has_line_last s line : has_line (s +:+ line) line.
Proof. exists s, "". by rewrite append_empty_r. Qed.

Lemma report_entries_spec lm k entries : ∀ acc,
  let r := report_entries lm k acc entries in
  extends acc.1 r.1 ∧ extends acc.2 r.2 ∧
  ∀ x, x ∈ entries →
       if recorded lm k x
       then has_line r.1 (report_line k x " Skipping")
       else has_line r.2 (report_line k x " Pushing").
Proof.
  unfold report_entries.
  induction entries as [|y entries IH]; intros acc; simpl.
  - split; [apply extends_refl|]. split; [apply extends_refl|].
    intros x Hx. by apply elem_of_nil in Hx.
  - match goal with |- context [foldl ?f ?a entries] => destruct (IH a) as (H1 & H2 & H3) end.
    split; [|split].
    + eapply extends_trans; [|apply H1]. destruct (recorded lm k y); simpl;
        [by eexists | apply extends_refl].
    + eapply extends_trans; [|apply H2]. destruct (recorded lm k y); simpl;
        [apply extends_refl | by eexists].
    + intros x Hx. apply elem_of_cons in Hx as [-> | Hx]; [|by apply H3].
      destruct (recorded lm k y) eqn:Hr; simpl in *.
      * eapply has_line_extends; [|apply H1]. apply has_line_last.
      * eapply has_line_extends; [|apply H2]. apply has_line_last.
Qed.

Lemma report_spec lm inventory : ∀ acc,
  let r := foldl (λ sp dir, report_entries lm dir.1 sp dir.2) acc inventory in
  extends acc.1 r.1 ∧ extends acc.2 r.2 ∧
  ∀ k entries x, (k, entries) ∈ inventory → x ∈ entries →
       if recorded lm k x
       then has_line r.1 (report_line k x " Skipping")
       else has_line r.2 (report_line k x " Pushing").
Proof.
  induction inventory as [|[k0 l0] inventory IH]; intros acc; simpl.
  - split; [apply extends_refl|]. split; [apply extends_refl|].
    intros k entries x Hin. by apply elem_of_nil in Hin.
  - destruct (report_entries_spec lm k0 l0 acc) as (E1 & E2 & E3).
    destruct (IH (report_entries lm k0 acc l0)) as (H1 & H2 & H3).
    split; [by eapply extends_trans|]. split; [by eapply extends_trans|].
    intros k entries x Hin Hx. apply elem_of_cons in Hin as [[= -> ->] | Hin].
    + specialize (E3 x Hx). destruct (recorded lm k0 x);
        eapply has_line_extends; eauto.
    + by eapply H3.
Qed.

Lemma load_local_manifest_spec file w :
  load_local_manifest file w =
  (Ok (cached file w), set_trace (λ t, t ++ [ReadFile file]) w).
Proof.
  unfold cached. munfold. simpl.
  by destruct (manifest_files w !! file) as [[m|s]|].
Qed.

Lemma dry_run_report_spec hint lm inventory w :
  ∃ w', dry_run_report hint lm inventory w = (Ok tt, w') ∧
        stdout w' = stdout w ++ [(report lm inventory).1; hint; (report lm inventory).2] ∧
        trace w' = trace w ∧ blobs w' = blobs w ∧ folders w' = folders w ∧
        manifest_files w' = manifest_files w ∧ oracle w' = oracle w.
Proof.
  unfold dry_run_report. munfold. simpl. eexists. split; [reflexivity|].
  simpl. by rewrite <- !app_assoc.
Qed.

Lemma build_objects_dry_run sha1_hexdigest ctx args w :
  dry_run args = true →
  ∃ w',
    build_objects sha1_hexdigest ctx args w = (Ok tt, w') ∧
    stdout w' = stdout w ++ [(report (cached build_manifest_file w) (artifact_root w)).1;
                             build_hint;
                             (report (cached build_manifest_file w) (artifact_root w)).2] ∧
    trace w' = trace w ++ [ReadFile build_manifest_file] ∧
    blobs w' = blobs w ∧ folders w' = folders w ∧
    manifest_files w' = manifest_files w ∧ oracle w' = oracle w.
Proof.
  intros Hdry.
  unfold build_objects. unfold bind at 1. rewrite load_local_manifest_spec, Hdry.
  unfold build_dry_run, logger_info, os_listdir_artifact_root.
  unfold bind at 1, ret at 1. unfold bind at 1. simpl.
  destruct (dry_run_report_spec build_hint (cached build_manifest_file w)
              (artifact_root w) (set_trace (λ t, t ++ [ReadFile build_manifest_file]) w))
    as (w' & -> & Hout & Ht & Hb & Hfo & Hf & Ho).
  exists w'. split; [done|]. simpl in *. by repeat split.
Qed.

(** C7, as amended. Dry-run output: with the dry-run flag and a local
    manifest cache that is missing or holds a manifest, the build part and
    the source part each write the list of "<key>/<item> Skipping" lines,
    then the fixed hint about --force, then the list of "<key>/<item>
    Pushing" lines, so the hint stands between the two lists and not after
    them; an item of the local inventory has its Skipping line when the
    local manifest cache records it and its Pushing line otherwise; no
    remote call is made and nothing is stored.  For the inventory
    {pkgA: [art1, art2]} and the local manifest {pkgA: {art1: "deadbeef"}}
    the output is pkgA/art1 Skipping, the hint, pkgA/art2 Pushing. *)
Theorem dry_run_output (sha1_hexdigest : bytes → string) (ctx : Ctx) (args : Args)
    (w : World) :
  dry_run args = true →
  (missing_or_manifest build_manifest_file w →
   ∃ w',
     build_objects sha1_hexdigest ctx args w = (Ok tt, w') ∧
     let lm := cached build_manifest_file w in
     let sp := report lm (artifact_root w) in
     stdout w' = stdout w ++ [sp.1; build_hint; sp.2] ∧
     (∀ k entries x, (k, entries) ∈ artifact_root w → x ∈ entries →
        if recorded lm k x
        then has_line sp.1 (report_line k x " Skipping")
        else has_line sp.2 (report_line k x " Pushing")) ∧
     trace w' = trace w ++ [ReadFile build_manifest_file] ∧
     blobs w' = blobs w ∧ folders w' = folders w ∧
     manifest_files w' = manifest_files w ∧ oracle w' = oracle w) ∧
  (missing_or_manifest source_manifest_file w →
   ∀ inventory, listdir_all pack_subdirs w = (Ok inventory, w) →
   ∃ w',
     source_objects args w = (Ok tt, w') ∧
     let lm := cached source_manifest_file w in
     let sp := report lm inventory in
     stdout w' = stdout w ++ [sp.1; source_hint; sp.2] ∧
     (∀ k entries x, (k, entries) ∈ inventory → x ∈ entries →
        if recorded lm k x
        then has_line sp.1 (report_line k x " Skipping")
        else has_line sp.2 (report_line k x " Pushing")) ∧
     trace w' = trace w ++ [ReadFile source_manifest_file] ∧
     blobs w' = blobs w ∧ folders w' = folders w ∧
     manifest_files w' = manifest_files w ∧ oracle w' = oracle w) ∧
  stdout (build_objects sha1_hexdigest ctx dry_run_args scenario_world).2 =
    [ "pkgA/art1 Skipping" +:+ nl; build_hint; "pkgA/art2 Pushing" +:+ nl ].
Proof.
  intros Hdry. split; [|split].
  - intros _.
    destruct (build_objects_dry_run sha1_hexdigest ctx args w Hdry)
      as (w' & Hrun & Hout & Ht & Hb & Hfo & Hf & Ho).
    exists w'. split; [done|]. simpl. repeat split; try done.
    intros k entries x Hin Hx.
    destruct (report_spec (cached build_manifest_file w) (artifact_root w) ("", ""))
      as (_ & _ & H).
    by apply (H k entries x).
  - intros _ inventory Hl.
    unfold source_objects. unfold bind at 1. rewrite load_local_manifest_spec, Hdry.
    unfold source_dry_run, logger_info. unfold bind at 1, ret at 1. unfold bind at 1.
    destruct (listdir_all_spec pack_subdirs w) as (r & Hr & Hr2 & _).
    rewrite Hl in Hr. simplify_eq. rewrite Hr2 by done.
    destruct (dry_run_report_spec source_hint (cached source_manifest_file w)
                inventory (set_trace (λ t, t ++ [ReadFile source_manifest_file]) w))
      as (w' & -> & Hout & Ht & Hb & Hfo & Hf & Ho).
    exists w'. split; [done|]. simpl in *. repeat split; try done.
    intros k entries x Hin Hx.
    destruct (report_spec (cached source_manifest_file w) inventory ("", ""))
      as (_ & _ & H).
    by apply (H k entries x).
  - by vm_compute.
Qed.

(** ** Storage set-up *)






(** ** A push of one object class, taken apart *)

Lemma build_push_inv sha1_hexdigest ctx args w r w' :
  build_push sha1_hexdigest ctx args w = (r, w') →
  let mp := plan_build (artifact_root w) (fetched build_manifest_path w) (force args) in
  ∃ w0 r0,
    build_plan args w = (Ok mp, w0) ∧
    blobs w0 = blobs w ∧
    manifest_files w0 =
      <[build_manifest_file := Json (fetched build_manifest_path w)]> (manifest_files w) ∧
    artifact_root w0 = artifact_root w ∧ cache_path w0 = cache_path w ∧
    trace w0 = trace w ++
      [Download build_manifest_path;
       WriteFile build_manifest_file (Json (fetched build_manifest_path w))] ∧
    push_artifacts sha1_hexdigest ctx (plan_items mp.2) mp.1 w0 = (r0, w') ∧
    r = match r0 with Ok _ => Ok tt | Raise e => Raise e end.
Proof.
  intros H mp. unfold build_push in H. unfold bind at 1 in H.
  destruct (build_plan_spec args w) as (w0 & Hplan & Hb & Hf & Ha & Hc & Ht).
  rewrite Hplan in H. fold mp in H. unfold bind at 1 in H.
  destruct (push_artifacts sha1_hexdigest ctx (plan_items mp.2) mp.1 w0)
    as [[m'|e] w1] eqn:Hloop; unfold ret in H; simplify_eq;
    exists w0; eexists; repeat split; eauto.
Qed.

Lemma source_push_inv args w r w' :
  source_push args w = (r, w') →
  ∃ w0,
    blobs w0 = blobs w ∧
    manifest_files w0 =
      <[source_manifest_file := Json (fetched source_manifest_path w)]> (manifest_files w) ∧
    artifact_root w0 = artifact_root w ∧ cache_path w0 = cache_path w ∧
    trace w0 = trace w ++
      [Download source_manifest_path;
       WriteFile source_manifest_file (Json (fetched source_manifest_path w))] ∧
    ((∃ p, listdir_all pack_subdirs w = (Raise (OSError p), w) ∧
           r = Raise (OSError p) ∧ w' = w0) ∨
     (∃ inventory r0,
        listdir_all pack_subdirs w = (Ok inventory, w) ∧
        let mp := plan_source inventory (fetched source_manifest_path w) (force args) in
        source_plan args w = (Ok mp, w0) ∧
        push_source_packs (plan_items mp.2) mp.1 w0 = (r0, w') ∧
        r = match r0 with Ok _ => Ok tt | Raise e => Raise e end)).
Proof.
  intros H. unfold source_push in H. unfold bind at 1 in H.
  destruct (listdir_all_spec pack_subdirs w) as (rl & Hl & _ & Hrl).
  destruct (source_plan_spec args w rl Hl) as (w0 & Hplan & Hb & Hf & Ha & Hc & Ht).
  rewrite Hplan in H. exists w0. repeat (split; [done|]).
  destruct rl as [inventory|e].
  - right. unfold bind at 1 in H.
    destruct (push_source_packs _ _ w0) as [[m'|e] w1] eqn:Hloop;
      unfold ret in H; simplify_eq; exists inventory; eexists; repeat split; eauto.
  - left. destruct Hrl as [p ->]. simplify_eq. by exists p.
Qed.

Lemma source_plan_keys inventory m force w k x :
  listdir_all pack_subdirs w = (Ok inventory, w) →
  planned (plan_source inventory m force).2 k x →
  k ∈ pack_subdirs ∧ ∃ l, cache_path w !! k = Some l ∧ x ∈ l.
Proof.
  intros Hl Hp. apply plan_spec in Hp as (entries & Hin & Hx & _); [|apply list_empty].
  destruct (listdir_all_spec pack_subdirs w) as (r & Hr & _ & Hinv).
  rewrite Hl in Hr. simplify_eq. destruct Hinv as [Hkeys Hlook]. split.
  - rewrite <- Hkeys. apply list_elem_of_fmap. by exists (k, entries).
  - exists entries. split; [by apply Hlook|done].
Qed.

(** C8. Stable manifest blob path: whatever a push of the build objects
    does, every download of the manifest and every upload of manifest text
    addresses /bld/build_manifest.json, and whatever a push of the source
    objects does they address /src/source_manifest.json; this includes the
    re-upload after each pushed source pack, whose root is spelled /src
    where the download spells /src/. *)
Theorem manifest_path_stable (sha1_hexdigest : bytes → string) (ctx : Ctx)
    (args : Args) (w : World) :
  build_manifest_path = ["bld"; "build_manifest.json"] ∧
  source_manifest_path = ["src"; "source_manifest.json"] ∧
  cpath_add (CPath "/src") source_manifest_file = source_manifest_path ∧
  (∀ r w', build_objects sha1_hexdigest ctx args w = (r, w') →
     ∃ evs, trace w' = trace w ++ evs ∧ Forall (addresses build_manifest_path) evs) ∧
  (∀ r w', source_objects args w = (r, w') →
     ∃ evs, trace w' = trace w ++ evs ∧ Forall (addresses source_manifest_path) evs) ∧
  (∀ package artifact m m' w',
     push_artifact sha1_hexdigest ctx package artifact m w = (Ok m', w') →
     Upload build_manifest_path (Json m') (Some "text/plain") ∈ trace w') ∧
  (∀ subdir source_pack m m' w',
     push_source_pack subdir source_pack m w = (Ok m', w') →
     Upload source_manifest_path (Json m') (Some "text/plain") ∈ trace w').
Proof.
  split; [done|]. split; [done|]. split; [done|]. split; [|split; [|split]].
  - intros r w'. unfold build_objects. unfold bind at 1.
    rewrite load_local_manifest_spec. destruct (dry_run args).
    + unfold build_dry_run, logger_info, os_listdir_artifact_root.
      unfold bind at 1, ret at 1. unfold bind at 1.
      match goal with |- context [dry_run_report ?h ?lm ?inv ?w0] =>
        destruct (dry_run_report_spec h lm inv w0) as (w1 & -> & _ & Ht & _) end.
      intros [= <- <-]. rewrite Ht. simpl. eexists. split; [done|].
      by repeat constructor.
    + intros H. apply build_push_inv in H
        as (w0 & r0 & _ & _ & _ & _ & _ & Ht0 & Hloop & _).
      apply build_loop_frame in Hloop as (_ & evs & Ht & Hevs).
      rewrite Ht, Ht0. simpl. rewrite <- !app_assoc. eexists. split; [done|].
      simpl. by repeat constructor.
  - intros r w'. unfold source_objects. unfold bind at 1.
    rewrite load_local_manifest_spec. destruct (dry_run args).
    + unfold source_dry_run, logger_info. unfold bind at 1, ret at 1. unfold bind at 1.
      match goal with |- context [listdir_all ?l ?w0] =>
        destruct (listdir_all_spec l w0) as (rl & -> & _ & _) end.
      destruct rl as [inventory|e].
      * match goal with |- context [dry_run_report ?h ?lm ?inv ?w0] =>
          destruct (dry_run_report_spec h lm inv w0) as (w1 & -> & _ & Ht & _) end.
        intros [= <- <-]. rewrite Ht. simpl. eexists. split; [done|].
        by repeat constructor.
      * intros [= <- <-]. simpl. eexists. split; [done|]. by repeat constructor.
    + intros H. apply source_push_inv in H
        as (w0 & _ & _ & _ & _ & Ht0 & [(p & _ & _ & ->) | (inv & r0 & _ & _ & Hloop & _)]).
      * rewrite Ht0. simpl. rewrite <- !app_assoc. eexists. split; [done|].
        by repeat constructor.
      * apply source_loop_frame in Hloop as (_ & evs & Ht & Hevs).
        rewrite Ht, Ht0. simpl. rewrite <- !app_assoc. eexists. split; [done|].
        simpl. by repeat constructor.
  - intros package artifact m m' w' H.
    apply push_artifact_ok in H as (_ & _ & _ & archive & ->).
    rewrite elem_of_app. right. rewrite !elem_of_cons. tauto.
  - intros subdir source_pack m m' w' H.
    apply push_source_pack_ok in H as (_ & _ & _ & content & ->).
    rewrite elem_of_app. right. rewrite !elem_of_cons. tauto.
Qed.

(** ** Persistence after every item *)

(** C4. Per-item manifest persistence: every item that is processed to the
    end is followed, within its own turn of the loop, by one upload of the
    text of the whole manifest to the remote manifest path and one write of
    the same text to the local cache, and they are the last two events of
    the turn; so after each item, and after any number of items, both
    copies hold the same text, that of a manifest that records every item
    processed so far. *)
Theorem manifest_persisted_per_item (sha1_hexdigest : bytes → string) (ctx : Ctx)
    (w : World) (m : gmap string entry) :
  (∀ package artifact m' w',
     push_artifact sha1_hexdigest ctx package artifact m w = (Ok m', w') →
     recorded m' package artifact = true ∧
     (∃ evs, trace w' = trace w ++ evs ++
               [Upload build_manifest_path (Json m') (Some "text/plain");
                WriteFile build_manifest_file (Json m')] ∧
             Forall (λ e, stores_manifest e = false) evs) ∧
     blobs w' !! build_manifest_path = Some (Json m') ∧
     manifest_files w' !! build_manifest_file = Some (Json m')) ∧
  (∀ subdir source_pack m' w',
     push_source_pack subdir source_pack m w = (Ok m', w') →
     recorded m' subdir source_pack = true ∧
     (∃ evs, trace w' = trace w ++ evs ++
               [Upload source_manifest_path (Json m') (Some "text/plain");
                WriteFile source_manifest_file (Json m')] ∧
             Forall (λ e, stores_manifest e = false) evs) ∧
     blobs w' !! source_manifest_path = Some (Json m') ∧
     manifest_files w' !! source_manifest_file = Some (Json m')) ∧
  (∀ done m' w', done ≠ [] →
     push_artifacts sha1_hexdigest ctx done m w = (Ok m', w') →
     blobs w' !! build_manifest_path = Some (Json m') ∧
     manifest_files w' !! build_manifest_file = Some (Json m') ∧
     ∀ k x, (k, x) ∈ done → recorded m' k x = true) ∧
  (∀ done m' w', done ≠ [] →
     push_source_packs done m w = (Ok m', w') →
     blobs w' !! source_manifest_path = Some (Json m') ∧
     manifest_files w' !! source_manifest_file = Some (Json m') ∧
     ∀ k x, (k, x) ∈ done → recorded m' k x = true).
Proof.
  split; [|split; [|split]].
  - intros package artifact m' w' H.
    pose proof (build_step_ok _ _ _ _ _ _ _ _ H) as (Hrec & Hb & Hf).
    apply push_artifact_ok in H as (_ & _ & _ & archive & Ht).
    split; [apply Hrec; by right|]. split; [|done].
    eexists [_; _; _; _]. split; [exact Ht|].
    repeat constructor; done.
  - intros subdir source_pack m' w' H.
    pose proof (source_step_ok _ _ _ _ _ _ H) as (Hrec & Hb & Hf).
    apply push_source_pack_ok in H as (_ & _ & _ & content & Ht).
    split; [apply Hrec; by right|]. split; [|done].
    eexists [_; _]. split; [exact Ht|].
    repeat constructor; done.
  - intros done m' w' Hne H.
    apply build_loop_ok in H as (Hrec & _ & Hp). destruct (Hp Hne) as [Hb Hf].
    repeat split; try done. intros k x Hin. apply Hrec. by right.
  - intros done m' w' Hne H.
    apply source_loop_ok in H as (Hrec & _ & Hp). destruct (Hp Hne) as [Hb Hf].
    repeat split; try done. intros k x Hin. apply Hrec. by right.
Qed.

(** ** A failing item *)

Lemma push_artifact_tar_fails sha1_hexdigest ctx package artifact m w o :
  oracle w = false :: o →
  ∃ w', push_artifact sha1_hexdigest ctx package artifact m w =
          (Raise CalledProcessError, w') ∧
        manifest_files w' = manifest_files w ∧ blobs w' = blobs w ∧
        trace w' = trace w ++
          [Tar (pjoin package (artifact +:+ ".tar.gz")) (pjoin package artifact)].
Proof.
  intros Ho. munfold. simpl. rewrite Ho. simpl. eexists. by split.
Qed.

Lemma push_artifact_upload_fails sha1_hexdigest ctx package artifact m w o :
  oracle w = true :: true :: false :: o →
  ∃ e w', push_artifact sha1_hexdigest ctx package artifact m w = (Raise e, w') ∧
          manifest_files w' = manifest_files w ∧ blobs w' = blobs w ∧
          (∃ evs, trace w' = trace w ++ evs ∧
                  Forall (λ e, stores_manifest e = false) evs) ∧
          (∀ d, m !! package = Some (EDict d) →
                logger_accepts_no_message ctx = true →
                e = StorageError (artifact_blob_path package artifact)).
Proof.
  intros Ho. unfold artifact_blob_path. munfold. simpl. rewrite Ho. simpl.
  rewrite lookup_insert_eq.
  destruct (m !! package) as [[d|l]|] eqn:Hm; simpl.
  - destruct (logger_accepts_no_message ctx) eqn:Hlog; simpl.
    + rewrite lookup_insert_eq. simpl. do 2 eexists. split; [reflexivity|]. simpl.
      repeat split; try done.
      eexists. rewrite <- !app_assoc. split; [reflexivity|]. by repeat constructor.
    + do 2 eexists. split; [reflexivity|]. simpl. repeat split; try done.
      eexists. split; [reflexivity|]. by repeat constructor.
  - do 2 eexists. split; [reflexivity|]. simpl. repeat split; try done.
    eexists. split; [reflexivity|]. by repeat constructor.
  - do 2 eexists. split; [reflexivity|]. simpl. repeat split; try done.
    eexists. split; [reflexivity|]. by repeat constructor.
Qed.

Lemma push_source_pack_upload_fails subdir source_pack m w o :
  oracle w = true :: false :: o →
  ∃ e w', push_source_pack subdir source_pack m w = (Raise e, w') ∧
          manifest_files w' = manifest_files w ∧ blobs w' = blobs w ∧
          (∃ evs, trace w' = trace w ++ evs ∧
                  Forall (λ e, stores_manifest e = false) evs) ∧
          (∀ l, m !! subdir = Some (EList l) →
                e = StorageError (pack_blob_path subdir source_pack)).
Proof.
  intros Ho. unfold pack_blob_path. munfold. simpl.
  destruct (m !! subdir) as [[d|l]|] eqn:Hm; simpl.
  - do 2 eexists. split; [reflexivity|]. simpl. repeat split; try done.
    exists []. split; [by rewrite app_nil_r|]. constructor.
  - rewrite Ho. simpl. do 2 eexists. split; [reflexivity|]. simpl.
    repeat split; try done.
    eexists. rewrite <- !app_assoc. split; [reflexivity|]. by repeat constructor.
  - do 2 eexists. split; [reflexivity|]. simpl. repeat split; try done.
    exists []. split; [by rewrite app_nil_r|]. constructor.
Qed.

(** C6. Per-item failure atomicity: when archive creation fails, or the
    upload of the blob fails, for an item, processing raises, the loop ends
    there, and neither the local manifest cache nor the remote storage is
    changed for that item: no manifest text is uploaded or written.  The
    copies persisted for the items completed before it are untouched and
    still record those items. *)
Theorem item_failure_atomic (sha1_hexdigest : bytes → string) (ctx : Ctx)
    (w : World) (m : gmap string entry) :
  (∀ package artifact o,
     oracle w = false :: o →
     ∃ w', push_artifact sha1_hexdigest ctx package artifact m w =
             (Raise CalledProcessError, w') ∧
           manifest_files w' = manifest_files w ∧ blobs w' = blobs w) ∧
  (∀ package artifact o,
     oracle w = true :: true :: false :: o →
     ∃ e w', push_artifact sha1_hexdigest ctx package artifact m w = (Raise e, w') ∧
             manifest_files w' = manifest_files w ∧ blobs w' = blobs w ∧
             ∃ evs, trace w' = trace w ++ evs ∧
                    Forall (λ e, stores_manifest e = false) evs) ∧
  (∀ subdir source_pack o,
     oracle w = true :: false :: o →
     ∃ e w', push_source_pack subdir source_pack m w = (Raise e, w') ∧
             manifest_files w' = manifest_files w ∧ blobs w' = blobs w ∧
             ∃ evs, trace w' = trace w ++ evs ∧
                    Forall (λ e, stores_manifest e = false) evs) ∧
  (∀ done package artifact rest m0 w0 e w',
     push_artifacts sha1_hexdigest ctx done m0 w0 = (Ok m, w) →
     push_artifact sha1_hexdigest ctx package artifact m w = (Raise e, w') →
     push_artifacts sha1_hexdigest ctx (done ++ (package, artifact) :: rest) m0 w0 =
       (Raise e, w') ∧
     manifest_files w' = manifest_files w ∧
     blobs w' !! build_manifest_path = blobs w !! build_manifest_path ∧
     (done ≠ [] →
      blobs w' !! build_manifest_path = Some (Json m) ∧
      manifest_files w' !! build_manifest_file = Some (Json m) ∧
      ∀ k x, (k, x) ∈ done → recorded m k x = true)) ∧
  (∀ done subdir source_pack rest m0 w0 e w',
     subdir ∈ pack_subdirs →
     push_source_packs done m0 w0 = (Ok m, w) →
     push_source_pack subdir source_pack m w = (Raise e, w') →
     push_source_packs (done ++ (subdir, source_pack) :: rest) m0 w0 = (Raise e, w') ∧
     manifest_files w' = manifest_files w ∧
     blobs w' !! source_manifest_path = blobs w !! source_manifest_path ∧
     (done ≠ [] →
      blobs w' !! source_manifest_path = Some (Json m) ∧
      manifest_files w' !! source_manifest_file = Some (Json m) ∧
      ∀ k x, (k, x) ∈ done → recorded m k x = true)).
Proof.
  split; [|split; [|split; [|split]]].
  - intros package artifact o Ho.
    destruct (push_artifact_tar_fails sha1_hexdigest ctx package artifact m w o Ho)
      as (w' & H & Hf & Hb & _).
    by exists w'.
  - intros package artifact o Ho.
    destruct (push_artifact_upload_fails sha1_hexdigest ctx package artifact m w o Ho)
      as (e & w' & H & Hf & Hb & Ht & _).
    by exists e, w'.
  - intros subdir source_pack o Ho.
    destruct (push_source_pack_upload_fails subdir source_pack m w o Ho)
      as (e & w' & H & Hf & Hb & Ht & _).
    by exists e, w'.
  - intros done package artifact rest m0 w0 e w' Hdone Hstep.
    split; [by eapply build_loop_fatal|].
    apply push_artifact_raise in Hstep as (Hf & Hb).
    assert (blobs w' !! build_manifest_path = blobs w !! build_manifest_path) as Hb'.
    { destruct Hb as [-> | [a ->]]; [done|].
      rewrite lookup_insert_ne; [done|]. apply artifact_blob_path_ne. }
    split; [done|]. split; [done|]. intros Hne.
    apply build_loop_ok in Hdone as (Hrec & _ & Hp). destruct (Hp Hne) as [Hpb Hpf].
    rewrite Hb', Hf. repeat split; try done. intros k x Hin. apply Hrec. by right.
  - intros done subdir source_pack rest m0 w0 e w' Hk Hdone Hstep.
    split; [by eapply source_loop_fatal|].
    apply push_source_pack_raise in Hstep as (Hf & Hb).
    assert (blobs w' !! source_manifest_path = blobs w !! source_manifest_path) as Hb'.
    { destruct Hb as [-> | [a ->]]; [done|].
      rewrite lookup_insert_ne; [done|]. by apply pack_blob_path_ne. }
    split; [done|]. split; [done|]. intros Hne.
    apply source_loop_ok in Hdone as (Hrec & _ & Hp). destruct (Hp Hne) as [Hpb Hpf].
    rewrite Hb', Hf. repeat split; try done. intros k x Hin. apply Hrec. by right.
Qed.

(** ** Running again *)

(** ** Archives in the listing of the artifact root *)


Lemma listed_in_add_entry_inv dir name inventory k x :
  listed_in (add_entry dir name inventory) k x →
  listed_in inventory k x ∨ (k = dir ∧ x = name).
Proof.
  intros (entries & Hin & Hx). unfold add_entry in Hin.
  apply list_elem_of_fmap in Hin as ([k0 entries0] & Heq & Hin). simpl in Heq.
  destruct (bool_decide (k0 = dir)) eqn:Hk.
  - apply bool_decide_eq_true in Hk as ->. injection Heq as -> ->.
    destruct (bool_decide (name ∈ entries0)).
    + left. by exists entries0.
    + apply elem_of_app in Hx as [Hx | Hx].
      * left. by exists entries0.
      * apply list_elem_of_singleton in Hx. by right.
  - injection Heq as -> ->. left. by exists entries0.
Qed.

Lemma listed_in_remove_entry dir name inventory k x :
  listed_in (remove_entry dir name inventory) k x ↔
  listed_in inventory k x ∧ (k, x) ≠ (dir, name).
Proof.
  unfold remove_entry. split.
  - intros (entries & Hin & Hx).
    apply list_elem_of_fmap in Hin as ([k0 entries0] & Heq & Hin). simpl in Heq.
    destruct (bool_decide (k0 = dir)) eqn:Hk.
    + apply bool_decide_eq_true in Hk as ->. injection Heq as -> ->.
      apply list_elem_of_filter in Hx as [Hne Hx]. split; [by exists entries0|].
      congruence.
    + apply bool_decide_eq_false in Hk. injection Heq as -> ->.
      split; [by exists entries0|]. congruence.
  - intros [(entries & Hin & Hx) Hne].
    destruct (decide (k = dir)) as [-> | Hk].
    + exists (filter (λ y, y ≠ name) entries). split.
      * apply list_elem_of_fmap. exists (dir, entries). simpl.
        rewrite (bool_decide_eq_true_2 (dir = dir)) by done. done.
      * apply list_elem_of_filter. split; [congruence | done].
    + exists entries. split; [|done].
      apply list_elem_of_fmap. exists (k, entries). simpl.
      rewrite (bool_decide_eq_false_2 (k = dir)) by done. done.
Qed.


Lemma listed_in_add_file_inv path inventory k x :
  listed_in (add_file path inventory) k x →
  listed_in inventory k x ∨ path_split path = (Some k, x).
Proof.
  unfold add_file. destruct (path_split path) as [[dir|] name]; [|by left].
  intros H. apply listed_in_add_entry_inv in H as [? | [-> ->]]; [by left | by right].
Qed.

Lemma listed_in_remove_file path inventory k x :
  listed_in (remove_file path inventory) k x ↔
  listed_in inventory k x ∧ path_split path ≠ (Some k, x).
Proof.
  unfold remove_file. destruct (path_split path) as [[dir|] name].
  - rewrite listed_in_remove_entry. split; intros [? Hne]; (split; [done|]); congruence.
  - split; [|by intros [? _]]. intros H. split; [done|]. congruence.
Qed.

(** What one step does to the listing: nothing, or the archive is there,
    or it was there and is removed; the last when the step ends normally. *)
Lemma push_artifact_listing sha1_hexdigest ctx package artifact m w r w' :
  push_artifact sha1_hexdigest ctx package artifact m w = (r, w') →
  let tgz := pjoin package (artifact +:+ ".tar.gz") in
  match r with
  | Ok _ => artifact_root w' = remove_file tgz (add_file tgz (artifact_root w))
  | Raise _ => artifact_root w' = artifact_root w ∨
               artifact_root w' = add_file tgz (artifact_root w) ∨
               artifact_root w' = remove_file tgz (add_file tgz (artifact_root w))
  end.
Proof.
  intros H. mcrush.
  all: rewrite ?lookup_insert_eq in *; simplify_eq; eauto.
Qed.

Lemma push_artifacts_listing_ok sha1_hexdigest ctx work : ∀ m w m' w',
  push_artifacts sha1_hexdigest ctx work m w = (Ok m', w') →
  ∀ k x, listed_in (artifact_root w') k x → listed_in (artifact_root w) k x.
Proof.
  induction work as [|[k0 x0] work IH]; intros m w m' w' H k x Hl.
  - by injection H as <- <-.
  - rewrite build_loop_cons in H.
    destruct (push_artifact sha1_hexdigest ctx k0 x0 m w) as [[m1|e] w1] eqn:Hstep; [|done].
    apply push_artifact_listing in Hstep. simpl in Hstep.
    apply (IH _ _ _ _ H) in Hl. rewrite Hstep in Hl.
    apply listed_in_remove_file in Hl as [Hl Hne].
    apply listed_in_add_file_inv in Hl as [? | ?]; [done | congruence].
Qed.


Lemma covered_plan_empty empty inventory m :
  (∀ y, entry_contains empty y = false) →
  (∀ k entries x, (k, entries) ∈ inventory → x ∈ entries → recorded m k x = true) →
  (plan empty inventory m false).2 = ∅.
Proof.
  intros Hempty Hcov. apply plan_nothing_planned. intros k x Hp.
  apply plan_spec in Hp as (entries & Hin & Hx & [Hr | ?]); [|done..].
  rewrite (Hcov k entries x) in Hr; done.
Qed.

Lemma fetched_again P w w2 k x :
  recorded (fetched P w) k x = true →
  blobs w2 = blobs w → hd true (oracle w2) = true →
  recorded (fetched P w2) k x = true.
Proof.
  unfold fetched. intros Hr Hb ->. rewrite Hb.
  by destruct (hd true (oracle w)).
Qed.

Lemma fetched_persisted P w m :
  blobs w !! P = Some (Json m) → hd true (oracle w) = true → fetched P w = m.
Proof. unfold fetched. by intros -> ->. Qed.

Lemma listdir_all_again w w2 r :
  listdir_all pack_subdirs w = (r, w) → cache_path w2 = cache_path w →
  listdir_all pack_subdirs w2 = (r, w2).
Proof.
  intros Hl Hc. destruct (listdir_all_spec pack_subdirs w) as (r' & Hr & Hr2 & _).
  rewrite Hl in Hr. simplify_eq. by apply Hr2.
Qed.

(** What a loop that ended normally leaves for the next plan: every item
    of the inventory is recorded in the manifest the next fetch yields. *)
Lemma next_fetch_covers empty inventory P w (force1 : bool) work m' w1 w2 :
  (∀ y, entry_contains empty y = false) →
  force1 = false →
  let mp := plan empty inventory (fetched P w) force1 in
  work = plan_items mp.2 →
  (∀ k x, recorded m' k x = true ↔ recorded mp.1 k x = true ∨ (k, x) ∈ work) →
  (work = [] → blobs w1 = blobs w) →
  (work ≠ [] → blobs w1 !! P = Some (Json m')) →
  blobs w2 = blobs w1 → hd true (oracle w2) = true →
  ∀ k entries x, (k, entries) ∈ inventory → x ∈ entries →
                 recorded (fetched P w2) k x = true.
Proof.
  intros Hempty -> mp Hwork Hrec Hnil Hcons Hb Ho k entries x Hin Hx.
  destruct (decide ((k, x) ∈ work)) as [Hw | Hnw].
  - assert (work ≠ []) as Hne by (intros E; rewrite E in Hw; by apply elem_of_nil in Hw).
    rewrite (fetched_persisted P w2 m'); [|by rewrite Hb; apply Hcons|done].
    apply Hrec. by right.
  - assert (recorded (fetched P w) k x = true) as Hr.
    { destruct (recorded (fetched P w) k x) eqn:E; [done|].
      destruct Hnw. rewrite Hwork. apply elem_of_plan_items.
      apply plan_spec; [done|]. exists entries. eauto. }
    destruct work as [|kx work'] eqn:Ew.
    + eapply fetched_again; [exact Hr| |done]. rewrite Hb. by apply Hnil.
    + rewrite (fetched_persisted P w2 m'); [|by rewrite Hb; apply Hcons|done].
      apply Hrec. left. unfold mp. by rewrite plan_recorded.
Qed.

(** C3. Idempotence: when a push without [force] of the build objects, or
    of the source objects, has ended normally, a second push without
    [force] that finds the remote storage and the local inventory as the
    first left them, and whose download of the manifest goes through,
    plans nothing: its push plan is the empty dict. *)
Theorem push_idempotent (sha1_hexdigest : bytes → string) (ctx : Ctx) (args : Args)
    (w w1 : World) :
  force args = false →
  (build_push sha1_hexdigest ctx args w = (Ok tt, w1) →
   ∀ w2, blobs w2 = blobs w1 → artifact_root w2 = artifact_root w1 →
         hd true (oracle w2) = true →
         ∃ m2 w2', build_plan args w2 = (Ok (m2, ∅), w2')) ∧
  (source_push args w = (Ok tt, w1) →
   ∀ w2, blobs w2 = blobs w1 → cache_path w2 = cache_path w1 →
         hd true (oracle w2) = true →
         ∃ m2 w2', source_plan args w2 = (Ok (m2, ∅), w2')).
Proof.
  intros Hforce. split.
  - intros H w2 Hb2 Ha2 Ho2.
    apply build_push_inv in H as (w0 & r0 & _ & Hb0 & _ & Ha0 & _ & _ & Hloop & Hr).
    destruct r0 as [m'|e]; [|done].
    pose proof (push_artifacts_listing_ok _ _ _ _ _ _ _ Hloop) as Ha1.
    apply build_loop_ok in Hloop as (Hrec & Hnil & Hcons).
    destruct (build_plan_spec args w2) as (w2' & Hplan2 & _).
    rewrite Hplan2. rewrite Ha2, Hforce.
    match goal with |- context [Ok ?X] => exists X.1, w2'; rewrite (surjective_pairing X) at 1 end.
    do 3 f_equal. unfold plan_build.
    apply covered_plan_empty; [apply dict_empty|].
    intros k entries1 x Hin1 Hx1.
    destruct (Ha1 k x) as (entries & Hin & Hx); [by exists entries1|].
    rewrite Ha0 in Hin. clear Hin1 Hx1 entries1. revert k entries x Hin Hx.
    eapply (next_fetch_covers (EDict ∅) (artifact_root w) build_manifest_path w
              (force args) _ m' w1 w2); eauto using dict_empty.
    + intros E. destruct (Hnil E) as [_ ->]. done.
    + intros Hne. by apply Hcons.
  - intros H w2 Hb2 Hc2 Ho2.
    apply source_push_inv in H
      as (w0 & Hb0 & _ & _ & Hc0 & _ & [(p & _ & ? & _) | (inv & r0 & Hl & _ & Hloop & Hr)]);
      [done|].
    destruct r0 as [m'|e]; [|done].
    pose proof (source_loop_frame _ _ _ _ _ Hloop) as (Hc1 & _).
    apply source_loop_ok in Hloop as (Hrec & Hnil & Hcons).
    assert (listdir_all pack_subdirs w2 = (Ok inv, w2)) as Hl2.
    { eapply listdir_all_again; [exact Hl|]. by rewrite Hc2, Hc1, Hc0. }
    destruct (source_plan_spec args w2 _ Hl2) as (w2' & Hplan2 & _).
    rewrite Hplan2. rewrite Hforce.
    match goal with |- context [Ok ?X] => exists X.1, w2'; rewrite (surjective_pairing X) at 1 end.
    do 3 f_equal. unfold plan_source.
    apply covered_plan_empty; [apply list_empty|].
    eapply (next_fetch_covers (EList []) inv source_manifest_path w
              (force args) _ m' w1 w2); eauto using list_empty.
    + intros E. destruct (Hnil E) as [_ ->]. done.
    + intros Hne. by apply Hcons.
Qed.

(** ** Resuming after an interruption *)





(** ** Growth of the manifest *)

(** The push of the source part, which no run reaches, would not keep the
    records: it loses them in both copies when the fetch fails, and in the
    local cache even when the fetch goes through.  The pair (packs/zip,
    old.zip) is recorded before it and not after. *)
Lemma fallback_loses_records :
  (source_push push_args unreachable_world).1 = Ok tt ∧
  recorded (stored source_manifest_path unreachable_world) "packs/zip" "old.zip" = true ∧
  recorded (cached source_manifest_file unreachable_world) "packs/zip" "old.zip" = true ∧
  recorded (stored source_manifest_path (source_push push_args unreachable_world).2)
    "packs/zip" "old.zip" = false ∧
  recorded (cached source_manifest_file (source_push push_args unreachable_world).2)
    "packs/zip" "old.zip" = false ∧
  (source_push push_args stale_cache_world).1 = Ok tt ∧
  recorded (cached source_manifest_file stale_cache_world) "packs/zip" "old.zip" = true ∧
  recorded (cached source_manifest_file (source_push push_args stale_cache_world).2)
    "packs/zip" "old.zip" = false.
Proof. by vm_compute. Qed.

(** When the download of the remote manifest goes through and yields [m0],
    every pair recorded in [m0] is still recorded, however the push of an
    object class ends, in the remote manifest copy and in the local cache,
    which holds the fetched manifest from the start of the push on. *)
Lemma records_kept_when_fetched (sha1_hexdigest : bytes → string) (ctx : Ctx)
    (args : Args) (w : World) (m0 : gmap string entry) (r : result unit) (w' : World) :
  hd true (oracle w) = true →
  (blobs w !! build_manifest_path = Some (Json m0) →
   build_push sha1_hexdigest ctx args w = (r, w') →
   (∃ mr, blobs w' !! build_manifest_path = Some (Json mr) ∧ records_le m0 mr) ∧
   (∃ ml, manifest_files w' !! build_manifest_file = Some (Json ml) ∧ records_le m0 ml)) ∧
  (blobs w !! source_manifest_path = Some (Json m0) →
   source_push args w = (r, w') →
   (∃ mr, blobs w' !! source_manifest_path = Some (Json mr) ∧ records_le m0 mr) ∧
   (∃ ml, manifest_files w' !! source_manifest_file = Some (Json ml) ∧ records_le m0 ml)).
Proof.
  intros Ho. split.
  - intros Hm0 H.
    apply build_push_inv in H as (w0 & r0 & _ & Hb0 & Hf0 & _ & _ & _ & Hloop & _).
    rewrite (fetched_persisted _ _ _ Hm0 Ho) in *.
    eapply (build_loop_persisted sha1_hexdigest ctx m0); [exact Hloop|..].
    + intros k x. unfold plan_build. by rewrite plan_recorded by apply dict_empty.
    + exists m0. split; [by rewrite Hb0 | by intros ? ?].
    + exists m0. split; [by rewrite Hf0, lookup_insert_eq | by intros ? ?].
  - intros Hm0 H.
    apply source_push_inv in H
      as (w0 & Hb0 & Hf0 & _ & _ & _ & [(p & _ & _ & ->) | (inv & r0 & Hl & _ & Hloop & _)]);
      rewrite (fetched_persisted _ _ _ Hm0 Ho) in *.
    + split; exists m0; (split; [|by intros ? ?]); [by rewrite Hb0 | by rewrite Hf0, lookup_insert_eq].
    + eapply (source_loop_persisted m0); [|exact Hloop|..].
      * intros k x Hin. apply elem_of_plan_items in Hin.
        by apply (source_plan_keys _ _ _ _ _ _ Hl) in Hin as [? _].
      * intros k x. unfold plan_source. by rewrite plan_recorded by apply list_empty.
      * exists m0. split; [by rewrite Hb0 | by intros ? ?].
      * exists m0. split; [by rewrite Hf0, lookup_insert_eq | by intros ? ?].
Qed.




(** ** Repeated names in the source manifest *)

Lemma listed_append m subdir source_pack l k x :
  m !! subdir = Some (EList l) →
  listed (<[subdir := EList (l ++ [source_pack])]> m) k x =
  listed m k x + (if bool_decide ((subdir, source_pack) = (k, x)) then 1 else 0).
Proof.
  intros Hm. unfold listed. destruct (decide (subdir = k)) as [-> | Hne].
  - rewrite lookup_insert_eq, Hm, filter_app, length_app. f_equal.
    destruct (decide (source_pack = x)) as [-> | Hx].
    + rewrite bool_decide_eq_true_2 by done. rewrite filter_cons_True by done. done.
    + rewrite bool_decide_eq_false_2 by congruence.
      rewrite filter_cons_False by done. done.
  - rewrite lookup_insert_ne by done.
    rewrite bool_decide_eq_false_2 by congruence. lia.
Qed.

Lemma source_loop_listed work : ∀ m w m' w' k x,
  push_source_packs work m w = (Ok m', w') →
  listed m' k x = listed m k x + length (filter (λ kx, kx = (k, x)) work).
Proof.
  induction work as [|[k0 x0] work IH]; intros m w m' w' k x H.
  - injection H as <- <-. simpl. lia.
  - rewrite source_loop_cons in H.
    destruct (push_source_pack k0 x0 m w) as [[m1|e] w1] eqn:Hstep; [|done].
    apply push_source_pack_ok in Hstep as ((l & Hm & ->) & _).
    rewrite (IH _ _ _ _ k x H), (listed_append _ _ _ _ _ _ Hm).
    destruct (decide ((k0, x0) = (k, x))) as [E | E].
    + rewrite bool_decide_eq_true_2 by done. rewrite filter_cons_True by done.
      simpl. lia.
    + rewrite bool_decide_eq_false_2 by done. rewrite filter_cons_False by done. lia.
Qed.

Lemma occurs_at_least_once {A} `{EqDecision A} (x : A) (l : list A) :
  x ∈ l → (1 ≤ length (filter (λ y, y = x) l))%nat.
Proof.
  intros Hx. assert (x ∈ filter (λ y, y = x) l) as Hf.
  { apply list_elem_of_filter. by split. }
  destruct (filter (λ y, y = x) l); [by apply elem_of_nil in Hf | simpl; lia].
Qed.

(** C10. With [force], a source pack that the fetched manifest already
    lists under its subdirectory is planned again, and processing it
    appends its name to the list once more before the manifest is
    uploaded: after the push the persisted source manifest, remote and
    local, lists that file name at least twice. *)
Theorem forced_source_pack_listed_twice (args : Args) (w : World)
    (m0 : gmap string entry) (subdir source_pack : string) (l packs : list string) :
  force args = true →
  hd true (oracle w) = true →
  blobs w !! source_manifest_path = Some (Json m0) →
  m0 !! subdir = Some (EList l) → source_pack ∈ l →
  subdir ∈ pack_subdirs → cache_path w !! subdir = Some packs → source_pack ∈ packs →
  (∀ m w1 m1 w1',
     m !! subdir = Some (EList l) →
     push_source_pack subdir source_pack m w1 = (Ok m1, w1') →
     m1 !! subdir = Some (EList (l ++ [source_pack])) ∧
     blobs w1' !! source_manifest_path = Some (Json m1)) ∧
  (∀ w', source_push args w = (Ok tt, w') →
     ∃ m', blobs w' !! source_manifest_path = Some (Json m') ∧
           manifest_files w' !! source_manifest_file = Some (Json m') ∧
           (2 ≤ listed m' subdir source_pack)%nat).
Proof.
  intros Hforce Ho Hm0 Hl Hin Hsub Hpacks Hpack. split.
  - intros m w1 m1 w1' Hm H.
    apply push_source_pack_ok in H as ((l' & Hm' & ->) & Hb & _).
    rewrite Hm in Hm'. injection Hm' as <-. by rewrite lookup_insert_eq.
  - intros w' H.
    apply source_push_inv in H
      as (w0 & _ & _ & _ & _ & _ & [(p & _ & ? & _) | (inv & r0 & Hlist & _ & Hloop & Hr)]);
      [done|].
    destruct r0 as [m'|e]; [|done].
    rewrite (fetched_persisted _ _ _ Hm0 Ho), Hforce in Hloop.
    assert ((subdir, source_pack) ∈ plan_items (plan_source inv m0 true).2) as Hwork.
    { apply elem_of_plan_items. apply plan_spec; [apply list_empty|].
      destruct (listdir_all_spec pack_subdirs w) as (rl & Hrl & _ & Hinv).
      rewrite Hlist in Hrl. simplify_eq. destruct Hinv as [Hkeys Hlook].
      rewrite <- Hkeys in Hsub. apply list_elem_of_fmap in Hsub as ([k' l'] & -> & Hk').
      simpl. exists l'. split; [done|]. split; [|by right].
      apply Hlook in Hk'. simpl in Hpacks. rewrite Hpacks in Hk'.
      by injection Hk' as <-. }
    pose proof (source_loop_listed _ _ _ _ _ subdir source_pack Hloop) as Hcount.
    apply source_loop_ok in Hloop as (_ & _ & Hp).
    destruct Hp as [Hb Hf].
    { intros E. rewrite E in Hwork. by apply elem_of_nil in Hwork. }
    exists m'. split; [done|]. split; [done|]. rewrite Hcount.
    pose proof (occurs_at_least_once _ _ Hwork).
    assert (1 ≤ listed (plan_source inv m0 true).1 subdir source_pack)%nat; [|lia].
    unfold listed, plan_source.
    rewrite (plan_lookup _ _ _ _ _ _ list_empty Hl). by apply occurs_at_least_once.
Qed.

(** * The theorems at the scenarios *)

Ltac by_decide := apply (bool_decide_unpack _); vm_compute; exact I.

Lemma plan_membership_witness :
  ("pkgA", ["art1"; "art2"]) ∈ artifact_root scenario_world ∧
  "art2" ∈ ["art1"; "art2"] ∧
  (planned (plan_build (artifact_root scenario_world) scenario_build_manifest false).2
     "pkgA" "art2" ↔
   recorded scenario_build_manifest "pkgA" "art2" = false ∨ false = true).
Proof.
  assert (("pkgA", ["art1"; "art2"]) ∈ artifact_root scenario_world) as H1 by by_decide.
  assert ("art2" ∈ ["art1"; "art2"]) as H2 by by_decide.
  split; [exact H1|]. split; [exact H2|].
  exact (proj1 (plan_membership (artifact_root scenario_world) scenario_build_manifest
                  false "pkgA" "art2" ["art1"; "art2"] H1 H2)).
Defined.

Lemma dry_run_output_witness :
  dry_run dry_run_args = true ∧
  manifest_files scenario_world !! build_manifest_file =
    Some (Json scenario_build_manifest) ∧
  ∃ w',
    build_objects scenario_digest scenario_ctx dry_run_args scenario_world = (Ok tt, w') ∧
    trace w' = trace scenario_world ++ [ReadFile build_manifest_file] ∧
    blobs w' = blobs scenario_world.
Proof.
  assert (manifest_files scenario_world !! build_manifest_file =
            Some (Json scenario_build_manifest)) as Hm by (vm_compute; reflexivity).
  split; [reflexivity|]. split; [exact Hm|].
  destruct (proj1 (dry_run_output scenario_digest scenario_ctx dry_run_args
                     scenario_world eq_refl)
              (or_intror (ex_intro _ scenario_build_manifest Hm)))
    as (w' & Hrun & _ & _ & Ht & Hb & _).
  exists w'. split; [exact Hrun|]. split; [exact Ht | exact Hb].
Defined.

(** In scenario C the last text the dry run writes is the Pushing list: the
    hint about --force is written before it and is not the last. *)
Lemma hint_is_not_trailing :
  let out :=
    stdout (build_objects scenario_digest scenario_ctx dry_run_args scenario_world).2 in
  out = [ "pkgA/art1 Skipping" +:+ nl; build_hint; "pkgA/art2 Pushing" +:+ nl ] ∧
  last out = Some ("pkgA/art2 Pushing" +:+ nl) ∧
  last out ≠ Some build_hint.
Proof.
  intros out.
  assert (out = [ "pkgA/art1 Skipping" +:+ nl; build_hint; "pkgA/art2 Pushing" +:+ nl ])
    as H by (vm_compute; reflexivity).
  rewrite H. split; [done|]. split; [done|]. vm_compute. intros [=].
Qed.


Lemma manifest_path_stable_witness :
  let run_result := source_objects force_args scenario_world in
  ∃ evs, trace run_result.2 = trace scenario_world ++ evs ∧
         Forall (addresses source_manifest_path) evs.
Proof.
  intros run_result.
  apply (proj1 (proj2 (proj2 (proj2 (proj2
           (manifest_path_stable scenario_digest scenario_ctx force_args
              scenario_world))))) run_result.1 run_result.2).
  apply surjective_pairing.
Defined.

Lemma manifest_persisted_per_item_witness :
  let r := push_source_pack "packs/tar.gz" "y.tar.gz" scenario_source_manifest
             scenario_world in
  r.1 = Ok (returned r.1) ∧
  blobs r.2 !! source_manifest_path = Some (Json (returned r.1)) ∧
  manifest_files r.2 !! source_manifest_file = Some (Json (returned r.1)).
Proof.
  intros r.
  assert (push_source_pack "packs/tar.gz" "y.tar.gz" scenario_source_manifest
            scenario_world = (Ok (returned r.1), r.2)) as H
    by (vm_compute; reflexivity).
  split; [vm_compute; reflexivity|].
  destruct (proj1 (proj2 (manifest_persisted_per_item scenario_digest scenario_ctx
                            scenario_world scenario_source_manifest)) _ _ _ _ H)
    as (_ & _ & Hb & Hf).
  split; [exact Hb | exact Hf].
Defined.

Lemma item_failure_atomic_witness :
  oracle (set_oracle [false] scenario_world) = [false] ∧
  ∃ w', push_artifact scenario_digest scenario_ctx "pkgA" "art2" scenario_build_manifest
          (set_oracle [false] scenario_world) = (Raise CalledProcessError, w') ∧
        manifest_files w' = manifest_files (set_oracle [false] scenario_world) ∧
        blobs w' = blobs (set_oracle [false] scenario_world).
Proof.
  split; [reflexivity|].
  exact (proj1 (item_failure_atomic scenario_digest scenario_ctx
                  (set_oracle [false] scenario_world) scenario_build_manifest)
           "pkgA" "art2" [] eq_refl).
Defined.

Lemma push_idempotent_witness :
  let w1 := (build_push scenario_digest scenario_ctx push_args scenario_world).2 in
  force push_args = false ∧
  build_push scenario_digest scenario_ctx push_args scenario_world = (Ok tt, w1) ∧
  ∃ m2 w2', build_plan push_args w1 = (Ok (m2, ∅), w2').
Proof.
  intros w1.
  assert (build_push scenario_digest scenario_ctx push_args scenario_world = (Ok tt, w1))
    as H by (vm_compute; reflexivity).
  split; [reflexivity|]. split; [exact H|].
  apply (proj1 (push_idempotent scenario_digest scenario_ctx push_args scenario_world w1
                  eq_refl) H w1); [reflexivity | reflexivity | vm_compute; reflexivity].
Defined.



Lemma forced_source_pack_listed_twice_witness :
  let w' := (source_push force_args scenario_world).2 in
  force force_args = true ∧
  hd true (oracle scenario_world) = true ∧
  blobs scenario_world !! source_manifest_path = Some (Json scenario_source_manifest) ∧
  scenario_source_manifest !! "packs/tar.gz" = Some (EList ["x.tar.gz"]) ∧
  "x.tar.gz" ∈ ["x.tar.gz"] ∧
  "packs/tar.gz" ∈ pack_subdirs ∧
  cache_path scenario_world !! "packs/tar.gz" = Some ["x.tar.gz"] ∧
  source_push force_args scenario_world = (Ok tt, w') ∧
  ∃ m', blobs w' !! source_manifest_path = Some (Json m') ∧
        manifest_files w' !! source_manifest_file = Some (Json m') ∧
        (2 ≤ listed m' "packs/tar.gz" "x.tar.gz")%nat.
Proof.
  intros w'.
  assert (blobs scenario_world !! source_manifest_path = Some (Json scenario_source_manifest))
    as H3 by (vm_compute; reflexivity).
  assert (scenario_source_manifest !! "packs/tar.gz" = Some (EList ["x.tar.gz"]))
    as H4 by (vm_compute; reflexivity).
  assert ("x.tar.gz" ∈ ["x.tar.gz"]) as H5 by by_decide.
  assert ("packs/tar.gz" ∈ pack_subdirs) as H6 by by_decide.
  assert (cache_path scenario_world !! "packs/tar.gz" = Some ["x.tar.gz"])
    as H7 by (vm_compute; reflexivity).
  assert (source_push force_args scenario_world = (Ok tt, w')) as H8
    by (vm_compute; reflexivity).
  split; [reflexivity|]. split; [reflexivity|]. split; [exact H3|]. split; [exact H4|].
  split; [exact H5|]. split; [exact H6|]. split; [exact H7|]. split; [exact H8|].
  exact (proj2 (forced_source_pack_listed_twice force_args scenario_world
                  scenario_source_manifest "packs/tar.gz" "x.tar.gz" ["x.tar.gz"]
                  ["x.tar.gz"] eq_refl eq_refl H3 H4 H5 H6 H7 H5) w' H8).
Defined.

(** * Further properties of the code *)

(** ** Selection of the object classes *)

(** The statements behind the imports accept a value of [--objects] that
    names neither object class without a word: with the dry-run flag they
    do nothing at all and end normally. *)
Theorem unknown_objects_is_silent (sha1_hexdigest : bytes → string) (ctx : Ctx)
    (args : Args) (w : World) :
  dry_run args = true →
  objects args ∉ ["build"; "source"; "build_and_source"] →
  run_body sha1_hexdigest ctx args w = (Ok tt, w).
Proof.
  intros Hdry Hobj. unfold run_body. rewrite Hdry.
  rewrite !bool_decide_eq_false_2.
  - reflexivity.
  - rewrite !elem_of_cons in *. tauto.
  - rewrite !elem_of_cons in *. tauto.
Qed.

(** ** A dry run without a local manifest cache *)

Lemma report_entries_nothing_recorded lm k entries :
  (∀ x, recorded lm k x = false) →
  ∀ acc, (report_entries lm k acc entries).1 = acc.1.
Proof.
  intros Hk. unfold report_entries.
  induction entries as [|x entries IH]; intros acc; [done|].
  simpl. rewrite IH, Hk. done.
Qed.

Lemma report_nothing_recorded lm inventory :
  (∀ k x, recorded lm k x = false) →
  (report lm inventory).1 = "".
Proof.
  intros Hlm. unfold report.
  assert (∀ acc : string * string,
            (foldl (λ sp dir, report_entries lm dir.1 sp dir.2) acc inventory).1 = acc.1)
    as H; [|apply H].
  induction inventory as [|dir inventory IH]; intros acc; [done|].
  simpl. rewrite IH. by apply report_entries_nothing_recorded.
Qed.

(** When there is no local manifest cache, a dry run of the build part
    falls back to the empty manifest: it reports no item as skipped and
    every item of the artifact root as pushed. *)
Theorem dry_run_without_local_manifest (sha1_hexdigest : bytes → string) (ctx : Ctx)
    (args : Args) (w : World) :
  dry_run args = true →
  manifest_files w !! build_manifest_file = None →
  ∃ pushing w',
    build_objects sha1_hexdigest ctx args w = (Ok tt, w') ∧
    stdout w' = stdout w ++ [""; build_hint; pushing] ∧
    ∀ package artifacts artifact,
      (package, artifacts) ∈ artifact_root w → artifact ∈ artifacts →
      has_line pushing (report_line package artifact " Pushing").
Proof.
  intros Hdry Hfile.
  assert (cached build_manifest_file w = ∅) as Hc.
  { unfold cached. by rewrite Hfile. }
  destruct (build_objects_dry_run sha1_hexdigest ctx args w Hdry)
    as (w' & Hrun & Hout & _).
  rewrite Hc in Hout.
  exists (report ∅ (artifact_root w)).2, w'. split; [done|]. split.
  - rewrite Hout. by rewrite report_nothing_recorded.
  - intros package artifacts artifact Hin Hx.
    destruct (report_spec ∅ (artifact_root w) ("", "")) as (_ & _ & H).
    specialize (H package artifacts artifact Hin Hx). done.
Qed.

(** ** A pack directory that is missing *)

Lemma listdir_all_missing subdirs subdir w :
  subdir ∈ subdirs → cache_path w !! subdir = None →
  ∃ p, listdir_all subdirs w = (Raise (OSError p), w).
Proof.
  intros Hin Hnone.
  destruct (listdir_all_spec subdirs w) as (r & Hr & _ & Hspec).
  destruct r as [inventory|e].
  - destruct Hspec as [Hkeys Hlook]. rewrite <- Hkeys in Hin.
    apply list_elem_of_fmap in Hin as ([k l] & -> & Hkl).
    apply Hlook in Hkl. simpl in Hnone. congruence.
  - destruct Hspec as [p ->]. by exists p.
Qed.

Lemma source_plan_stdout args w r w' :
  source_plan args w = (r, w') →
  stdout w' = stdout w ++ fetch_output source_manifest_path w ∧
  progress w' = progress w.
Proof.
  unfold source_plan. fold source_manifest_path. unfold bind at 1.
  destruct (fetch_spec source_manifest_path w)
    as (w1 & -> & _ & _ & _ & Hc & Hs & _ & Hp).
  destruct (listdir_all_spec pack_subdirs w) as (r' & _ & Hr2 & _).
  unfold bind at 1, logger_info at 1, ret at 1.
  unfold bind at 1, write_manifest_file at 1, bind at 1, emit at 1.
  unfold bind at 1, logger_info at 1, ret at 1. unfold bind at 1.
  rewrite Hr2 by (simpl; done).
  destruct r' as [inventory|e]; intros [= <- <-]; simpl; done.
Qed.

(** The three pack directories are listed without a test that they exist.
    When one is missing, the source part of a dry run whose local manifest
    cache is missing or holds a manifest ends with [OSError] before it
    writes a line.  The source part of a push whose manifest download fails
    or finds no blob or a manifest ends with it after the progress listener
    of the download has reported and the fetched manifest has replaced the
    local cache, and before any item is uploaded. *)
Theorem source_missing_pack_directory (args : Args) (w : World) (subdir : string) :
  subdir ∈ pack_subdirs → cache_path w !! subdir = None →
  (dry_run args = true →
   manifest_files w !! source_manifest_file = None ∨
   ∃ lm, manifest_files w !! source_manifest_file = Some (Json lm)) →
  (dry_run args = false →
   hd true (oracle w) = false ∨ blobs w !! source_manifest_path = None ∨
   ∃ m, blobs w !! source_manifest_path = Some (Json m)) →
  ∃ p w',
    source_objects args w = (Raise (OSError p), w') ∧
    blobs w' = blobs w ∧
    (dry_run args = true →
     stdout w' = stdout w ∧
     manifest_files w' = manifest_files w ∧
     trace w' = trace w ++ [ReadFile source_manifest_file]) ∧
    (dry_run args = false →
     stdout w' = stdout w ++ fetch_output source_manifest_path w ∧
     manifest_files w' =
       <[source_manifest_file := Json (fetched source_manifest_path w)]> (manifest_files w) ∧
     trace w' = trace w ++
       [ReadFile source_manifest_file; Download source_manifest_path;
        WriteFile source_manifest_file (Json (fetched source_manifest_path w))]).
Proof.
  intros Hin Hnone _ _.
  unfold source_objects. unfold bind at 1. rewrite load_local_manifest_spec.
  set (w1 := set_trace (λ t, t ++ [ReadFile source_manifest_file]) w).
  destruct (listdir_all_missing pack_subdirs subdir w1 Hin Hnone) as (p & Hl).
  destruct (dry_run args) eqn:Hdry.
  - unfold source_dry_run, logger_info. unfold bind at 1, ret at 1. unfold bind at 1.
    rewrite Hl. exists p, w1. repeat split; done.
  - destruct (source_plan_spec args w1 _ Hl) as (w' & Hplan & Hb & Hf & _ & _ & Ht).
    unfold source_push. unfold bind at 1. rewrite Hplan.
    exists p, w'. split; [done|].
    assert (fetched source_manifest_path w1 = fetched source_manifest_path w) as Hfe by done.
    rewrite Hfe in *. simpl in *.
    split; [done|]. split; [done|]. intros _.
    split; [by destruct (source_plan_stdout _ _ _ _ Hplan) as [-> _]|].
    split; [done|].
    rewrite Ht. by rewrite <- app_assoc.
Qed.

(** ** A remote manifest that cannot be fetched *)

Lemma fetched_nothing P w :
  hd true (oracle w) = false ∨ blobs w !! P = None →
  fetched P w = ∅.
Proof.
  unfold fetched. intros [-> | ->]; [done|]. by destruct (hd true (oracle w)).
Qed.

(** When the download of the remote manifest fails, or there is no blob to
    download, the plan holds every item of the local inventory, with or
    without [force], and the local cache is overwritten with the empty
    manifest. *)
Theorem unfetched_manifest_pushes_everything (args : Args) (w : World) :
  (hd true (oracle w) = false ∨ blobs w !! build_manifest_path = None →
   ∃ m pm w',
     build_plan args w = (Ok (m, pm), w') ∧
     manifest_files w' !! build_manifest_file = Some (Json ∅) ∧
     ∀ package artifacts artifact,
       (package, artifacts) ∈ artifact_root w → artifact ∈ artifacts →
       planned pm package artifact) ∧
  (hd true (oracle w) = false ∨ blobs w !! source_manifest_path = None →
   ∀ inventory, listdir_all pack_subdirs w = (Ok inventory, w) →
   ∃ m pm w',
     source_plan args w = (Ok (m, pm), w') ∧
     manifest_files w' !! source_manifest_file = Some (Json ∅) ∧
     ∀ subdir source_packs source_pack,
       (subdir, source_packs) ∈ inventory → source_pack ∈ source_packs →
       planned pm subdir source_pack).
Proof.
  split.
  - intros Hfail. destruct (build_plan_spec args w) as (w' & Hplan & _ & Hf & _).
    rewrite (fetched_nothing _ _ Hfail) in *.
    eexists _, _, w'. split; [by rewrite Hplan, <- surjective_pairing|].
    split; [by rewrite Hf, lookup_insert_eq|].
    intros package artifacts artifact Hin Hx.
    apply plan_spec; [apply dict_empty|]. exists artifacts. eauto.
  - intros Hfail inventory Hl.
    destruct (source_plan_spec args w _ Hl) as (w' & Hplan & _ & Hf & _).
    rewrite (fetched_nothing _ _ Hfail) in *.
    eexists _, _, w'. split; [by rewrite Hplan, <- surjective_pairing|].
    split; [by rewrite Hf, lookup_insert_eq|].
    intros subdir source_packs source_pack Hin Hx.
    apply plan_spec; [apply list_empty|]. exists source_packs. eauto.
Qed.

(** ** A push with nothing to do *)

(** Without [force], when the fetched manifest records every artifact of
    the artifact root, the build part makes one remote call, the download
    of the manifest: it packs nothing, creates no folder and uploads
    nothing, not even the manifest; the only file it writes is the local
    copy of the fetched manifest. *)
Theorem up_to_date_push_uploads_nothing (sha1_hexdigest : bytes → string) (ctx : Ctx)
    (args : Args) (w : World) :
  force args = false →
  (∀ package artifacts artifact,
     (package, artifacts) ∈ artifact_root w → artifact ∈ artifacts →
     recorded (fetched build_manifest_path w) package artifact = true) →
  ∃ w',
    build_push sha1_hexdigest ctx args w = (Ok tt, w') ∧
    blobs w' = blobs w ∧
    trace w' = trace w ++
      [Download build_manifest_path;
       WriteFile build_manifest_file (Json (fetched build_manifest_path w))].
Proof.
  intros Hforce Hall.
  destruct (build_plan_spec args w) as (w' & Hplan & Hb & _ & _ & _ & Ht).
  exists w'. unfold build_push. unfold bind at 1. rewrite Hplan, Hforce.
  unfold plan_build. rewrite covered_plan_empty by (apply dict_empty || done).
  done.
Qed.
Lemma unknown_objects_is_silent_witness :
  dry_run typo_args = true ∧
  (objects typo_args ∉ ["build"; "source"; "build_and_source"]) ∧
  run_body scenario_digest scenario_ctx typo_args scenario_world =
    (Ok tt, scenario_world).
Proof.
  assert (objects typo_args ∉ ["build"; "source"; "build_and_source"]) as H by by_decide.
  split; [reflexivity|]. split; [exact H|].
  exact (unknown_objects_is_silent scenario_digest scenario_ctx typo_args scenario_world
           eq_refl H).
Defined.

Lemma dry_run_without_local_manifest_witness :
  dry_run dry_run_args = true ∧
  manifest_files fresh_world !! build_manifest_file = None ∧
  ∃ pushing w',
    build_objects scenario_digest scenario_ctx dry_run_args fresh_world = (Ok tt, w') ∧
    stdout w' = stdout fresh_world ++ [""; build_hint; pushing] ∧
    ∀ package artifacts artifact,
      (package, artifacts) ∈ artifact_root fresh_world → artifact ∈ artifacts →
      has_line pushing (report_line package artifact " Pushing").
Proof.
  assert (manifest_files fresh_world !! build_manifest_file = None) as H
    by (vm_compute; reflexivity).
  split; [reflexivity|]. split; [exact H|].
  exact (dry_run_without_local_manifest scenario_digest scenario_ctx dry_run_args
           fresh_world eq_refl H).
Defined.

Lemma source_missing_pack_directory_witness :
  "packs/zip" ∈ pack_subdirs ∧ cache_path no_zip_world !! "packs/zip" = None ∧
  blobs no_zip_world !! source_manifest_path = None ∧
  ∃ p w',
    source_objects push_args no_zip_world = (Raise (OSError p), w') ∧
    blobs w' = blobs no_zip_world ∧
    stdout w' = stdout no_zip_world ++ fetch_output source_manifest_path no_zip_world.
Proof.
  assert ("packs/zip" ∈ pack_subdirs) as H1 by by_decide.
  assert (cache_path no_zip_world !! "packs/zip" = None) as H2 by (vm_compute; reflexivity).
  assert (blobs no_zip_world !! source_manifest_path = None) as H3
    by (vm_compute; reflexivity).
  assert (dry_run push_args = true →
          manifest_files no_zip_world !! source_manifest_file = None ∨
          ∃ lm, manifest_files no_zip_world !! source_manifest_file = Some (Json lm)) as H4
    by (intros [=]).
  split; [exact H1|]. split; [exact H2|]. split; [exact H3|].
  destruct (source_missing_pack_directory push_args no_zip_world "packs/zip" H1 H2 H4
              (λ _, or_intror (or_introl H3)))
    as (p & w' & Hrun & Hb & _ & Hpush).
  exists p, w'. split; [exact Hrun|]. split; [exact Hb|].
  exact (proj1 (Hpush eq_refl)).
Defined.

Lemma unfetched_manifest_pushes_everything_witness :
  hd true (oracle unreachable_world) = false ∧
  listdir_all pack_subdirs unreachable_world =
    (Ok [("packs/tar.bz2", []); ("packs/tar.gz", []); ("packs/zip", ["new.zip"])],
     unreachable_world) ∧
  ∃ m pm w',
    source_plan push_args unreachable_world = (Ok (m, pm), w') ∧
    manifest_files w' !! source_manifest_file = Some (Json ∅) ∧
    ∀ subdir source_packs source_pack,
      (subdir, source_packs) ∈
        [("packs/tar.bz2", []); ("packs/tar.gz", []); ("packs/zip", ["new.zip"])] →
      source_pack ∈ source_packs →
      planned pm subdir source_pack.
Proof.
  assert (listdir_all pack_subdirs unreachable_world =
            (Ok [("packs/tar.bz2", []); ("packs/tar.gz", []); ("packs/zip", ["new.zip"])],
             unreachable_world)) as H by (vm_compute; reflexivity).
  split; [reflexivity|]. split; [exact H|].
  exact (proj2 (unfetched_manifest_pushes_everything push_args unreachable_world)
           (or_introl eq_refl) _ H).
Defined.

Lemma up_to_date_push_uploads_nothing_witness :
  force push_args = false ∧
  ∃ w',
    build_push scenario_digest scenario_ctx push_args synced_world = (Ok tt, w') ∧
    blobs w' = blobs synced_world ∧
    trace w' = trace synced_world ++
      [Download build_manifest_path;
       WriteFile build_manifest_file (Json (fetched build_manifest_path synced_world))].
Proof.
  split; [reflexivity|].
  apply (up_to_date_push_uploads_nothing scenario_digest scenario_ctx push_args synced_world
           eq_refl).
  intros package artifacts artifact Hin Hx.
  apply list_elem_of_singleton in Hin. injection Hin as -> ->.
  apply elem_of_cons in Hx as [-> | Hx]; [by vm_compute|].
  apply list_elem_of_singleton in Hx as ->. by vm_compute.
Defined.

(** ** What one pushed artifact leaves behind *)

Lemma digest_of_set_digest m package artifact digest d k x :
  m !! package = Some (EDict d) →
  digest_of (<[package := EDict (<[artifact := digest]> d)]> m) k x =
  if bool_decide ((k, x) = (package, artifact)) then Some digest else digest_of m k x.
Proof.
  intros Hm. unfold digest_of. destruct (decide (k = package)) as [-> | Hk].
  - rewrite lookup_insert_eq, Hm. destruct (decide (x = artifact)) as [-> | Hx].
    + by rewrite lookup_insert_eq, bool_decide_eq_true_2.
    + rewrite lookup_insert_ne by done. by rewrite bool_decide_eq_false_2 by congruence.
  - rewrite lookup_insert_ne by done. by rewrite bool_decide_eq_false_2 by congruence.
Qed.

Lemma push_artifact_effect sha1_hexdigest ctx package artifact m w m' w' :
  push_artifact sha1_hexdigest ctx package artifact m w = (Ok m', w') →
  let tgz := pjoin package (artifact +:+ ".tar.gz") in
  let archive := Raw (archive_of w (pjoin package artifact)) in
  (∃ d, m !! package = Some (EDict d) ∧
        m' = <[package := EDict (<[artifact := sha1_hexdigest archive]> d)]> m) ∧
  blobs w' = <[build_manifest_path := Json m']>
               (<[artifact_blob_path package artifact := archive]> (blobs w)) ∧
  tarballs w' = delete tgz (tarballs w) ∧
  folders w' = {[CPath ("/bld/" +:+ package)]} ∪ folders w ∧
  stdout w' = stdout w ++
    progress w (Upload (artifact_blob_path package artifact) archive None) true ++
    progress w (Upload build_manifest_path (Json m') (Some "text/plain")) true.
Proof.
  intros H. unfold build_manifest_path, artifact_blob_path. mcrush.
  all: rewrite ?lookup_insert_eq in *; simplify_eq.
  all: rewrite ?delete_insert_eq, <- ?app_assoc; eauto 10.
Qed.

(** After an artifact is pushed, the blob stored for it is the archive
    [tar] wrote, the digest the manifest records for it is the digest of
    that archive, the digests of all other artifacts are as they were, and
    the remote manifest copy is the manifest that records it. *)
Theorem digest_of_uploaded_archive (sha1_hexdigest : bytes → string) (ctx : Ctx)
    (package artifact : string) (m m' : gmap string entry) (w w' : World) :
  push_artifact sha1_hexdigest ctx package artifact m w = (Ok m', w') →
  let archive := Raw (archive_of w (pjoin package artifact)) in
  blobs w' !! artifact_blob_path package artifact = Some archive ∧
  digest_of m' package artifact = Some (sha1_hexdigest archive) ∧
  (∀ k x, (k, x) ≠ (package, artifact) → digest_of m' k x = digest_of m k x) ∧
  blobs w' !! build_manifest_path = Some (Json m').
Proof.
  intros H archive.
  apply push_artifact_effect in H as ((d & Hm & ->) & -> & _).
  split; [|split; [|split]].
  - rewrite lookup_insert_ne by (apply not_eq_sym, artifact_blob_path_ne).
    by rewrite lookup_insert_eq.
  - rewrite (digest_of_set_digest _ _ _ _ _ _ _ Hm). by rewrite bool_decide_eq_true_2.
  - intros k x Hne. rewrite (digest_of_set_digest _ _ _ _ _ _ _ Hm).
    by rewrite bool_decide_eq_false_2.
  - by rewrite lookup_insert_eq.
Qed.

Lemma push_artifact_upload_fails_effect sha1_hexdigest ctx package artifact m w d o :
  logger_accepts_no_message ctx = true →
  m !! package = Some (EDict d) →
  oracle w = true :: true :: false :: o →
  ∃ w',
    push_artifact sha1_hexdigest ctx package artifact m w =
      (Raise (StorageError (artifact_blob_path package artifact)), w') ∧
    tarballs w' = <[pjoin package (artifact +:+ ".tar.gz") :=
                     Raw (archive_of w (pjoin package artifact))]> (tarballs w) ∧
    blobs w' = blobs w ∧ manifest_files w' = manifest_files w.
Proof.
  intros Hlog Hm Ho. unfold artifact_blob_path. munfold. simpl.
  rewrite Ho. simpl. rewrite lookup_insert_eq, Hm, Hlog. simpl.
  rewrite lookup_insert_eq. simpl. eexists. split; [reflexivity|]. done.
Qed.

(** The archive of an artifact is written beside it and removed once it is
    uploaded.  Nothing removes it when the upload fails: the archive stays
    in the package directory of the artifact root. *)
Theorem archive_lifecycle (sha1_hexdigest : bytes → string) (ctx : Ctx)
    (package artifact : string) (m : gmap string entry) (w : World) :
  let tgz := pjoin package (artifact +:+ ".tar.gz") in
  (∀ m' w', push_artifact sha1_hexdigest ctx package artifact m w = (Ok m', w') →
            tarballs w' !! tgz = None ∧
            ∀ path, path ≠ tgz → tarballs w' !! path = tarballs w !! path) ∧
  (∀ d o, logger_accepts_no_message ctx = true →
          m !! package = Some (EDict d) →
          oracle w = true :: true :: false :: o →
          ∃ e w', push_artifact sha1_hexdigest ctx package artifact m w = (Raise e, w') ∧
                  tarballs w' !! tgz = Some (Raw (archive_of w (pjoin package artifact)))).
Proof.
  intros tgz. split.
  - intros m' w' H. apply push_artifact_effect in H as (_ & _ & -> & _).
    split; [apply lookup_delete_eq|]. intros path Hne. by apply lookup_delete_ne.
  - intros d o Hlog Hm Ho.
    destruct (push_artifact_upload_fails_effect sha1_hexdigest ctx package artifact m w d o
                Hlog Hm Ho) as (w' & -> & Ht & _).
    eexists _, w'. split; [reflexivity|]. rewrite Ht. apply lookup_insert_eq.
Qed.

(** ** The logger call without a message *)


(** ** A manifest entry of the wrong shape *)

(** The planner only asks whether a name is in an entry, which a list and
    a dict both answer; the pusher then writes to the entry.  A list under
    a package of the build manifest makes the digest assignment of line
    289 raise [TypeError], after the archive is written and before any
    remote call; a dict under a pack directory of the source manifest
    makes the [append] of line 389 raise [AttributeError] before anything
    else happens. *)
Theorem wrong_shaped_entry_stops_push (sha1_hexdigest : bytes → string) (ctx : Ctx)
    (k x : string) (m : gmap string entry) (w : World) :
  (∀ l, m !! k = Some (EList l) → hd true (oracle w) = true →
        ∃ w', push_artifact sha1_hexdigest ctx k x m w = (Raise TypeError, w') ∧
              trace w' = trace w ++ [Tar (pjoin k (x +:+ ".tar.gz")) (pjoin k x)] ∧
              blobs w' = blobs w ∧ manifest_files w' = manifest_files w) ∧
  (∀ d, m !! k = Some (EDict d) →
        push_source_pack k x m w = (Raise AttributeError, w)).
Proof.
  split.
  - intros l Hm Ho. munfold. simpl.
    destruct (oracle w) as [|b o]; simpl in *; subst; simpl;
      rewrite lookup_insert_eq, Hm; simpl; eexists; (split; [reflexivity|]); done.
  - intros d Hm. munfold. by rewrite Hm.
Qed.

Lemma digest_of_uploaded_archive_witness :
  let r := push_artifact scenario_digest scenario_ctx "pkgA" "art2"
             scenario_build_manifest scenario_world in
  r = (Ok (returned r.1), r.2) ∧
  blobs r.2 !! artifact_blob_path "pkgA" "art2" =
    Some (Raw (archive_of scenario_world (pjoin "pkgA" "art2"))) ∧
  digest_of (returned r.1) "pkgA" "art2" =
    Some (scenario_digest (Raw (archive_of scenario_world (pjoin "pkgA" "art2")))).
Proof.
  intros r.
  assert (push_artifact scenario_digest scenario_ctx "pkgA" "art2"
            scenario_build_manifest scenario_world = (Ok (returned r.1), r.2)) as H
    by (vm_compute; reflexivity).
  split; [exact H|].
  destruct (digest_of_uploaded_archive scenario_digest scenario_ctx "pkgA" "art2"
              scenario_build_manifest (returned r.1) scenario_world r.2 H)
    as (Hb & Hd & _).
  split; [exact Hb | exact Hd].
Defined.

Lemma archive_lifecycle_witness :
  let w := set_oracle [true; true; false] scenario_world in
  logger_accepts_no_message scenario_ctx = true ∧
  scenario_build_manifest !! "pkgA" = Some (EDict {[ "art1" := "deadbeef" ]}) ∧
  oracle w = [true; true; false] ∧
  ∃ e w', push_artifact scenario_digest scenario_ctx "pkgA" "art2"
            scenario_build_manifest w = (Raise e, w') ∧
          tarballs w' !! pjoin "pkgA" ("art2" +:+ ".tar.gz") =
            Some (Raw (archive_of w (pjoin "pkgA" "art2"))).
Proof.
  intros w.
  assert (scenario_build_manifest !! "pkgA" = Some (EDict {[ "art1" := "deadbeef" ]}))
    as Hm by (vm_compute; reflexivity).
  split; [reflexivity|]. split; [exact Hm|]. split; [reflexivity|].
  exact (proj2 (archive_lifecycle scenario_digest scenario_ctx "pkgA" "art2"
                  scenario_build_manifest w) _ [] eq_refl Hm eq_refl).
Defined.


Lemma wrong_shaped_entry_stops_push_witness :
  scenario_source_manifest !! "packs/tar.gz" = Some (EList ["x.tar.gz"]) ∧
  hd true (oracle scenario_world) = true ∧
  ∃ w', push_artifact scenario_digest scenario_ctx "packs/tar.gz" "y"
          scenario_source_manifest scenario_world = (Raise TypeError, w') ∧
        blobs w' = blobs scenario_world ∧
        manifest_files w' = manifest_files scenario_world.
Proof.
  assert (scenario_source_manifest !! "packs/tar.gz" = Some (EList ["x.tar.gz"]))
    as Hm by (vm_compute; reflexivity).
  split; [exact Hm|]. split; [reflexivity|].
  destruct (proj1 (wrong_shaped_entry_stops_push scenario_digest scenario_ctx
                     "packs/tar.gz" "y" scenario_source_manifest scenario_world)
              _ Hm eq_refl) as (w' & Hrun & _ & Hb & Hf).
  exists w'. split; [exact Hrun|]. split; [exact Hb | exact Hf].
Defined.

(** ** Facts that every step keeps *)

Section LoopRel.

Context (step : string → string → gmap string entry → M (gmap string entry)).
Context (loop : list (string * string) → gmap string entry → M (gmap string entry)).
Context (R : World → World → Prop).

Hypothesis loop_nil : ∀ m w, loop [] m w = (Ok m, w).
Hypothesis loop_cons : ∀ k x rest m w,
  loop ((k, x) :: rest) m w =
  match step k x m w with
  | (Ok m1, w1) => loop rest m1 w1
  | (Raise e, w1) => (Raise e, w1)
  end.
Hypothesis R_refl : ∀ w, R w w.
Hypothesis R_trans : ∀ w1 w2 w3, R w1 w2 → R w2 w3 → R w1 w3.
Hypothesis step_rel : ∀ k x m w r w', step k x m w = (r, w') → R w w'.

Lemma loop_rel work : ∀ m w r w', loop work m w = (r, w') → R w w'.
Proof.
  induction work as [|[k x] work IH]; intros m w r w' H.
  - rewrite loop_nil in H. by simplify_eq.
  - rewrite loop_cons in H.
    destruct (step k x m w) as [[m1|e] w1] eqn:Hstep.
    + eapply R_trans; [by eapply step_rel | by eapply IH].
    + simplify_eq. by eapply step_rel.
Qed.

End LoopRel.

(** ** The root folder of each object class *)

Lemma grows_under_refl root w : grows_under root w w.
Proof. exists []. by rewrite app_nil_r. Qed.

Lemma grows_under_trans root w1 w2 w3 :
  grows_under root w1 w2 → grows_under root w2 w3 → grows_under root w1 w3.
Proof.
  intros (e1 & H1 & F1) (e2 & H2 & F2). exists (e1 ++ e2).
  split; [by rewrite H2, H1, app_assoc | by apply Forall_app].
Qed.

Lemma grows_under_emit root e w :
  under root e → grows_under root w (set_trace (λ t, t ++ [e]) w).
Proof. intros He. exists [e]. split; [done|]. by constructor. Qed.

Lemma bld_folder package : ∃ rest, CPath ("/bld/" +:+ package) = "bld" :: rest.
Proof. exists (CPath package). by vm_compute. Qed.

Lemma src_folder subdir : ∃ rest, CPath ("/src/" +:+ subdir) = "src" :: rest.
Proof. exists (CPath subdir). by vm_compute. Qed.

Lemma push_artifact_under sha1_hexdigest ctx package artifact m w r w' :
  push_artifact sha1_hexdigest ctx package artifact m w = (r, w') →
  grows_under "bld" w w'.
Proof.
  intros H. destruct (bld_folder package) as [rest Hrest].
  unfold grows_under. unfold push_artifact in H. rewrite Hrest in H.
  change (CPath "/bld/") with ["bld"] in H. unfold cpath_add in H. mcrush.
  all: rewrite <- ?app_assoc; simpl; eexists; (split; [reflexivity|]).
  all: repeat constructor.
Qed.

Lemma push_source_pack_under subdir source_pack m w r w' :
  push_source_pack subdir source_pack m w = (r, w') →
  grows_under "src" w w'.
Proof.
  intros H. destruct (src_folder subdir) as [rest Hrest].
  unfold grows_under. unfold push_source_pack in H. rewrite Hrest in H.
  change (CPath "/src") with ["src"] in H. unfold cpath_add in H. mcrush.
  all: rewrite <- ?app_assoc; simpl; eexists;
    (split; [try reflexivity; symmetry; apply app_nil_r|]).
  all: repeat constructor.
Qed.

Lemma push_artifacts_under sha1_hexdigest ctx work m w r w' :
  push_artifacts sha1_hexdigest ctx work m w = (r, w') → grows_under "bld" w w'.
Proof.
  apply (loop_rel (push_artifact sha1_hexdigest ctx) (push_artifacts sha1_hexdigest ctx)
           (grows_under "bld")); try done.
  - apply grows_under_refl.
  - apply grows_under_trans.
  - intros k x m1 w1 r1 w1'. apply push_artifact_under.
Qed.

Lemma push_source_packs_under work m w r w' :
  push_source_packs work m w = (r, w') → grows_under "src" w w'.
Proof.
  apply (loop_rel push_source_pack push_source_packs (grows_under "src")); try done.
  - apply grows_under_refl.
  - apply grows_under_trans.
  - intros k x m1 w1 r1 w1'. apply push_source_pack_under.
Qed.

Lemma source_dry_run_trace lm w r w' :
  source_dry_run lm w = (r, w') → trace w' = trace w.
Proof.
  unfold source_dry_run, logger_info. unfold bind at 1, ret at 1. unfold bind at 1.
  destruct (listdir_all_spec pack_subdirs w) as (r0 & -> & _ & _).
  destruct r0 as [inventory|e]; [|by intros [= <- <-]].
  destruct (dry_run_report_spec source_hint lm inventory w) as (w1 & -> & _ & Ht & _).
  by intros [= <- <-].
Qed.

(** Every call a run makes to the remote storage for the build part (a
    download, a folder creation, an upload) addresses a path under the
    root folder [bld], and every call for the source part a path under
    [src]: the two object classes never touch each other's blobs. *)
Theorem remote_calls_stay_under_root (sha1_hexdigest : bytes → string) (ctx : Ctx)
    (args : Args) (w : World) (r : result unit) (w' : World) :
  (build_objects sha1_hexdigest ctx args w = (r, w') →
   ∃ evs, trace w' = trace w ++ evs ∧ Forall (under "bld") evs) ∧
  (source_objects args w = (r, w') →
   ∃ evs, trace w' = trace w ++ evs ∧ Forall (under "src") evs).
Proof.
  split.
  - unfold build_objects. unfold bind at 1. rewrite load_local_manifest_spec.
    set (w1 := set_trace (λ t, t ++ [ReadFile build_manifest_file]) w).
    assert (grows_under "bld" w w1) as H1 by (by apply grows_under_emit).
    intros H. apply (grows_under_trans _ _ _ _ H1). clear H1.
    destruct (dry_run args) eqn:Hdry.
    + unfold build_dry_run, logger_info, os_listdir_artifact_root in H.
      unfold bind at 1, ret at 1 in H. unfold bind at 1 in H.
      destruct (dry_run_report_spec build_hint (cached build_manifest_file w)
                  (artifact_root w1) w1) as (w2 & Hrep & _ & Ht & _).
      rewrite Hrep in H. simplify_eq. exists []. by rewrite app_nil_r.
    + apply build_push_inv in H as (w0 & r0 & _ & _ & _ & _ & _ & Ht & Hloop & _).
      apply push_artifacts_under in Hloop.
      eapply grows_under_trans; [|exact Hloop].
      eexists. split; [exact Ht|]. by repeat constructor.
  - unfold source_objects. unfold bind at 1. rewrite load_local_manifest_spec.
    set (w1 := set_trace (λ t, t ++ [ReadFile source_manifest_file]) w).
    assert (grows_under "src" w w1) as H1 by (by apply grows_under_emit).
    intros H. apply (grows_under_trans _ _ _ _ H1). clear H1.
    destruct (dry_run args) eqn:Hdry.
    + apply source_dry_run_trace in H. exists []. by rewrite app_nil_r.
    + apply source_push_inv in H
        as (w0 & _ & _ & _ & _ & Ht & [(p & _ & _ & ->) | (inv & r0 & _ & _ & Hloop & _)]).
      * eexists. split; [exact Ht|]. by repeat constructor.
      * apply push_source_packs_under in Hloop.
        eapply grows_under_trans; [|exact Hloop].
        eexists. split; [exact Ht|]. by repeat constructor.
Qed.

(** ** What a push writes on standard output *)

Lemma push_source_pack_effect subdir source_pack m w m' w' :
  push_source_pack subdir source_pack m w = (Ok m', w') →
  let content := Raw (pack_file w (pjoin subdir source_pack)) in
  (∃ l, m !! subdir = Some (EList l) ∧
        m' = <[subdir := EList (l ++ [source_pack])]> m) ∧
  blobs w' = <[source_manifest_path := Json m']>
               (<[pack_blob_path subdir source_pack := content]> (blobs w)) ∧
  folders w' = {[CPath ("/src/" +:+ subdir)]} ∪ folders w ∧
  stdout w' = stdout w ++
    pushing_line (subdir, source_pack) ::
    progress w (Upload (pack_blob_path subdir source_pack) content None) true ++
    progress w (Upload source_manifest_path (Json m') (Some "text/plain")) true.
Proof.
  intros H. unfold push_source_pack in H.
  rewrite source_manifest_upload_path in H. unfold pack_blob_path, pushing_line. mcrush.
  all: rewrite ?lookup_insert_eq in *; simplify_eq.
  all: rewrite <- ?app_assoc; simpl; eauto 10.
Qed.

Lemma push_artifacts_stdout sha1_hexdigest ctx work : ∀ m w m' w',
  push_artifacts sha1_hexdigest ctx work m w = (Ok m', w') →
  ∃ blocks, Forall2 (build_block (progress w)) work blocks ∧
            stdout w' = stdout w ++ concat blocks.
Proof.
  induction work as [|[k x] work IH]; intros m w m' w' H.
  - rewrite build_loop_nil in H. injection H as <- <-.
    exists []. split; [constructor | by rewrite app_nil_r].
  - rewrite build_loop_cons in H.
    destruct (push_artifact sha1_hexdigest ctx k x m w) as [[m1|e] w1] eqn:Hstep; [|done].
    pose proof (push_artifact_frame _ _ _ _ _ _ _ _ Hstep) as (_ & Hp & _).
    apply push_artifact_effect in Hstep as (_ & _ & _ & _ & Hs).
    destruct (IH _ _ _ _ H) as (blocks & Hblocks & Hout). rewrite Hp in Hblocks.
    eexists (_ :: blocks). split.
    + constructor; [|exact Hblocks]. eexists _, _. reflexivity.
    + rewrite Hout, Hs. simpl. by rewrite <- !app_assoc.
Qed.

Lemma push_source_packs_stdout work : ∀ m w m' w',
  push_source_packs work m w = (Ok m', w') →
  ∃ blocks, Forall2 (source_block (progress w)) work blocks ∧
            stdout w' = stdout w ++ concat blocks.
Proof.
  induction work as [|[k x] work IH]; intros m w m' w' H.
  - injection H as <- <-. exists []. split; [constructor | by rewrite app_nil_r].
  - rewrite source_loop_cons in H.
    destruct (push_source_pack k x m w) as [[m1|e] w1] eqn:Hstep; [|done].
    pose proof (push_source_pack_frame _ _ _ _ _ _ Hstep) as (_ & Hp & _).
    apply push_source_pack_effect in Hstep as (_ & _ & _ & Hs).
    destruct (IH _ _ _ _ H) as (blocks & Hblocks & Hout). rewrite Hp in Hblocks.
    eexists (_ :: blocks). split.
    + constructor; [|exact Hblocks]. eexists _, _. reflexivity.
    + by rewrite Hout, Hs, <- app_assoc.
Qed.

Lemma build_plan_stdout args w r w' :
  build_plan args w = (r, w') →
  stdout w' = stdout w ++ fetch_output build_manifest_path w ∧
  progress w' = progress w.
Proof.
  unfold build_plan. fold build_manifest_path. unfold bind at 1.
  destruct (fetch_spec build_manifest_path w)
    as (w1 & -> & _ & _ & _ & _ & Hs & _ & Hp).
  munfold. simpl. intros [= <- <-]. done.
Qed.

(** The code itself writes nothing on standard output in a push of the
    build part: the message of line 290 is built and dropped.  What a push
    of the build part that ends normally has written is the report of the
    progress listener of the manifest download and then, for each artifact
    of the plan in the order of the uploads, the reports of the listeners
    of its two uploads.  A push of the source part that ends normally has
    written the report of the download and then, for each pack of the plan,
    its [Pushing] line followed by the reports of its two uploads. *)
Theorem push_output (sha1_hexdigest : bytes → string) (ctx : Ctx) (args : Args)
    (w : World) :
  dry_run args = false →
  (∀ w', build_objects sha1_hexdigest ctx args w = (Ok tt, w') →
         ∃ blocks,
           Forall2 (build_block (progress w))
             (plan_items
                (plan_build (artifact_root w) (fetched build_manifest_path w)
                   (force args)).2)
             blocks ∧
           stdout w' = stdout w ++ fetch_output build_manifest_path w ++ concat blocks) ∧
  (∀ w', source_objects args w = (Ok tt, w') →
         ∃ inventory blocks,
           listdir_all pack_subdirs w = (Ok inventory, w) ∧
           Forall2 (source_block (progress w))
             (plan_items
                (plan_source inventory (fetched source_manifest_path w) (force args)).2)
             blocks ∧
           stdout w' = stdout w ++ fetch_output source_manifest_path w ++ concat blocks).
Proof.
  intros Hdry. split.
  - intros w'. unfold build_objects. unfold bind at 1.
    rewrite load_local_manifest_spec, Hdry. intros H.
    apply build_push_inv in H as (w0 & r0 & Hplan & _ & _ & _ & _ & _ & Hloop & Hr).
    destruct r0 as [m'|e]; [|done].
    apply build_plan_stdout in Hplan as [Hs Hp].
    apply push_artifacts_stdout in Hloop as (blocks & Hblocks & Hout).
    exists blocks. split.
    + by rewrite Hp in Hblocks.
    + rewrite Hout, Hs. by rewrite <- app_assoc.
  - intros w'. unfold source_objects. unfold bind at 1.
    rewrite load_local_manifest_spec, Hdry. intros H.
    apply source_push_inv in H
      as (w0 & _ & _ & _ & _ & _ & [(p & _ & ? & _) | (inv & r0 & Hl & Hplan & Hloop & Hr)]);
      [done|].
    destruct r0 as [m'|e]; [|done].
    apply source_plan_stdout in Hplan as [Hs Hp].
    apply push_source_packs_stdout in Hloop as (blocks & Hblocks & Hout).
    exists inv, blocks. split; [by apply (listdir_all_again _ w _ Hl)|]. split.
    + by rewrite Hp in Hblocks.
    + rewrite Hout, Hs. by rewrite <- app_assoc.
Qed.

(** ** The remote manifest and the blobs it stands for *)

Section LoopBacked.

Context (step : string → string → gmap string entry → M (gmap string entry)).
Context (loop : list (string * string) → gmap string entry → M (gmap string entry)).
Context (P : cpath) (item_path : string → string → cpath).
Context (m0 : gmap string entry).

Hypothesis loop_nil : ∀ m w, loop [] m w = (Ok m, w).
Hypothesis loop_cons : ∀ k x rest m w,
  loop ((k, x) :: rest) m w =
  match step k x m w with
  | (Ok m1, w1) => loop rest m1 w1
  | (Raise e, w1) => (Raise e, w1)
  end.

Hypothesis step_effect : ∀ k x m w m' w',
  step k x m w = (Ok m', w') →
  (∀ k' x', recorded m' k' x' = true ↔ recorded m k' x' = true ∨ (k' = k ∧ x' = x)) ∧
  ∃ b, blobs w' = <[P := Json m']> (<[item_path k x := b]> (blobs w)).

Hypothesis step_raise : ∀ k x m w e w',
  step k x m w = (Raise e, w') →
  blobs w' = blobs w ∨ ∃ b, blobs w' = <[item_path k x := b]> (blobs w).

(** A pair that [m] records was recorded at the start or has its blob. *)
Let backed (m : gmap string entry) (w : World) : Prop :=
  ∀ k x, recorded m k x = true →
         recorded m0 k x = true ∨ is_Some (blobs w !! item_path k x).

Let remote_backed (w : World) : Prop :=
  ∀ mr, blobs w !! P = Some (Json mr) → backed mr w.

Lemma loop_backed work : ∀ m w r w',
  (∀ k x, (k, x) ∈ work → item_path k x ≠ P) →
  loop work m w = (r, w') →
  backed m w → remote_backed w → remote_backed w'.
Proof.
  induction work as [|[k x] work IH]; intros m w r w' Hpath H Hm Hw.
  - rewrite loop_nil in H. by simplify_eq.
  - rewrite loop_cons in H.
    assert (item_path k x ≠ P) as Hne by (apply Hpath; by left).
    destruct (step k x m w) as [[m1|e] w1] eqn:Hstep.
    + apply step_effect in Hstep as (Hrec & b & Hb).
      assert (backed m1 w1) as Hm1.
      { intros k' x' Hr. apply Hrec in Hr as [Hr | [-> ->]].
        - destruct (Hm _ _ Hr) as [? | Hs]; [by left|]. right. rewrite Hb.
          apply lookup_insert_is_Some'. right. apply lookup_insert_is_Some'. by right.
        - right. rewrite Hb. apply lookup_insert_is_Some'. right.
          apply lookup_insert_is_Some'. by left. }
      eapply (IH m1 w1); [|exact H|exact Hm1|].
      * intros k' x' Hin. apply Hpath. by right.
      * intros mr Hmr. rewrite Hb, lookup_insert_eq in Hmr. by simplify_eq.
    + simplify_eq. apply step_raise in Hstep as [Hb | [b Hb]].
      * intros mr Hmr. rewrite Hb in Hmr. intros k' x' Hr.
        destruct (Hw mr Hmr k' x' Hr) as [? | Hs]; [by left|]. right. by rewrite Hb.
      * intros mr Hmr. rewrite Hb, lookup_insert_ne in Hmr by done. intros k' x' Hr.
        destruct (Hw mr Hmr k' x' Hr) as [? | Hs]; [by left|]. right. rewrite Hb.
        apply lookup_insert_is_Some'. by right.
Qed.

End LoopBacked.

Lemma fetched_stored P w k x :
  recorded (fetched P w) k x = true → recorded (stored P w) k x = true.
Proof.
  unfold fetched, stored. destruct (hd true (oracle w)); [done|].
  by destruct (blobs w !! P) as [[m|s]|].
Qed.

(** However a push ends, a pair the remote manifest copy records was
    recorded by it before the run or has its blob on the remote: the
    manifest is uploaded after the blob of the item it adds, never before. *)
Theorem remote_manifest_backed_by_blobs (sha1_hexdigest : bytes → string) (ctx : Ctx)
    (args : Args) (w : World) (r : result unit) (w' : World) :
  (build_push sha1_hexdigest ctx args w = (r, w') →
   ∀ package artifact,
     recorded (stored build_manifest_path w') package artifact = true →
     recorded (stored build_manifest_path w) package artifact = true ∨
     is_Some (blobs w' !! artifact_blob_path package artifact)) ∧
  (source_push args w = (r, w') →
   ∀ subdir source_pack,
     recorded (stored source_manifest_path w') subdir source_pack = true →
     recorded (stored source_manifest_path w) subdir source_pack = true ∨
     is_Some (blobs w' !! pack_blob_path subdir source_pack)).
Proof.
  split.
  - intros H package artifact Hr.
    apply build_push_inv in H as (w0 & r0 & _ & Hb0 & _ & _ & _ & _ & Hloop & _).
    unfold stored in Hr at 1.
    destruct (blobs w' !! build_manifest_path) as [[mr|s]|] eqn:Hmr; [|done..].
    refine (loop_backed (push_artifact sha1_hexdigest ctx) (push_artifacts sha1_hexdigest ctx)
              build_manifest_path artifact_blob_path (stored build_manifest_path w)
              (build_loop_nil _ _) (build_loop_cons _ _) _ _ _ _ _ _ _ _ Hloop _ _
              mr Hmr package artifact Hr).
    + intros k x m1 w1 m1' w1' Hstep. split.
      * by apply build_step_ok in Hstep as (? & _).
      * apply push_artifact_effect in Hstep as (_ & -> & _). eauto.
    + intros k x m1 w1 e w1' Hstep. by apply build_step_raise in Hstep as (_ & ?).
    + intros k x _. apply artifact_blob_path_ne.
    + intros k x Hk. left. apply fetched_stored. revert Hk. unfold plan_build.
      by rewrite plan_recorded by apply dict_empty.
    + intros m1 Hm1 k x Hk. left. unfold stored. by rewrite <- Hb0, Hm1.
  - intros H subdir source_pack Hr.
    apply source_push_inv in H
      as (w0 & Hb0 & _ & _ & _ & _ & [(p & _ & _ & ->) | (inv & r0 & Hl & _ & Hloop & _)]).
    + left. revert Hr. unfold stored. by rewrite Hb0.
    + unfold stored in Hr at 1.
      destruct (blobs w' !! source_manifest_path) as [[mr|s]|] eqn:Hmr; [|done..].
      refine (loop_backed push_source_pack push_source_packs
                source_manifest_path pack_blob_path (stored source_manifest_path w)
                source_loop_nil source_loop_cons _ _ _ _ _ _ _ _ Hloop _ _
                mr Hmr subdir source_pack Hr).
      * intros k x m1 w1 m1' w1' Hstep. split.
        -- by apply source_step_ok in Hstep as (? & _).
        -- apply push_source_pack_effect in Hstep as (_ & -> & _). eauto.
      * intros k x m1 w1 e w1' Hstep. by apply source_step_raise in Hstep as (_ & ?).
      * intros k x Hin. apply pack_blob_path_ne. apply elem_of_plan_items in Hin.
        by apply (source_plan_keys _ _ _ _ _ _ Hl) in Hin as [? _].
      * intros k x Hk. left. apply fetched_stored. revert Hk. unfold plan_source.
        by rewrite plan_recorded by apply list_empty.
      * intros m1 Hm1 k x Hk. left. unfold stored. by rewrite <- Hb0, Hm1.
Qed.

Lemma remote_calls_stay_under_root_witness :
  let run_result := build_objects scenario_digest scenario_ctx push_args scenario_world in
  ∃ evs, trace run_result.2 = trace scenario_world ++ evs ∧ Forall (under "bld") evs.
Proof.
  intros run_result.
  exact (proj1 (remote_calls_stay_under_root scenario_digest scenario_ctx push_args
                  scenario_world run_result.1 run_result.2)
           (surjective_pairing run_result)).
Defined.

Lemma push_output_witness :
  let run_result := source_objects force_args scenario_world in
  dry_run force_args = false ∧
  run_result = (Ok tt, run_result.2) ∧
  ∃ inventory blocks,
    listdir_all pack_subdirs scenario_world = (Ok inventory, scenario_world) ∧
    Forall2 (source_block (progress scenario_world))
      (plan_items
         (plan_source inventory (fetched source_manifest_path scenario_world)
            (force force_args)).2)
      blocks ∧
    stdout run_result.2 =
      stdout scenario_world ++ fetch_output source_manifest_path scenario_world ++
      concat blocks.
Proof.
  intros run_result.
  assert (source_objects force_args scenario_world = (Ok tt, run_result.2)) as H
    by (vm_compute; reflexivity).
  split; [reflexivity|]. split; [exact H|].
  exact (proj2 (push_output scenario_digest scenario_ctx force_args scenario_world eq_refl)
           run_result.2 H).
Defined.

Lemma remote_manifest_backed_by_blobs_witness :
  let run_result := build_push scenario_digest scenario_ctx push_args scenario_world in
  recorded (stored build_manifest_path run_result.2) "pkgA" "art2" = true ∧
  (recorded (stored build_manifest_path scenario_world) "pkgA" "art2" = true ∨
   is_Some (blobs run_result.2 !! artifact_blob_path "pkgA" "art2")).
Proof.
  intros run_result.
  assert (recorded (stored build_manifest_path run_result.2) "pkgA" "art2" = true) as H
    by (vm_compute; reflexivity).
  split; [exact H|].
  exact (proj1 (remote_manifest_backed_by_blobs scenario_digest scenario_ctx push_args
                  scenario_world run_result.1 run_result.2)
           (surjective_pairing run_result) "pkgA" "art2" H).
Defined.


(** * [hit remote] *)

Ltac runfold :=
  unfold Remote.run_body, Remote.add, Remote.show, Remote.show_remote, Remote.show_line,
    Remote.try_except, Remote.path_exists, Remote.makedirs, Remote.write_file,
    Remote.read_file, Remote.listdir_remotes, Remote.stdout_write, Remote.logger,
    Remote.bind, Remote.ret, Remote.raise, Remote.set_remotes in *.

(** ** The imports *)


(** ** [add] *)

(** The statements of [add] behind the imports create the directory of the
    remote before they look at the arguments.  Without [--app-id] or
    [--app-secret] they exit with status 1 and write no file, but a
    directory they had to create stays behind, empty; a directory that was
    there already, and every other remote, is as before. *)
Theorem add_without_credentials (bootstrap : Remote.Args → Remote.Cmd unit)
    (pprint_json : string → option string) (args : Remote.Args) (d : Remote.Disk) :
  Remote.subcommand args = "add" →
  Remote.app_id args = None ∨ Remote.app_secret args = None →
  ∃ d', Remote.run_body bootstrap pprint_json args d = (inl (Remote.SystemExit 1), d') ∧
        Remote.stdout d' = Remote.stdout d ∧
        (∀ other, other ≠ Remote.name args →
                  Remote.files_of other d' = Remote.files_of other d) ∧
        match Remote.files_of (Remote.name args) d with
        | Some files => d' = d
        | None => if Remote.can_makedirs d
                  then Remote.files_of (Remote.name args) d' = Some ∅
                  else d' = d
        end.
Proof.
  intros Hsub Hcred. unfold Remote.run_body. rewrite Hsub. simpl. runfold. cbv beta.
  destruct (Remote.files_of (Remote.name args) d) as [files|] eqn:Hfiles.
  - rewrite bool_decide_eq_true_2 by eauto.
    exists d. destruct Hcred as [-> | ->]; [|destruct (Remote.app_id args)]; done.
  - rewrite bool_decide_eq_false_2 by (by intros [? ?]). simpl.
    rewrite ?Hfiles. rewrite bool_decide_eq_false_2 by (by intros [? ?]).
    destruct (Remote.can_makedirs d) eqn:Hmk; simpl.
    + eexists. split; [destruct Hcred as [-> | ->]; [|destruct (Remote.app_id args)];
                        reflexivity|].
      unfold Remote.files_of. simpl. split; [done|]. split.
      * intros other Hne. rewrite lookup_insert_ne by done.
        destruct (Remote.remotes d); simpl; by rewrite ?lookup_empty.
      * by rewrite lookup_insert_eq.
    + exists d. done.
Qed.

(** With both [--app-id] and [--app-secret], the statements of [add]
    behind the imports write the application file before anything of
    [pcs_api] runs: the OAuth bootstrap starts on a disk where the
    directory of the remote holds [app_info_data.txt] with the formatted
    line, in place of an earlier one, and the other files of the remote
    and the other remotes as they were. *)
Theorem add_writes_app_info_first (bootstrap : Remote.Args → Remote.Cmd unit)
    (pprint_json : string → option string) (args : Remote.Args) (d : Remote.Disk)
    (id secret : string) (files : gmap string string) :
  Remote.subcommand args = "add" →
  Remote.app_id args = Some id → Remote.app_secret args = Some secret →
  Remote.files_of (Remote.name args) d = Some files ∨
  (Remote.files_of (Remote.name args) d = None ∧ Remote.can_makedirs d = true ∧ files = ∅) →
  ∃ d1, Remote.run_body bootstrap pprint_json args d = bootstrap args d1 ∧
        Remote.files_of (Remote.name args) d1 =
          Some (<["app_info_data.txt" :=
                    Remote.app_info_data (Remote.pcs args) (Remote.app_name args) id secret]>
                  files) ∧
        (∀ other, other ≠ Remote.name args →
                  Remote.files_of other d1 = Remote.files_of other d) ∧
        Remote.stdout d1 = Remote.stdout d.
Proof.
  intros Hsub Hid Hsecret Hdir. unfold Remote.run_body. rewrite Hsub. simpl. runfold. cbv beta.
  rewrite Hid, Hsecret.
  destruct Hdir as [Hfiles | (Hfiles & Hmk & ->)]; rewrite Hfiles.
  - rewrite bool_decide_eq_true_2 by eauto. rewrite Hfiles.
    eexists. split; [reflexivity|]. unfold Remote.files_of in *. simpl.
    destruct (Remote.remotes d) as [rs|]; [|done]. simpl.
    rewrite lookup_insert_eq. split; [done|]. split; [|done].
    intros other Hne. by rewrite lookup_insert_ne.
  - rewrite bool_decide_eq_false_2 by (by intros [? ?]). simpl.
    rewrite ?Hfiles. rewrite bool_decide_eq_false_2 by (by intros [? ?]).
    rewrite Hmk. simpl. unfold Remote.files_of at 1. simpl. rewrite lookup_insert_eq.
    eexists. split; [reflexivity|]. unfold Remote.files_of in *. simpl.
    rewrite lookup_insert_eq. split; [done|]. split; [|done].
    intros other Hne. rewrite !lookup_insert_ne by done.
    destruct (Remote.remotes d); simpl; by rewrite ?lookup_empty.
Qed.

(** ** [show] *)

Lemma for_each_show_names pprint_json (args : Remote.Args) names : ∀ d,
  Remote.verbose args = false →
  Remote.for_each (Remote.show_remote pprint_json args) names d =
  (inr tt, Remote.mkDisk (Remote.remotes d) (Remote.can_makedirs d)
             (Remote.stdout d ++
                map (λ n, n +:+ String Remote.newline EmptyString) names)).
Proof.
  intros d Hv. revert d. induction names as [|n names IH]; intros d.
  - simpl. rewrite app_nil_r. by destruct d.
  - simpl. unfold Remote.bind at 1. unfold Remote.show_remote at 1. rewrite Hv.
    runfold. simpl. rewrite IH. simpl. by rewrite <- app_assoc.
Qed.

(** Without [--verbose], the statements of [show] behind the imports write
    the name of every remote once, one on a line, and change nothing; when
    the directory [remotes] does not exist they raise [OSError] without
    writing a line. *)
Theorem show_lists_remote_names (bootstrap : Remote.Args → Remote.Cmd unit)
    (pprint_json : string → option string) (args : Remote.Args) (d : Remote.Disk) :
  Remote.subcommand args = "show" → Remote.verbose args = false →
  match Remote.remotes d with
  | Some rs =>
      ∃ names,
        names ≡ₚ elements (dom rs) ∧
        Remote.run_body bootstrap pprint_json args d =
          (inr tt, Remote.mkDisk (Remote.remotes d) (Remote.can_makedirs d)
                     (Remote.stdout d ++
                        map (λ n, n +:+ String Remote.newline EmptyString) names))
  | None =>
      Remote.run_body bootstrap pprint_json args d = (inl (Remote.OSError "remotes"), d)
  end.
Proof.
  intros Hsub Hv. unfold Remote.run_body. rewrite Hsub. simpl.
  unfold Remote.show, Remote.listdir_remotes, Remote.bind.
  destruct (Remote.remotes d) as [rs|] eqn:Hrs; [|done].
  exists (map_to_list rs).*1. split.
  - apply NoDup_Permutation.
    + apply NoDup_fst_map_to_list.
    + apply NoDup_elements.
    + intros n. rewrite elem_of_elements, elem_of_dom, list_elem_of_fmap. split.
      * intros ([k v] & -> & Hin). apply elem_of_map_to_list in Hin. eauto.
      * intros [v Hv']. exists (n, v). split; [done|]. by apply elem_of_map_to_list.
  - rewrite for_each_show_names by done. by rewrite Hrs.
Qed.

(** ** The application file, written by [add] and read by [show] *)

Lemma append_cons c a b : String c a +:+ b = String c (a +:+ b).
Proof. reflexivity. Qed.

Lemma count_app sep a b :
  Remote.count sep (a +:+ b) = Remote.count sep a + Remote.count sep b.
Proof.
  induction a as [|c a IH]; [done|].
  rewrite append_cons. simpl. rewrite IH. lia.
Qed.

Lemma split_length sep s : length (Remote.split sep s) = S (Remote.count sep s).
Proof.
  induction s as [|c s IH]; [done|]. simpl.
  destruct (Ascii.eqb c sep); simpl; [by rewrite IH|].
  destruct (Remote.split sep s); simpl in *; lia.
Qed.

Lemma show_line_unpack pprint_json line d :
  Remote.startswith_hash (Remote.strip line) = false →
  Remote.count "="%char line ≠ 1 →
  Remote.show_line pprint_json line d = (inl Remote.ValueError, d).
Proof.
  intros Hc Hn. unfold Remote.show_line. rewrite Hc.
  pose proof (split_length "="%char line) as Hl.
  destruct (Remote.split "="%char line) as [|a [|b [|c l]]]; simpl in Hl; try done.
  lia.
Qed.

(** The line [add] formats (lines 76-78) is cut by [split] at every [=]
    (line 108) into two pieces and one more for every [=] in the provider
    name, the application name, the application id and the application
    secret.  So the unpacking of line 108 gets its two pieces when none of
    the four holds an [=]; when one does, the body of the loop of [show]
    ends with [ValueError] on that line, unless the line is a comment. *)
Theorem app_info_line_splits (pcs app_name id secret : string) :
  let line := Remote.app_info_data pcs app_name id secret in
  let extra := (Remote.count "="%char pcs + Remote.count "="%char app_name +
                Remote.count "="%char id + Remote.count "="%char secret)%nat in
  length (Remote.split "="%char line) = (2 + extra)%nat ∧
  (extra = 0%nat → ∃ key value, Remote.split "="%char line = [key; value]) ∧
  (extra ≠ 0%nat → Remote.startswith_hash (Remote.strip line) = false →
   ∀ pprint_json d, Remote.show_line pprint_json line d = (inl Remote.ValueError, d)).
Proof.
  intros line extra.
  assert (Remote.count "="%char line = S extra) as Hcount.
  { unfold line, extra, Remote.app_info_data.
    rewrite !count_app. vm_compute (Remote.count _ Remote.dq).
    vm_compute (Remote.count _ Remote.continuation).
    simpl. lia. }
  assert (length (Remote.split "="%char line) = (2 + extra)%nat) as Hlen.
  { rewrite split_length, Hcount. lia. }
  split; [exact Hlen|]. split.
  - intros H0. rewrite H0 in Hlen.
    destruct (Remote.split "="%char line) as [|key [|value [|? ?]]]; simpl in Hlen;
      try lia. by exists key, value.
  - intros Hne Hc pprint_json d. apply show_line_unpack; [done|]. rewrite Hcount. lia.
Qed.

(** The statements of [show --verbose] behind the imports unpack the
    pieces of every line of the application file that is not a comment
    into two names.  When the first line has no [=] or more than one, they
    end with [ValueError] after the name of the remote and its underline,
    and show nothing of the remote. *)
Theorem show_verbose_needs_one_equals (bootstrap : Remote.Args → Remote.Cmd unit)
    (pprint_json : string → option string) (args : Remote.Args) (d : Remote.Disk)
    (remote_name text line : string) (lines : list string)
    (files : gmap string string) :
  Remote.subcommand args = "show" → Remote.verbose args = true →
  Remote.remotes d = Some {[ remote_name := files ]} →
  files !! "app_info_data.txt" = Some text →
  Remote.readlines text = line :: lines →
  Remote.startswith_hash (Remote.strip line) = false →
  Remote.count "="%char line ≠ 1 →
  Remote.run_body bootstrap pprint_json args d =
    (inl Remote.ValueError,
     Remote.mkDisk (Remote.remotes d) (Remote.can_makedirs d)
       (Remote.stdout d ++
          [ remote_name +:+ String Remote.newline EmptyString;
            Remote.underline (String.length remote_name) +:+
              String Remote.newline EmptyString ])).
Proof.
  intros Hsub Hv Hrs Hfile Hlines Hc Hn. unfold Remote.run_body. rewrite Hsub. simpl.
  unfold Remote.show, Remote.listdir_remotes, Remote.bind. rewrite Hrs.
  rewrite map_to_list_singleton. simpl.
  unfold Remote.bind, Remote.show_remote. rewrite Hv.
  unfold Remote.bind, Remote.stdout_write, Remote.read_file, Remote.files_of. simpl.
  rewrite Hrs, lookup_singleton_eq, Hfile, Hlines. simpl.
  unfold Remote.bind. rewrite show_line_unpack by done. by rewrite <- app_assoc.
Qed.

(** Behind the imports, the statements of an [add] that exits for want of
    credentials on a store that has no remote leave an empty directory;
    those of a [show --verbose] after it write the name of that remote and
    its underline and end with [IOError] on the application file that was
    never written. *)
Theorem failed_add_breaks_verbose_show (bootstrap : Remote.Args → Remote.Cmd unit)
    (pprint_json : string → option string) (add_args show_args : Remote.Args)
    (d : Remote.Disk) :
  Remote.subcommand add_args = "add" →
  Remote.app_id add_args = None ∨ Remote.app_secret add_args = None →
  Remote.remotes d = None → Remote.can_makedirs d = true →
  Remote.subcommand show_args = "show" → Remote.verbose show_args = true →
  ∃ d1 d2,
    Remote.run_body bootstrap pprint_json add_args d = (inl (Remote.SystemExit 1), d1) ∧
    Remote.run_body bootstrap pprint_json show_args d1 =
      (inl (Remote.IOError (pjoin (Remote.name add_args) "app_info_data.txt")), d2) ∧
    Remote.stdout d2 =
      Remote.stdout d ++
        [ Remote.name add_args +:+ String Remote.newline EmptyString;
          Remote.underline (String.length (Remote.name add_args)) +:+
            String Remote.newline EmptyString ].
Proof.
  intros Hsub Hcred Hrs Hmk Hshow Hv.
  assert (Remote.run_body bootstrap pprint_json add_args d =
            (inl (Remote.SystemExit 1),
             Remote.mkDisk (Some {[ Remote.name add_args := ∅ ]}) true (Remote.stdout d)))
    as Hadd.
  { unfold Remote.run_body. rewrite Hsub. simpl. runfold. cbv beta.
    unfold Remote.files_of. rewrite Hrs. simpl. rewrite Hrs, Hmk. simpl.
    destruct Hcred as [-> | ->]; [|destruct (Remote.app_id add_args)]; done. }
  eexists _, _. split; [exact Hadd|].
  unfold Remote.run_body. rewrite Hshow. simpl.
  unfold Remote.show, Remote.listdir_remotes, Remote.bind. simpl.
  rewrite map_to_list_singleton. simpl.
  unfold Remote.bind, Remote.show_remote. rewrite Hv.
  unfold Remote.bind, Remote.stdout_write, Remote.read_file, Remote.files_of. simpl.
  rewrite lookup_singleton_eq, lookup_empty. split; [reflexivity|]. simpl.
  by rewrite <- app_assoc.
Qed.

Lemma add_without_credentials_witness :
  Remote.subcommand remote_add_incomplete = "add" ∧
  Remote.app_secret remote_add_incomplete = None ∧
  ∃ d', Remote.run_body no_bootstrap no_pprint remote_add_incomplete empty_disk =
          (inl (Remote.SystemExit 1), d') ∧
        Remote.files_of "primary" d' = Some ∅.
Proof.
  split; [reflexivity|]. split; [reflexivity|].
  destruct (add_without_credentials no_bootstrap no_pprint remote_add_incomplete empty_disk
              eq_refl (or_intror eq_refl)) as (d' & Hrun & _ & _ & Hdir).
  exists d'. split; [exact Hrun | exact Hdir].
Defined.

Lemma add_writes_app_info_first_witness :
  Remote.subcommand remote_add_args = "add" ∧
  Remote.files_of "primary" empty_disk = None ∧
  Remote.can_makedirs empty_disk = true ∧
  ∃ d1, Remote.run_body no_bootstrap no_pprint remote_add_args empty_disk =
          no_bootstrap remote_add_args d1 ∧
        Remote.files_of "primary" d1 =
          Some {[ "app_info_data.txt" :=
                    Remote.app_info_data "dropbox" "hd_osx" "x" "c2VjcmV0PQ==" ]}.
Proof.
  split; [reflexivity|]. split; [reflexivity|]. split; [reflexivity|].
  destruct (add_writes_app_info_first no_bootstrap no_pprint remote_add_args empty_disk
              "x" "c2VjcmV0PQ==" ∅ eq_refl eq_refl eq_refl
              (or_intror (conj eq_refl (conj eq_refl eq_refl))))
    as (d1 & Hrun & Hfiles & _).
  exists d1. split; [exact Hrun | exact Hfiles].
Defined.

Lemma show_lists_remote_names_witness :
  Remote.subcommand (remote_show_args false) = "show" ∧
  Remote.verbose (remote_show_args false) = false ∧
  ∃ names,
    names ≡ₚ elements (dom ({[ "primary" := ∅ ]} : gmap string (gmap string string))) ∧
    Remote.run_body no_bootstrap no_pprint (remote_show_args false)
      (Remote.mkDisk (Some {[ "primary" := ∅ ]}) true []) =
      (inr tt, Remote.mkDisk (Some {[ "primary" := ∅ ]}) true
                 ([] ++ map (λ n, n +:+ String Remote.newline EmptyString) names)).
Proof.
  split; [reflexivity|]. split; [reflexivity|].
  exact (show_lists_remote_names no_bootstrap no_pprint (remote_show_args false)
           (Remote.mkDisk (Some {[ "primary" := ∅ ]}) true []) eq_refl eq_refl).
Defined.

Lemma show_verbose_needs_one_equals_witness :
  let text := Remote.app_info_data "dropbox" "hd_osx" "x" "c2VjcmV0PQ==" in
  Remote.remotes added_disk = Some {[ "primary" := {[ "app_info_data.txt" := text ]} ]} ∧
  Remote.readlines text = [text] ∧
  Remote.startswith_hash (Remote.strip text) = false ∧
  Remote.count "="%char text = 3 ∧
  (Remote.run_body no_bootstrap no_pprint (remote_show_args true) added_disk).1 =
    inl Remote.ValueError.
Proof.
  intros text.
  assert (Remote.remotes added_disk =
            Some {[ "primary" := {[ "app_info_data.txt" := text ]} ]}) as H1
    by (vm_compute; reflexivity).
  assert (({[ "app_info_data.txt" := text ]} : gmap string string) !! "app_info_data.txt"
            = Some text) as H2 by (vm_compute; reflexivity).
  assert (Remote.readlines text = [text]) as H3 by (vm_compute; reflexivity).
  assert (Remote.startswith_hash (Remote.strip text) = false) as H4
    by (vm_compute; reflexivity).
  assert (Remote.count "="%char text = 3) as H5 by (vm_compute; reflexivity).
  assert (Remote.count "="%char text ≠ 1) as H6 by (rewrite H5; lia).
  split; [exact H1|]. split; [exact H3|]. split; [exact H4|]. split; [exact H5|].
  rewrite (show_verbose_needs_one_equals no_bootstrap no_pprint (remote_show_args true)
             added_disk "primary" text text [] _ eq_refl eq_refl H1 H2 H3 H4 H6).
  reflexivity.
Defined.

Lemma failed_add_breaks_verbose_show_witness :
  Remote.subcommand remote_add_incomplete = "add" ∧
  Remote.app_secret remote_add_incomplete = None ∧
  Remote.remotes empty_disk = None ∧ Remote.can_makedirs empty_disk = true ∧
  ∃ d1 d2,
    Remote.run_body no_bootstrap no_pprint remote_add_incomplete empty_disk =
      (inl (Remote.SystemExit 1), d1) ∧
    Remote.run_body no_bootstrap no_pprint (remote_show_args true) d1 =
      (inl (Remote.IOError (pjoin "primary" "app_info_data.txt")), d2).
Proof.
  split; [reflexivity|]. split; [reflexivity|]. split; [reflexivity|].
  split; [reflexivity|].
  destruct (failed_add_breaks_verbose_show no_bootstrap no_pprint remote_add_incomplete
              (remote_show_args true) empty_disk eq_refl (or_intror eq_refl)
              eq_refl eq_refl eq_refl eq_refl) as (d1 & d2 & Hadd & Hshow & _).
  exists d1, d2. split; [exact Hadd | exact Hshow].
Defined.

Lemma app_info_line_splits_witness :
  let line := Remote.app_info_data "dropbox" "hd_osx" "x" "c2VjcmV0PQ==" in
  (Remote.count "="%char "dropbox" + Remote.count "="%char "hd_osx" +
   Remote.count "="%char "x" + Remote.count "="%char "c2VjcmV0PQ==")%nat ≠ 0%nat ∧
  Remote.startswith_hash (Remote.strip line) = false ∧
  Remote.show_line no_pprint line empty_disk = (inl Remote.ValueError, empty_disk).
Proof.
  intros line.
  assert ((Remote.count "="%char "dropbox" + Remote.count "="%char "hd_osx" +
           Remote.count "="%char "x" + Remote.count "="%char "c2VjcmV0PQ==")%nat ≠ 0%nat)
    as H1 by (vm_compute; lia).
  assert (Remote.startswith_hash (Remote.strip line) = false) as H2
    by (vm_compute; reflexivity).
  split; [exact H1|]. split; [exact H2|].
  exact (proj2 (proj2 (app_info_line_splits "dropbox" "hd_osx" "x" "c2VjcmV0PQ=="))
           H1 H2 no_pprint empty_disk).
Defined.
